(** * OFX statement generator: validated data model and document generation

    A shallow embedding of the [ofx_generator] package:
    - [standards.py]: the closed enumerations and the validation predicates;
    - [formatters.py]: the date and amount formatters;
    - [models.py]: the self-validating entities;
    - [generator.py]: the element tree built by [OFXGenerator.generate] and
      its serialisation, and the same code run statement by statement on
      element objects in a store ([Stateful]).

    Conventions.  A Python [str] is a [string]; a character is read as the
    code point U+0000..U+00FF that its [ascii] value numbers.  A constructor
    that can raise returns a [result].  Library calls the package relies on
    ([str.isalnum], [date.strftime], [Decimal.__str__], [Decimal.__format__],
    [ElementTree.tostring]) are modelled after their documented behaviour. *)

From Stdlib Require Import String Ascii List Bool Lia.
From Stdlib Require Import ZArith NArith QArith Qabs Qpower.
From Stdlib Require Import Decimal DecimalString DecimalPos DecimalN.
Import ListNotations.

Open Scope string_scope.

(* ================================================================== *)
(** * Python strings *)

Module PyStr.

Definition ord (c : ascii) : nat := nat_of_ascii c.

Definition between (lo hi : nat) (c : ascii) : bool :=
  (lo <=? ord c)%nat && (ord c <=? hi)%nat.

Definition is_ascii_digit (c : ascii) : bool := between 48 57 c.

Definition is_ascii_letter (c : ascii) : bool :=
  between 65 90 c || between 97 122 c.

(** [str.isdecimal], [str.isdigit], [str.isnumeric] and [str.isalpha] on
    one character, as the Unicode character database classifies the code
    points U+0000..U+00FF:
    - decimal: 0-9;
    - digit: the decimals and the superscripts U+00B2, U+00B3, U+00B9;
    - numeric: the digits and the fractions U+00BC..U+00BE;
    - alphabetic (categories Lu, Ll, Lo): A-Z, a-z, U+00AA, U+00B5,
      U+00BA, U+00C0..U+00D6, U+00D8..U+00F6, U+00F8..U+00FF. *)
Definition isdecimal_char (c : ascii) : bool := is_ascii_digit c.

Definition isdigit_char (c : ascii) : bool :=
  isdecimal_char c || (ord c =? 178)%nat || (ord c =? 179)%nat
  || (ord c =? 185)%nat.

Definition isnumeric_char (c : ascii) : bool :=
  isdigit_char c || between 188 190 c.

Definition isalpha_char (c : ascii) : bool :=
  is_ascii_letter c || (ord c =? 170)%nat || (ord c =? 181)%nat
  || (ord c =? 186)%nat || between 192 214 c || between 216 246 c
  || between 248 255 c.

(** [Py_UNICODE_ISALNUM]: alpha, decimal, digit or numeric. *)
Definition isalnum_char (c : ascii) : bool :=
  isalpha_char c || isdecimal_char c || isdigit_char c || isnumeric_char c.

Fixpoint all (p : ascii -> bool) (s : string) : bool :=
  match s with
  | EmptyString => true
  | String c s' => p c && all p s'
  end.

(** Truth value of a string: the empty string is false. *)
Definition truthy (s : string) : bool :=
  match s with EmptyString => false | String _ _ => true end.

(** Truth value of an optional string: [None] and the empty string are false. *)
Definition truthy_opt (o : option string) : bool :=
  match o with None => false | Some s => truthy s end.

Definition len (s : string) : nat := String.length s.

(** [s.isalnum()]: at least one character and all of them alphanumeric. *)
Definition isalnum (s : string) : bool := truthy s && all isalnum_char s.

(** [c * n] for a one-character string. *)
Fixpoint times (c : ascii) (n : nat) : string :=
  match n with O => EmptyString | S n' => String c (times c n') end.

(** [s.replace(c, r)] for a one-character pattern [c]. *)
Fixpoint replace (c : ascii) (r : string) (s : string) : string :=
  match s with
  | EmptyString => EmptyString
  | String a s' =>
      if Ascii.eqb a c then r ++ replace c r s'
      else String a (replace c r s')
  end.

(** Decimal rendering of a natural number, [str(n)]. *)
Definition of_N (n : N) : string :=
  NilEmpty.string_of_uint (N.to_uint n).

(** ["%+d" % z]. *)
Definition of_Z_signed (z : Z) : string :=
  (if (z <? 0)%Z then "-" else "+") ++ of_N (Z.abs_N z).

(** [str(z)] for an integer. *)
Definition of_Z (z : Z) : string :=
  (if (z <? 0)%Z then "-" else EmptyString) ++ of_N (Z.abs_N z).

(** Left padding with zeros up to [width] characters, as ["%0<width>d"]. *)
Definition zfill (width : nat) (s : string) : string :=
  times "0" (width - len s) ++ s.

End PyStr.

(* ================================================================== *)
(** * Exceptions and results *)

Inductive Exception : Type :=
| ValidationError (msg : string)
| ValueError (value : string) (enum_name : string).

Inductive result (A : Type) : Type :=
| Ok (a : A)
| Raise (e : Exception).

Arguments Ok {A} a.
Arguments Raise {A} e.

Definition bind {A B : Type} (r : result A) (k : A -> result B) : result B :=
  match r with
  | Ok a => k a
  | Raise e => Raise e
  end.

Notation "x <- r ;; k" := (bind r (fun x => k))
  (at level 61, r at next level, right associativity).

(** [if cond: raise ValidationError(msg)]. *)
Definition raise_if (cond : bool) (msg : string) : result unit :=
  if cond then Raise (ValidationError msg) else Ok tt.

Definition is_ok {A : Type} (r : result A) : bool :=
  match r with Ok _ => true | Raise _ => false end.

(* ================================================================== *)
(** * standards.py: enumerations *)

(** Lookup of an enumeration member by value, [Enum(value)]: the member
    whose value is [v], or [ValueError]. *)
Definition enum_lookup {E : Type} (members : list E) (value : E -> string)
    (enum_name : string) (v : string) : result E :=
  match find (fun m => String.eqb (value m) v) members with
  | Some m => Ok m
  | None => Raise (ValueError v enum_name)
  end.

(** A field that accepts either a member or its raw code:
    [if not isinstance(x, E): x = E(x)]. *)
Definition coerce {E : Type} (lookup : string -> result E) (x : E + string)
    : result E :=
  match x with
  | inl m => Ok m
  | inr v => lookup v
  end.

Module TransactionType.
Inductive t : Type :=
| CREDIT | DEBIT | INTEREST | DIVIDEND | FEE | SERVICE_CHARGE | DEPOSIT
| ATM | POINT_OF_SALE | TRANSFER | CHECK | PAYMENT | CASH | DIRECT_DEPOSIT
| DIRECT_DEBIT | REPEATING_PAYMENT | OTHER.

Definition value (m : t) : string :=
  match m with
  | CREDIT => "CREDIT" | DEBIT => "DEBIT" | INTEREST => "INT"
  | DIVIDEND => "DIV" | FEE => "FEE" | SERVICE_CHARGE => "SRVCHG"
  | DEPOSIT => "DEP" | ATM => "ATM" | POINT_OF_SALE => "POS"
  | TRANSFER => "XFER" | CHECK => "CHECK" | PAYMENT => "PAYMENT"
  | CASH => "CASH" | DIRECT_DEPOSIT => "DIRECTDEP"
  | DIRECT_DEBIT => "DIRECTDEBIT" | REPEATING_PAYMENT => "REPEATPMT"
  | OTHER => "OTHER"
  end.

Definition members : list t :=
  [CREDIT; DEBIT; INTEREST; DIVIDEND; FEE; SERVICE_CHARGE; DEPOSIT; ATM;
   POINT_OF_SALE; TRANSFER; CHECK; PAYMENT; CASH; DIRECT_DEPOSIT;
   DIRECT_DEBIT; REPEATING_PAYMENT; OTHER].

Definition of_value : string -> result t :=
  enum_lookup members value "TransactionType".
End TransactionType.

Module AccountType.
Inductive t : Type :=
| CHECKING | SAVINGS | MONEY_MARKET | CREDIT_LINE | CERTIFICATE_OF_DEPOSIT.

Definition value (m : t) : string :=
  match m with
  | CHECKING => "CHECKING" | SAVINGS => "SAVINGS"
  | MONEY_MARKET => "MONEYMRKT" | CREDIT_LINE => "CREDITLINE"
  | CERTIFICATE_OF_DEPOSIT => "CD"
  end.

Definition members : list t :=
  [CHECKING; SAVINGS; MONEY_MARKET; CREDIT_LINE; CERTIFICATE_OF_DEPOSIT].

Definition of_value : string -> result t :=
  enum_lookup members value "AccountType".
End AccountType.

Module Language.
Inductive t : Type :=
| ENGLISH | PORTUGUESE | SPANISH | FRENCH | GERMAN | ITALIAN.

Definition value (m : t) : string :=
  match m with
  | ENGLISH => "ENG" | PORTUGUESE => "POR" | SPANISH => "SPA"
  | FRENCH => "FRA" | GERMAN => "DEU" | ITALIAN => "ITA"
  end.

Definition members : list t :=
  [ENGLISH; PORTUGUESE; SPANISH; FRENCH; GERMAN; ITALIAN].

Definition of_value : string -> result t :=
  enum_lookup members value "Language".
End Language.

Module Currency.
Inductive t : Type := US_DOLLAR | BRAZILIAN_REAL | EURO | BRITISH_POUND.

Definition value (m : t) : string :=
  match m with
  | US_DOLLAR => "USD" | BRAZILIAN_REAL => "BRL" | EURO => "EUR"
  | BRITISH_POUND => "GBP"
  end.

Definition members : list t := [US_DOLLAR; BRAZILIAN_REAL; EURO; BRITISH_POUND].

Definition of_value : string -> result t :=
  enum_lookup members value "Currency".
End Currency.

Module Security.
Inductive t : Type := NONE | TYPE1.

Definition value (m : t) : string :=
  match m with NONE => "NONE" | TYPE1 => "TYPE1" end.

Definition members : list t := [NONE; TYPE1].

Definition of_value : string -> result t :=
  enum_lookup members value "Security".
End Security.

Module Encoding.
Inductive t : Type := ASCII | UTF8.

Definition value (m : t) : string :=
  match m with ASCII => "USASCII" | UTF8 => "UTF8" end.

Definition members : list t := [ASCII; UTF8].

Definition of_value : string -> result t :=
  enum_lookup members value "Encoding".
End Encoding.

Module Compression.
Inductive t : Type := NONE.

Definition value (m : t) : string := match m with NONE => "NONE" end.

Definition members : list t := [NONE].

Definition of_value : string -> result t :=
  enum_lookup members value "Compression".
End Compression.

Module OFXVersion.
Definition SUPPORTED_VERSIONS : list Z := [211%Z].

Definition validate (version : Z) : bool :=
  existsb (Z.eqb version) SUPPORTED_VERSIONS.
End OFXVersion.

Module CharSet.
Definition VALID_CHARSETS : list Z := [1252%Z].

Definition validate (charset : Z) : bool :=
  existsb (Z.eqb charset) VALID_CHARSETS.
End CharSet.

(* ================================================================== *)
(** * The platform

    What the interpreter and the C library under it supply and the
    language does not fix:
    - the binary floating-point numbers and their printing by [str]; they
      enter the package only as the two figures of a credit-card account;
    - whether the [%Y] directive of [strftime] pads a year below 1000 with
      zeros.  [date.strftime] hands the directive to the C library: the GNU
      C library does not pad (CPython up to 3.12 on Linux prints year 999
      as [999]); CPython from 3.13 on, and the C libraries of macOS and
      Windows, pad to four digits. *)
Class Platform : Type :=
  { float : Type;
    float_str : float -> string;
    pads_year : bool }.

(* ================================================================== *)
(** * Calendar dates ([datetime.date]) *)

Module Date.

Record t : Type := { year : N; month : N; day : N }.

Definition is_leap (y : N) : bool :=
  ((y mod 4 =? 0) && (negb (y mod 100 =? 0) || (y mod 400 =? 0)))%N.

Definition days_in_month (y m : N) : N :=
  match m with
  | 2 => if is_leap y then 29 else 28
  | 4 | 6 | 9 | 11 => 30
  | _ => 31
  end%N.

(** The values [date(year, month, day)] accepts: a day of the proleptic
    Gregorian calendar between years 1 and 9999. *)
Definition valid (d : t) : bool :=
  ((1 <=? year d) && (year d <=? 9999) && (1 <=? month d) && (month d <=? 12)
   && (1 <=? day d) && (day d <=? days_in_month (year d) (month d)))%N.

(** [a <= b], the chronological order. *)
Definition leb (a b : t) : bool :=
  ((year a <? year b)
   || ((year a =? year b)
       && ((month a <? month b)
           || ((month a =? month b) && (day a <=? day b)))))%N.

(** One directive of [strftime]: [%Y] is the year with century, padded to
    four digits where the platform pads; [%m] and [%d] are the month and
    the day, zero-padded to two digits.  Only the directives the package
    uses are interpreted. *)
Definition directive {P : Platform} (value : t) (c : ascii) : string :=
  if Ascii.eqb c "Y" then
    PyStr.zfill (if pads_year then 4 else 1) (PyStr.of_N (year value))
  else if Ascii.eqb c "m" then PyStr.zfill 2 (PyStr.of_N (month value))
  else if Ascii.eqb c "d" then PyStr.zfill 2 (PyStr.of_N (day value))
  else String "%" (String c EmptyString).

Fixpoint strftime {P : Platform} (value : t) (fmt : string) : string :=
  match fmt with
  | EmptyString => EmptyString
  | String c rest =>
      match rest with
      | String k rest' =>
          if Ascii.eqb c "%" then directive value k ++ strftime value rest'
          else String c (strftime value rest)
      | EmptyString => String c EmptyString
      end
  end.

End Date.

(* ================================================================== *)
(** * Exact decimals ([decimal.Decimal]) *)

Module Decimal.

(** A finite decimal: sign (true for negative), coefficient and exponent;
    its value is [(-1)^sign * coefficient * 10^exponent].  The arithmetic
    context is the default one (rounding half to even, capital [E]), which
    the package never changes. *)
Record t : Type := { sign : bool; coefficient : N; exponent : Z }.

Definition zero : t := {| sign := false; coefficient := 0; exponent := 0 |}.

Definition signed_coefficient (d : t) : Z :=
  if sign d then (- Z.of_N (coefficient d))%Z else Z.of_N (coefficient d).

(** The rational number a decimal denotes. *)
Definition value (d : t) : Q :=
  (inject_Z (signed_coefficient d) * Qpower (10 # 1) (exponent d))%Q.

Definition is_zero (d : t) : bool := (coefficient d =? 0)%N.

(** [a == b]: zeros are equal whatever their sign and exponent; otherwise
    the signs agree and the coefficients agree once brought to the smaller
    exponent. *)
Definition eqb (a b : t) : bool :=
  if is_zero a then is_zero b
  else if is_zero b then false
  else if negb (Bool.eqb (sign a) (sign b)) then false
  else
    let m := Z.min (exponent a) (exponent b) in
    (Z.of_N (coefficient a) * 10 ^ (exponent a - m)
     =? Z.of_N (coefficient b) * 10 ^ (exponent b - m))%Z.

(** [str(d)], the scientific string of the decimal arithmetic
    specification. *)
Definition str (d : t) : string :=
  let digits := PyStr.of_N (coefficient d) in
  let n := Z.of_nat (PyStr.len digits) in
  let leftdigits := (exponent d + n)%Z in
  let dotplace :=
    if ((exponent d <=? 0) && (-6 <? leftdigits))%Z then leftdigits else 1%Z in
  let intpart :=
    if (dotplace <=? 0)%Z then "0"
    else if (n <=? dotplace)%Z then
      digits ++ PyStr.times "0" (Z.to_nat (dotplace - n))
    else substring 0 (Z.to_nat dotplace) digits in
  let fracpart :=
    if (dotplace <=? 0)%Z then
      "." ++ PyStr.times "0" (Z.to_nat (- dotplace)) ++ digits
    else if (n <=? dotplace)%Z then EmptyString
    else "." ++ substring (Z.to_nat dotplace) (Z.to_nat (n - dotplace)) digits in
  let exp :=
    if (leftdigits =? dotplace)%Z then EmptyString
    else "E" ++ PyStr.of_Z_signed (leftdigits - dotplace) in
  (if sign d then "-" else EmptyString) ++ intpart ++ fracpart ++ exp.

(** Rescaling of the coefficient to exponent [-2] with rounding half to
    even: the coefficient of [d.quantize(Decimal("0.01"))], a count of
    hundredths. *)
Definition rescale_hundredths (d : t) : N :=
  if (-2 <=? exponent d)%Z then
    (coefficient d * 10 ^ Z.to_N (exponent d + 2))%N
  else
    let p := (10 ^ Z.to_N (- 2 - exponent d))%N in
    let q := (coefficient d / p)%N in
    let r := (coefficient d mod p)%N in
    if (p <? 2 * r)%N then (q + 1)%N
    else if (2 * r =? p)%N then (if N.even q then q else q + 1)%N
    else q.

(** [format(d, ".2f")]: the rescaled decimal in fixed-point notation, a
    minus sign when the sign bit is set, the integer part, a point and the
    two digits of the fractional part. *)
Definition format_2f (d : t) : string :=
  let c := rescale_hundredths d in
  (if sign d then "-" else EmptyString)
  ++ PyStr.of_N (c / 100) ++ "." ++ PyStr.zfill 2 (PyStr.of_N (c mod 100)).

End Decimal.

(* ================================================================== *)
(** * standards.py: validation predicates *)

Definition validate_date_range (start_date end_date : Date.t) : bool :=
  Date.leb start_date end_date.

Definition validate_bank_id (bank_id : string) : bool :=
  PyStr.truthy bank_id && PyStr.isalnum bank_id
  && (PyStr.len bank_id <=? 9)%nat.

Definition validate_branch_id (branch_id : string) : bool :=
  PyStr.truthy branch_id && (PyStr.len branch_id <=? 22)%nat.

Definition validate_account_id (account_id : string) : bool :=
  PyStr.truthy account_id && (PyStr.len account_id <=? 22)%nat.

Definition validate_fit_id (fit_id : string) : bool :=
  PyStr.truthy fit_id && (PyStr.len fit_id <=? 255)%nat.

(* ================================================================== *)
(** * formatters.py *)

(** The [DateFormatter] and [AmountFormatter] protocols: any object with a
    [format] method of the right type. *)
Record DateFormatter : Type := { DateFormatter_format : Date.t -> string }.

Record AmountFormatter : Type :=
  { AmountFormatter_format : Decimal.t -> string }.

Definition DefaultDateFormatter {P : Platform} : DateFormatter :=
  {| DateFormatter_format := fun value => Date.strftime value "%Y%m%d" |}.

Definition DefaultAmountFormatter : AmountFormatter :=
  {| AmountFormatter_format := fun value => Decimal.format_2f value |}.

Definition format_datetime {P : Platform} (value : Date.t) : string :=
  Date.strftime value "%Y%m%d".

(** One double-quote character and one line feed. *)
Definition dquote : string := String "034" EmptyString.

Definition newline : string := String "010" EmptyString.

(** [name="value"]. *)
Definition quoted_attr (name value : string) : string :=
  name ++ "=" ++ dquote ++ value ++ dquote.

Definition format_ofx_header : string :=
  "<?OFX " ++ quoted_attr "OFXHEADER" "200" ++ " "
  ++ quoted_attr "VERSION" "230" ++ " "
  ++ quoted_attr "SECURITY" "NONE" ++ " "
  ++ quoted_attr "OLDFILEUID" "NONE" ++ " "
  ++ quoted_attr "NEWFILEUID" "NONE" ++ "?>" ++ newline.

(* ================================================================== *)
(** * models.py

    Each entity is a record; its constructor [new] runs what calling the
    class runs: the [__init__] of the class and, where that [__init__]
    is the one the dataclass decorator generates, [__post_init__]. *)

Module FinancialInstitution.

Record t : Type := { org : string; fid : string }.

Definition __post_init__ (self : t) : result t :=
  _ <- raise_if (negb (PyStr.truthy (org self)) || (60 <? PyStr.len (org self))%nat)
         "Organization name must be between 1 and 60 characters" ;;
  _ <- raise_if (negb (PyStr.truthy (fid self)) || (32 <? PyStr.len (fid self))%nat)
         "FID must be between 1 and 32 characters" ;;
  Ok self.

Definition new (org fid : string) : result t :=
  __post_init__ {| org := org; fid := fid |}.

End FinancialInstitution.

Module BankAccount.

Record t : Type :=
  { bank_id : string;
    account_id : string;
    account_type : AccountType.t;
    branch_id : option string }.

(** [self.branch_id and not validate_branch_id(self.branch_id)]. *)
Definition branch_id_rejected (branch_id : option string) : bool :=
  match branch_id with
  | Some b => PyStr.truthy b && negb (validate_branch_id b)
  | None => false
  end.

(** The generated [__init__] stores the arguments and calls
    [__post_init__], which validates them and replaces a raw account type
    code by its member. *)
Definition new (bank_id account_id : string)
    (account_type : AccountType.t + string) (branch_id : option string)
    : result t :=
  _ <- raise_if (negb (validate_bank_id bank_id)) "Invalid bank ID format" ;;
  _ <- raise_if (negb (validate_account_id account_id))
         "Invalid account ID format" ;;
  _ <- raise_if (branch_id_rejected branch_id) "Invalid branch ID format" ;;
  ty <- coerce AccountType.of_value account_type ;;
  Ok {| bank_id := bank_id; account_id := account_id; account_type := ty;
        branch_id := branch_id |}.

End BankAccount.

Module Transaction.

Record t : Type :=
  { transaction_type : TransactionType.t;
    date_posted : Date.t;
    amount : Decimal.t;
    fit_id : string;
    check_num : option string;
    ref_num : option string;
    memo : option string }.

(** The [__init__] written in the class body. *)
Definition __init__ (transaction_type : TransactionType.t)
    (date_posted : Date.t) (amount : Decimal.t) (fit_id : string)
    (check_num ref_num memo : option string) : result t :=
  _ <- raise_if (Decimal.eqb amount Decimal.zero)
         "Transaction amount cannot be zero" ;;
  Ok {| transaction_type := transaction_type; date_posted := date_posted;
        amount := amount; fit_id := fit_id; check_num := check_num;
        ref_num := ref_num; memo := memo |}.

(** [len(x) > n] guarded by the truth value of [x]. *)
Definition too_long (x : option string) (n : nat) : bool :=
  match x with
  | Some s => PyStr.truthy s && (n <? PyStr.len s)%nat
  | None => false
  end.

(** A transaction object as the method [__post_init__] may find it.  The
    annotation of [transaction_type] is not enforced, so the attribute
    holds a member of [TransactionType] or a raw string, such as the code
    of a member; the other attributes are as in [t]. *)
Record raw : Type :=
  { raw_transaction_type : TransactionType.t + string;
    raw_date_posted : Date.t;
    raw_amount : Decimal.t;
    raw_fit_id : string;
    raw_check_num : option string;
    raw_ref_num : option string;
    raw_memo : option string }.

(** A transaction whose type is a member, as an object of the class. *)
Definition raw_of (self : t) : raw :=
  {| raw_transaction_type := inl (transaction_type self);
     raw_date_posted := date_posted self;
     raw_amount := amount self;
     raw_fit_id := fit_id self;
     raw_check_num := check_num self;
     raw_ref_num := ref_num self;
     raw_memo := memo self |}.

(** The [__post_init__] written in the class body.  It first replaces a
    transaction type that is not a member by [TransactionType(...)] of it,
    which raises [ValueError] when no member has that value, and then
    checks the FIT id and the three lengths.  The method assigns to the
    attribute of [self]; the result here is the object after the call,
    whose transaction type is a member. *)
Definition __post_init__ (self : raw) : result t :=
  ty <- coerce TransactionType.of_value (raw_transaction_type self) ;;
  _ <- raise_if (negb (validate_fit_id (raw_fit_id self)))
         "Invalid FIT ID format" ;;
  _ <- raise_if (too_long (raw_memo self) 255)
         "Memo must not exceed 255 characters" ;;
  _ <- raise_if (too_long (raw_check_num self) 32)
         "Check number must not exceed 32 characters" ;;
  _ <- raise_if (too_long (raw_ref_num self) 32)
         "Reference number must not exceed 32 characters" ;;
  Ok {| transaction_type := ty; date_posted := raw_date_posted self;
        amount := raw_amount self; fit_id := raw_fit_id self;
        check_num := raw_check_num self; ref_num := raw_ref_num self;
        memo := raw_memo self |}.

(** Calling [Transaction(...)].  The class body defines [__init__], and the
    dataclass decorator never replaces an attribute the class defines: the
    call runs the [__init__] above and nothing else.  That [__init__] does
    not call [__post_init__], and nothing in the package does. *)
Definition new (transaction_type : TransactionType.t)
    (date_posted : Date.t) (amount : Decimal.t) (fit_id : string)
    (check_num ref_num memo : option string) : result t :=
  __init__ transaction_type date_posted amount fit_id check_num ref_num memo.

End Transaction.

Module Balance.

Record t : Type := { amount : Decimal.t; date_as_of : Date.t }.

Definition new (amount : Decimal.t) (date_as_of : Date.t) : result t :=
  Ok {| amount := amount; date_as_of := date_as_of |}.

End Balance.

Module OFXSettings.

Record t : Type :=
  { language : Language.t;
    currency : Currency.t;
    version : Z;
    encoding : Encoding.t;
    charset : Z;
    security : Security.t;
    compression : Compression.t }.

Definition new (language : Language.t + string)
    (currency : Currency.t + string) (version : Z)
    (encoding : Encoding.t + string) (charset : Z)
    (security : Security.t + string) (compression : Compression.t + string)
    : result t :=
  lang <- coerce Language.of_value language ;;
  cur <- coerce Currency.of_value currency ;;
  enc <- coerce Encoding.of_value encoding ;;
  sec <- coerce Security.of_value security ;;
  comp <- coerce Compression.of_value compression ;;
  _ <- raise_if (negb (OFXVersion.validate version))
         ("Invalid OFX version: " ++ PyStr.of_Z version) ;;
  _ <- raise_if (negb (CharSet.validate charset))
         ("Invalid charset: " ++ PyStr.of_Z charset) ;;
  Ok {| language := lang; currency := cur; version := version;
        encoding := enc; charset := charset; security := sec;
        compression := comp |}.

(** The default factory of [BankStatement.settings]. *)
Definition default : result t :=
  new (inl Language.ENGLISH) (inl Currency.US_DOLLAR) 211 (inl Encoding.UTF8)
    1252 (inl Security.NONE) (inl Compression.NONE).

End OFXSettings.

Module CreditCardAccount.

Record t {P : Platform} : Type :=
  { cash_advance_available_amount : float;
    cash_advance_credit_limit : float }.

Definition new {P : Platform} (available limit : float) : result t :=
  Ok {| cash_advance_available_amount := available;
        cash_advance_credit_limit := limit |}.

End CreditCardAccount.

Module BankStatement.

Record t {P : Platform} : Type :=
  { financial_institution : FinancialInstitution.t;
    bank_account : BankAccount.t;
    balance : Balance.t;
    start_date : Date.t;
    end_date : Date.t;
    transactions : list Transaction.t;
    settings : OFXSettings.t;
    credit_card_account : option CreditCardAccount.t }.

(** An omitted [settings] argument is built by the default factory. *)
Definition new {P : Platform} (financial_institution : FinancialInstitution.t)
    (bank_account : BankAccount.t) (balance : Balance.t)
    (start_date end_date : Date.t) (transactions : list Transaction.t)
    (settings : option OFXSettings.t)
    (credit_card_account : option CreditCardAccount.t) : result t :=
  st <- match settings with
        | Some s => Ok s
        | None => OFXSettings.default
        end ;;
  _ <- raise_if (negb (validate_date_range start_date end_date))
         "End date must not be before start date" ;;
  Ok {| financial_institution := financial_institution;
        bank_account := bank_account; balance := balance;
        start_date := start_date; end_date := end_date;
        transactions := transactions; settings := st;
        credit_card_account := credit_card_account |}.

End BankStatement.

(* ================================================================== *)
(** * Element trees ([xml.etree.ElementTree]) *)

Module ET.

(** An element: tag, attributes in insertion order, optional text and
    children in document order. *)
#[warnings="-register-all"]
Inductive Element : Type :=
| Elem (tag : string) (attrib : list (string * string))
       (text : option string) (children : list Element).

Definition tag (e : Element) : string :=
  match e with Elem t _ _ _ => t end.

Definition text (e : Element) : option string :=
  match e with Elem _ _ x _ => x end.

Definition children (e : Element) : list Element :=
  match e with Elem _ _ _ cs => cs end.

(** [ET.Element(tag, attrib)]: no text, no children. *)
Definition new (tag : string) (attrib : list (string * string)) : Element :=
  Elem tag attrib None [].

(** The effect of [ET.SubElement(parent, ...)] on [parent]: the new
    element becomes its last child. *)
Definition append (parent child : Element) : Element :=
  match parent with
  | Elem t a x cs => Elem t a x (cs ++ [child])
  end.

(** [ET.SubElement(parent, tag).text = text]. *)
Definition sub_text (parent : Element) (tag : string) (text : option string)
    : Element :=
  append parent (Elem tag [] text []).

Definition _escape_cdata (text : string) : string :=
  PyStr.replace ">" "&gt;"
    (PyStr.replace "<" "&lt;" (PyStr.replace "&" "&amp;" text)).

Definition _escape_attrib (text : string) : string :=
  PyStr.replace "009" "&#09;"
    (PyStr.replace "010" "&#10;"
       (PyStr.replace "013" "&#13;"
          (PyStr.replace "034" "&quot;" (_escape_cdata text)))).

Definition serialize_attrib (kv : string * string) : string :=
  " " ++ quoted_attr (fst kv) (_escape_attrib (snd kv)).

(** [_serialize_xml] with short empty elements: an element with neither
    text nor children is written [<tag />]. *)
Fixpoint _serialize_xml (elem : Element) : string :=
  match elem with
  | Elem tag attrib text children =>
      "<" ++ tag ++ String.concat EmptyString (map serialize_attrib attrib)
      ++ (if PyStr.truthy_opt text || negb (Nat.eqb (List.length children) 0)
          then
            ">"
            ++ match text with
               | Some s => _escape_cdata s
               | None => EmptyString
               end
            ++ (fix serialize_all (l : list Element) : string :=
                  match l with
                  | [] => EmptyString
                  | e :: l' => _serialize_xml e ++ serialize_all l'
                  end) children
            ++ "</" ++ tag ++ ">"
          else " />")
  end.

(** [ET.tostring(element, encoding="unicode", method="xml")]. *)
Definition tostring (element : Element) : string := _serialize_xml element.

(** [element.iter(tag)]: the element and its descendants carrying [tag],
    in document order. *)
Fixpoint iter (name : string) (e : Element) : list Element :=
  match e with
  | Elem t _ _ cs =>
      ((if String.eqb t name then [e] else [])
       ++ (fix iter_all (l : list Element) : list Element :=
             match l with
             | [] => []
             | c :: l' => iter name c ++ iter_all l'
             end) cs)%list
  end.

(** [element.findall(tag)]: the children carrying [tag]. *)
Definition findall (name : string) (e : Element) : list Element :=
  filter (fun c => String.eqb (tag c) name) (children e).

End ET.

(* ================================================================== *)
(** * generator.py

    A method that adds sub-elements to an element it receives returns that
    element with the additions; siblings are appended in the order of the
    [SubElement] calls. *)

Module OFXGenerator.

Record t : Type :=
  { date_formatter : DateFormatter;
    amount_formatter : AmountFormatter }.

(** [x or default]: a formatter object is true, [None] is false. *)
Definition __init__ {P : Platform} (date_formatter : option DateFormatter)
    (amount_formatter : option AmountFormatter) : t :=
  {| date_formatter :=
       match date_formatter with
       | Some f => f
       | None => DefaultDateFormatter
       end;
     amount_formatter :=
       match amount_formatter with
       | Some f => f
       | None => DefaultAmountFormatter
       end |}.

Definition _create_ofx_element (self : t) : ET.Element :=
  ET.new "OFX"
    [("xmlns", "http://ofx.net/ifx/2.0/ofx");
     ("xmlns:xsi", "http://www.w3.org/2001/XMLSchema-instance")].

(** The [STATUS] aggregate both responses carry. *)
Definition status_element : ET.Element :=
  let status := ET.new "STATUS" [] in
  let status := ET.sub_text status "CODE" (Some "0") in
  ET.sub_text status "SEVERITY" (Some "INFO").

Section OnPlatform.

Context {P : Platform}.

Definition _add_signon_response (self : t) (ofx : ET.Element)
    (statement : BankStatement.t) : ET.Element :=
  let sonrs := ET.new "SONRS" [] in
  let sonrs := ET.append sonrs status_element in
  let sonrs :=
    ET.sub_text sonrs "DTSERVER"
      (Some (format_datetime (BankStatement.end_date statement))) in
  let sonrs :=
    ET.sub_text sonrs "LANGUAGE"
      (Some (Language.value
               (OFXSettings.language (BankStatement.settings statement)))) in
  let fi := ET.new "FI" [] in
  let fi :=
    ET.sub_text fi "ORG"
      (Some (FinancialInstitution.org
               (BankStatement.financial_institution statement))) in
  let fi :=
    ET.sub_text fi "FID"
      (Some (FinancialInstitution.fid
               (BankStatement.financial_institution statement))) in
  let sonrs := ET.append sonrs fi in
  let signon := ET.append (ET.new "SIGNONMSGSRSV1" []) sonrs in
  ET.append ofx signon.

Definition _add_account_info (self : t) (stmt_rs : ET.Element)
    (account : BankAccount.t) : ET.Element :=
  let bank_acct_from := ET.new "BANKACCTFROM" [] in
  let bank_acct_from :=
    ET.sub_text bank_acct_from "BANKID" (Some (BankAccount.bank_id account)) in
  let bank_acct_from :=
    ET.sub_text bank_acct_from "BRANCHID" (BankAccount.branch_id account) in
  let bank_acct_from :=
    ET.sub_text bank_acct_from "ACCTID"
      (Some (BankAccount.account_id account)) in
  let bank_acct_from :=
    ET.sub_text bank_acct_from "ACCTTYPE"
      (Some (AccountType.value (BankAccount.account_type account))) in
  ET.append stmt_rs bank_acct_from.

(** [if x: ET.SubElement(trans, tag).text = x]. *)
Definition sub_text_if (parent : ET.Element) (tag : string)
    (x : option string) : ET.Element :=
  if PyStr.truthy_opt x then ET.sub_text parent tag x else parent.

(** The body of the loop of [_add_transactions]: the [STMTTRN] aggregate
    of one transaction. *)
Definition stmttrn (self : t) (transaction : Transaction.t) : ET.Element :=
  let trans := ET.new "STMTTRN" [] in
  let trans :=
    ET.sub_text trans "TRNTYPE"
      (Some (TransactionType.value
               (Transaction.transaction_type transaction))) in
  let trans :=
    ET.sub_text trans "DTPOSTED"
      (Some (format_datetime (Transaction.date_posted transaction))) in
  let trans :=
    ET.sub_text trans "TRNAMT"
      (Some (Decimal.str (Transaction.amount transaction))) in
  let trans :=
    ET.sub_text trans "FITID" (Some (Transaction.fit_id transaction)) in
  let trans :=
    sub_text_if trans "CHECKNUM" (Transaction.check_num transaction) in
  let trans := sub_text_if trans "REFNUM" (Transaction.ref_num transaction) in
  sub_text_if trans "MEMO" (Transaction.memo transaction).

Definition _add_transactions (self : t) (stmt_rs : ET.Element)
    (statement : BankStatement.t) : ET.Element :=
  let trans_list := ET.new "BANKTRANLIST" [] in
  let trans_list :=
    ET.sub_text trans_list "DTSTART"
      (Some (format_datetime (BankStatement.start_date statement))) in
  let trans_list :=
    ET.sub_text trans_list "DTEND"
      (Some (format_datetime (BankStatement.end_date statement))) in
  let trans_list :=
    fold_left (fun acc transaction => ET.append acc (stmttrn self transaction))
      (BankStatement.transactions statement) trans_list in
  ET.append stmt_rs trans_list.

Definition _add_balance (self : t) (stmt_rs : ET.Element)
    (balance : Balance.t) : ET.Element :=
  let ledger_bal := ET.new "LEDGERBAL" [] in
  let ledger_bal :=
    ET.sub_text ledger_bal "BALAMT"
      (Some (Decimal.str (Balance.amount balance))) in
  let ledger_bal :=
    ET.sub_text ledger_bal "DTASOF"
      (Some (format_datetime (Balance.date_as_of balance))) in
  ET.append stmt_rs ledger_bal.

Definition _add_credit_card_info (self : t) (ofx : ET.Element)
    (credit_card_account : option CreditCardAccount.t) : ET.Element :=
  match credit_card_account with
  | Some cc =>
      let ofx :=
        ET.sub_text ofx "CASHADVAVAILAMT"
          (Some (float_str
                   (CreditCardAccount.cash_advance_available_amount cc))) in
      ET.sub_text ofx "CASHADVCREDITLIMIT"
        (Some (float_str (CreditCardAccount.cash_advance_credit_limit cc)))
  | None => ofx
  end.

(** The bank-message aggregate is the last child of [ofx] while the
    method runs; the credit-card elements are added to [ofx] after it. *)
Definition _add_bank_statement (self : t) (ofx : ET.Element)
    (statement : BankStatement.t) (trnuid : string) : ET.Element :=
  let stmt_trnrs := ET.new "STMTTRNRS" [] in
  let stmt_trnrs := ET.sub_text stmt_trnrs "TRNUID" (Some trnuid) in
  let stmt_trnrs := ET.append stmt_trnrs status_element in
  let stmt_rs := ET.new "STMTRS" [] in
  let stmt_rs :=
    ET.sub_text stmt_rs "CURDEF"
      (Some (Currency.value
               (OFXSettings.currency (BankStatement.settings statement)))) in
  let stmt_rs :=
    _add_account_info self stmt_rs (BankStatement.bank_account statement) in
  let stmt_rs := _add_transactions self stmt_rs statement in
  let stmt_rs := _add_balance self stmt_rs (BankStatement.balance statement) in
  let stmt_trnrs := ET.append stmt_trnrs stmt_rs in
  let bank_msgs := ET.append (ET.new "BANKMSGSRSV1" []) stmt_trnrs in
  let ofx := ET.append ofx bank_msgs in
  _add_credit_card_info self ofx (BankStatement.credit_card_account statement).

Definition _generate_output (self : t) (ofx : ET.Element) : string :=
  "<?xml " ++ quoted_attr "version" "1.0" ++ " "
  ++ quoted_attr "encoding" "UTF-8" ++ " "
  ++ quoted_attr "standalone" "no" ++ "?>" ++ newline
  ++ format_ofx_header ++ ET.tostring ofx.

(** The element tree [generate] hands to [_generate_output]. *)
Definition generate_tree (self : t) (statement : BankStatement.t)
    (trnuid : string) : ET.Element :=
  let ofx := _create_ofx_element self in
  let ofx := _add_signon_response self ofx statement in
  _add_bank_statement self ofx statement trnuid.

Definition generate (self : t) (statement : BankStatement.t)
    (trnuid : string) : string :=
  _generate_output self (generate_tree self statement trnuid).

End OnPlatform.

End OFXGenerator.

(* ================================================================== *)
(** * generator.py as it runs: element objects in a store

    [OFXGenerator] above gives each method as a function from the element
    it is handed to the element it leaves.  The code itself works on
    objects: [ET.Element] and [ET.SubElement] create an element object,
    [ET.SubElement] also appends it to its parent, [.text = ...] assigns to
    an attribute of an object made earlier, and the methods return
    [None].  This module follows the code statement by statement over a
    store of element objects, so that what a call reads and what it leaves
    behind are explicit. *)

Module Stateful.

(** The store holds the element trees made so far, one per call of
    [ET.Element], in the order of their creation, each with the elements
    since attached below it.  A call of [generate] starts in whatever
    store the program has reached: the trees of earlier calls are in
    it. *)
Definition store : Type := list ET.Element.

(** A reference to an element object names its place: the index of its
    root in the store and, from the root down, the position of each
    element among the children of its parent.  The package only ever
    appends children and removes or moves none, so a place names the same
    object for as long as the object lives. *)
Definition ref : Type := (nat * list nat)%type.

(** A computation on the store; [None] is the use of a reference that
    names no element, which no reference obtained from [Element] or
    [SubElement] does. *)
Definition M (A : Type) : Type := store -> option (A * store).

Definition ret {A : Type} (a : A) : M A := fun s => Some (a, s).

Definition bind {A B : Type} (m : M A) (k : A -> M B) : M B :=
  fun s =>
    match m s with
    | Some (a, s') => k a s'
    | None => None
    end.

Notation "x <~ m ;; k" := (bind m (fun x => k))
  (at level 61, m at next level, right associativity).

(** [l] with [f] applied to its element of index [k]. *)
Fixpoint modify_nth {A : Type} (k : nat) (f : A -> A) (l : list A) : list A :=
  match l, k with
  | [], _ => []
  | x :: l', O => f x :: l'
  | x :: l', S k' => x :: modify_nth k' f l'
  end.

(** The element at the end of [path] below [e]. *)
Fixpoint get_at (path : list nat) (e : ET.Element) : option ET.Element :=
  match path with
  | [] => Some e
  | k :: q =>
      match nth_error (ET.children e) k with
      | Some c => get_at q c
      | None => None
      end
  end.

(** [e] with [f] applied to the element at the end of [path]. *)
Fixpoint modify_at (path : list nat) (f : ET.Element -> ET.Element)
    (e : ET.Element) : ET.Element :=
  match path with
  | [] => f e
  | k :: q =>
      match e with
      | ET.Elem t a x cs => ET.Elem t a x (modify_nth k (modify_at q f) cs)
      end
  end.


(** The object a reference names, and a change made to that object. *)
Definition lookup (r : ref) (s : store) : option ET.Element :=
  match nth_error s (fst r) with
  | Some root => get_at (snd r) root
  | None => None
  end.

Definition update (r : ref) (f : ET.Element -> ET.Element) (s : store)
    : store :=
  modify_nth (fst r) (modify_at (snd r) f) s.

(** [ET.Element(tag, attrib)]: a new root, with no text and no children. *)
Definition Element (tag : string) (attrib : list (string * string)) : M ref :=
  fun s => Some ((List.length s, []), (s ++ [ET.new tag attrib])%list).

(** [ET.SubElement(parent, tag)]: a new element, appended to the children
    of [parent]; the call returns the new element. *)
Definition SubElement (parent : ref) (tag : string) : M ref :=
  fun s =>
    match lookup parent s with
    | Some e =>
        Some ((fst parent, (snd parent ++ [List.length (ET.children e)])%list),
              update parent (fun e => ET.append e (ET.new tag [])) s)
    | None => None
    end.

Definition with_text (text : option string) (e : ET.Element) : ET.Element :=
  match e with
  | ET.Elem t a _ cs => ET.Elem t a text cs
  end.

(** [element.text = text]. *)
Definition set_text (element : ref) (text : option string) : M unit :=
  fun s =>
    match lookup element s with
    | Some _ => Some (tt, update element (with_text text) s)
    | None => None
    end.

(** [ET.SubElement(parent, tag).text = text]. *)
Definition sub_text (parent : ref) (tag : string) (text : option string)
    : M unit :=
  element <~ SubElement parent tag ;;
  set_text element text.

(** [ET.tostring(element, encoding="unicode", method="xml")]; it changes
    nothing. *)
Definition tostring (element : ref) : M string :=
  fun s =>
    match lookup element s with
    | Some e => Some (ET.tostring e, s)
    | None => None
    end.

(** [for x in l: body]. *)
Fixpoint for_each {A : Type} (l : list A) (body : A -> M unit) : M unit :=
  match l with
  | [] => ret tt
  | x :: l' => _ <~ body x ;; for_each l' body
  end.

(** [if x: ET.SubElement(parent, tag).text = x]. *)
Definition sub_text_if (parent : ref) (tag : string) (x : option string)
    : M unit :=
  if PyStr.truthy_opt x then sub_text parent tag x else ret tt.

Definition _create_ofx_element (self : OFXGenerator.t) : M ref :=
  Element "OFX"
    [("xmlns", "http://ofx.net/ifx/2.0/ofx");
     ("xmlns:xsi", "http://www.w3.org/2001/XMLSchema-instance")].

Section OnPlatform.

Context {P : Platform}.

Definition _add_signon_response (self : OFXGenerator.t) (ofx : ref)
    (statement : BankStatement.t) : M unit :=
  signon <~ SubElement ofx "SIGNONMSGSRSV1" ;;
  sonrs <~ SubElement signon "SONRS" ;;
  status <~ SubElement sonrs "STATUS" ;;
  _ <~ sub_text status "CODE" (Some "0") ;;
  _ <~ sub_text status "SEVERITY" (Some "INFO") ;;
  _ <~ sub_text sonrs "DTSERVER"
         (Some (format_datetime (BankStatement.end_date statement))) ;;
  _ <~ sub_text sonrs "LANGUAGE"
         (Some (Language.value
                  (OFXSettings.language (BankStatement.settings statement)))) ;;
  fi <~ SubElement sonrs "FI" ;;
  _ <~ sub_text fi "ORG"
         (Some (FinancialInstitution.org
                  (BankStatement.financial_institution statement))) ;;
  sub_text fi "FID"
    (Some (FinancialInstitution.fid
             (BankStatement.financial_institution statement))).

Definition _add_account_info (self : OFXGenerator.t) (stmt_rs : ref)
    (account : BankAccount.t) : M unit :=
  bank_acct_from <~ SubElement stmt_rs "BANKACCTFROM" ;;
  _ <~ sub_text bank_acct_from "BANKID" (Some (BankAccount.bank_id account)) ;;
  _ <~ sub_text bank_acct_from "BRANCHID" (BankAccount.branch_id account) ;;
  _ <~ sub_text bank_acct_from "ACCTID"
         (Some (BankAccount.account_id account)) ;;
  sub_text bank_acct_from "ACCTTYPE"
    (Some (AccountType.value (BankAccount.account_type account))).

(** The body of the loop of [_add_transactions]. *)
Definition stmttrn (self : OFXGenerator.t) (trans_list : ref)
    (transaction : Transaction.t) : M unit :=
  trans <~ SubElement trans_list "STMTTRN" ;;
  _ <~ sub_text trans "TRNTYPE"
         (Some (TransactionType.value
                  (Transaction.transaction_type transaction))) ;;
  _ <~ sub_text trans "DTPOSTED"
         (Some (format_datetime (Transaction.date_posted transaction))) ;;
  _ <~ sub_text trans "TRNAMT"
         (Some (Decimal.str (Transaction.amount transaction))) ;;
  _ <~ sub_text trans "FITID" (Some (Transaction.fit_id transaction)) ;;
  _ <~ sub_text_if trans "CHECKNUM" (Transaction.check_num transaction) ;;
  _ <~ sub_text_if trans "REFNUM" (Transaction.ref_num transaction) ;;
  sub_text_if trans "MEMO" (Transaction.memo transaction).

Definition _add_transactions (self : OFXGenerator.t) (stmt_rs : ref)
    (statement : BankStatement.t) : M unit :=
  trans_list <~ SubElement stmt_rs "BANKTRANLIST" ;;
  _ <~ sub_text trans_list "DTSTART"
         (Some (format_datetime (BankStatement.start_date statement))) ;;
  _ <~ sub_text trans_list "DTEND"
         (Some (format_datetime (BankStatement.end_date statement))) ;;
  for_each (BankStatement.transactions statement) (stmttrn self trans_list).

Definition _add_balance (self : OFXGenerator.t) (stmt_rs : ref)
    (balance : Balance.t) : M unit :=
  ledger_bal <~ SubElement stmt_rs "LEDGERBAL" ;;
  _ <~ sub_text ledger_bal "BALAMT"
         (Some (Decimal.str (Balance.amount balance))) ;;
  sub_text ledger_bal "DTASOF"
    (Some (format_datetime (Balance.date_as_of balance))).

Definition _add_credit_card_info (self : OFXGenerator.t) (ofx : ref)
    (credit_card_account : option CreditCardAccount.t) : M unit :=
  match credit_card_account with
  | Some cc =>
      _ <~ sub_text ofx "CASHADVAVAILAMT"
             (Some (float_str
                      (CreditCardAccount.cash_advance_available_amount cc))) ;;
      sub_text ofx "CASHADVCREDITLIMIT"
        (Some (float_str (CreditCardAccount.cash_advance_credit_limit cc)))
  | None => ret tt
  end.

Definition _add_bank_statement (self : OFXGenerator.t) (ofx : ref)
    (statement : BankStatement.t) (trnuid : string) : M unit :=
  bank_msgs <~ SubElement ofx "BANKMSGSRSV1" ;;
  stmt_trnrs <~ SubElement bank_msgs "STMTTRNRS" ;;
  _ <~ sub_text stmt_trnrs "TRNUID" (Some trnuid) ;;
  status <~ SubElement stmt_trnrs "STATUS" ;;
  _ <~ sub_text status "CODE" (Some "0") ;;
  _ <~ sub_text status "SEVERITY" (Some "INFO") ;;
  stmt_rs <~ SubElement stmt_trnrs "STMTRS" ;;
  _ <~ sub_text stmt_rs "CURDEF"
         (Some (Currency.value
                  (OFXSettings.currency (BankStatement.settings statement)))) ;;
  _ <~ _add_account_info self stmt_rs (BankStatement.bank_account statement) ;;
  _ <~ _add_transactions self stmt_rs statement ;;
  _ <~ _add_balance self stmt_rs (BankStatement.balance statement) ;;
  _add_credit_card_info self ofx (BankStatement.credit_card_account statement).

Definition _generate_output (self : OFXGenerator.t) (ofx : ref) : M string :=
  xml <~ tostring ofx ;;
  ret ("<?xml " ++ quoted_attr "version" "1.0" ++ " "
       ++ quoted_attr "encoding" "UTF-8" ++ " "
       ++ quoted_attr "standalone" "no" ++ "?>" ++ newline
       ++ format_ofx_header ++ xml).

Definition generate (self : OFXGenerator.t) (statement : BankStatement.t)
    (trnuid : string) : M string :=
  ofx <~ _create_ofx_element self ;;
  _ <~ _add_signon_response self ofx statement ;;
  _ <~ _add_bank_statement self ofx statement trnuid ;;
  _generate_output self ofx.

End OnPlatform.

End Stateful.

(* ================================================================== *)
(** * Two platforms and the statement of [examples/example_usage.py] *)

(** The floats whose value is an integer of magnitude at most 2^53: each
    such integer is a float, and [str] prints it as the integer followed
    by [.0]. *)
Definition whole_float : Type := { z : Z | (Z.abs z <=? 2 ^ 53)%Z = true }.

Definition whole_float_str (x : whole_float) : string :=
  PyStr.of_Z (proj1_sig x) ++ ".0".

(** CPython up to 3.12 on the GNU C library. *)
Definition glibc_platform : Platform :=
  {| float := whole_float; float_str := whole_float_str; pads_year := false |}.

(** A platform whose [%Y] pads the year to four digits. *)
Definition padding_platform : Platform :=
  {| float := whole_float; float_str := whole_float_str; pads_year := true |}.

Module Example.

Definition ymd (y m d : N) : Date.t :=
  {| Date.year := y; Date.month := m; Date.day := d |}.

(** [Decimal("-100.00")], [Decimal("500.00")] and [Decimal("1000.00")]. *)
Definition minus_100_00 : Decimal.t :=
  {| Decimal.sign := true; Decimal.coefficient := 10000;
     Decimal.exponent := -2 |}.

Definition plus_500_00 : Decimal.t :=
  {| Decimal.sign := false; Decimal.coefficient := 50000;
     Decimal.exponent := -2 |}.

Definition plus_1000_00 : Decimal.t :=
  {| Decimal.sign := false; Decimal.coefficient := 100000;
     Decimal.exponent := -2 |}.

Definition whole (z : Z) (H : (Z.abs z <=? 2 ^ 53)%Z = true) : whole_float :=
  exist _ z H.

Definition credit_card (P : Platform) (available limit : float)
    : result CreditCardAccount.t :=
  CreditCardAccount.new available limit.

(** The statement the example script builds, through the constructors;
    [branch] is the branch id of the account, [memo2] the memo of the
    second transaction and [cc] the optional credit-card account. *)
Definition statement_with {P : Platform} (branch memo2 : option string)
    (cc : option CreditCardAccount.t) : result BankStatement.t :=
  fi <- FinancialInstitution.new "Example Bank" "000" ;;
  account <- BankAccount.new "000" "000000000" (inl AccountType.CHECKING)
               branch ;;
  t1 <- Transaction.new TransactionType.PAYMENT (ymd 2025 1 30) minus_100_00
          "202501300000" (Some "000") (Some "000")
          (Some "Payment to Vendor") ;;
  t2 <- Transaction.new TransactionType.CREDIT (ymd 2025 1 22) plus_500_00
          "202501220000" (Some "000") (Some "000") memo2 ;;
  balance <- Balance.new plus_1000_00 (ymd 2025 1 31) ;;
  settings <- OFXSettings.new (inl Language.PORTUGUESE)
                (inl Currency.BRAZILIAN_REAL) 211 (inl Encoding.UTF8) 1252
                (inl Security.NONE) (inl Compression.NONE) ;;
  BankStatement.new fi account balance (ymd 2025 1 1) (ymd 2025 1 31)
    [t1; t2] (Some settings) cc.

Definition statement {P : Platform} (cc : option CreditCardAccount.t)
    : result BankStatement.t :=
  statement_with (Some "0000-0") (Some "Salary Payment") cc.

(** The entities these constructor calls return. *)
Definition account_of (branch : option string) : BankAccount.t :=
  {| BankAccount.bank_id := "000";
     BankAccount.account_id := "000000000";
     BankAccount.account_type := AccountType.CHECKING;
     BankAccount.branch_id := branch |}.

Definition payment : Transaction.t :=
  {| Transaction.transaction_type := TransactionType.PAYMENT;
     Transaction.date_posted := ymd 2025 1 30;
     Transaction.amount := minus_100_00;
     Transaction.fit_id := "202501300000";
     Transaction.check_num := Some "000";
     Transaction.ref_num := Some "000";
     Transaction.memo := Some "Payment to Vendor" |}.

Definition credit_of (memo2 : option string) : Transaction.t :=
  {| Transaction.transaction_type := TransactionType.CREDIT;
     Transaction.date_posted := ymd 2025 1 22;
     Transaction.amount := plus_500_00;
     Transaction.fit_id := "202501220000";
     Transaction.check_num := Some "000";
     Transaction.ref_num := Some "000";
     Transaction.memo := memo2 |}.

Definition statement_of {P : Platform} (branch memo2 : option string)
    (cc : option CreditCardAccount.t) : BankStatement.t :=
  {| BankStatement.financial_institution :=
       {| FinancialInstitution.org := "Example Bank";
          FinancialInstitution.fid := "000" |};
     BankStatement.bank_account := account_of branch;
     BankStatement.balance :=
       {| Balance.amount := plus_1000_00; Balance.date_as_of := ymd 2025 1 31 |};
     BankStatement.start_date := ymd 2025 1 1;
     BankStatement.end_date := ymd 2025 1 31;
     BankStatement.transactions := [payment; credit_of memo2];
     BankStatement.settings :=
       {| OFXSettings.language := Language.PORTUGUESE;
          OFXSettings.currency := Currency.BRAZILIAN_REAL;
          OFXSettings.version := 211;
          OFXSettings.encoding := Encoding.UTF8;
          OFXSettings.charset := 1252;
          OFXSettings.security := Security.NONE;
          OFXSettings.compression := Compression.NONE |};
     BankStatement.credit_card_account := cc |}.

End Example.

(* ================================================================== *)
(** * Reference definitions, after the wording of the specification

    These follow the specification, not the code; the theorems below
    compare them with the definitions above. *)

Module Spec.

(** The bank id rule as the specification words it: non-empty, every
    character an ASCII letter or digit, at most nine characters. *)
Definition is_ascii_alnum (c : ascii) : bool :=
  PyStr.is_ascii_letter c || PyStr.is_ascii_digit c.

Definition validate_bank_id (s : string) : bool :=
  PyStr.truthy s && PyStr.all is_ascii_alnum s && (PyStr.len s <=? 9)%nat.

(** The number a non-empty string of decimal digits denotes. *)
Definition to_N (s : string) : option N :=
  match s with
  | EmptyString => None
  | String _ _ => option_map N.of_uint (NilEmpty.uint_of_string s)
  end.

(** The inverse convention of the date format: eight digits read as the
    year (four), the month (two) and the day (two). *)
Definition parse_ymd (s : string) : option Date.t :=
  if (PyStr.len s =? 8)%nat then
    match to_N (substring 0 4 s), to_N (substring 4 2 s),
          to_N (substring 6 2 s) with
    | Some y, Some m, Some d =>
        Some {| Date.year := y; Date.month := m; Date.day := d |}
    | _, _, _ => None
    end
  else None.

(** The text before and after the first decimal point. *)
Fixpoint split_at_point (s : string) : option (string * string) :=
  match s with
  | EmptyString => None
  | String c s' =>
      if Ascii.eqb c "." then Some (EmptyString, s')
      else
        match split_at_point s' with
        | Some (a, b) => Some (String c a, b)
        | None => None
        end
  end.

(** The count of hundredths an amount string denotes: an optional minus
    sign, at least one digit, a point and exactly two digits; [None] for
    any other string (one with a plus sign, or with one or three digits
    after the point). *)
Definition hundredths (s : string) : option Z :=
  let negative :=
    match s with String c _ => Ascii.eqb c "-" | EmptyString => false end in
  let body :=
    match s with
    | String c r => if Ascii.eqb c "-" then r else s
    | EmptyString => s
    end in
  match split_at_point body with
  | Some (ip, fp) =>
      if (PyStr.len fp =? 2)%nat then
        match to_N ip, to_N fp with
        | Some i, Some f =>
            let c := Z.of_N (i * 100 + f) in
            Some (if negative then (- c)%Z else c)
        | _, _ => None
        end
      else None
  | None => None
  end.

(** The rational number an amount string denotes. *)
Definition parse_amount (s : string) : option Q :=
  option_map (fun c => Qmake c 100) (hundredths s).

(** [needle] is a substring of [s]. *)
Definition occurs (needle s : string) : Prop :=
  exists pre post : string, s = pre ++ needle ++ post.

End Spec.

(** The reading of a numeric string as a decimal, the inverse of
    [Decimal.str]: an optional minus sign, digits with an optional point,
    and an optional exponent part. *)
Module DecimalText.

(** The text before and after the first occurrence of [c]. *)
Fixpoint split_at (c : ascii) (s : string) : option (string * string) :=
  match s with
  | EmptyString => None
  | String a s' =>
      if Ascii.eqb a c then Some (EmptyString, s')
      else
        match split_at c s' with
        | Some (x, y) => Some (String a x, y)
        | None => None
        end
  end.

(** The integer a sign followed by decimal digits denotes. *)
Definition signed_integer (s : string) : option Z :=
  match s with
  | String c r =>
      if Ascii.eqb c "+" then option_map Z.of_N (Spec.to_N r)
      else if Ascii.eqb c "-" then
        option_map (fun n => (- Z.of_N n)%Z) (Spec.to_N r)
      else None
  | EmptyString => None
  end.

(** The coefficient and the exponent an unsigned numeric string denotes:
    digits, with an optional point among them after the first, and an
    optional exponent part [E] with a signed integer. *)
Definition parse_unsigned (body : string) : option (N * Z) :=
  let mantissa_exp :=
    match split_at "E" body with
    | Some (m, x) => (m, signed_integer x)
    | None => (body, Some 0%Z)
    end in
  let ip_fp :=
    match split_at "." (fst mantissa_exp) with
    | Some p => p
    | None => (fst mantissa_exp, EmptyString)
    end in
  if PyStr.truthy (fst ip_fp) then
    match snd mantissa_exp, Spec.to_N (fst ip_fp ++ snd ip_fp) with
    | Some e, Some c => Some (c, (e - Z.of_nat (PyStr.len (snd ip_fp)))%Z)
    | _, _ => None
    end
  else None.

(** The decimal a numeric string denotes, as [Decimal(s)] reads it. *)
Definition parse_decimal (s : string) : option Decimal.t :=
  let negative :=
    match s with String c _ => Ascii.eqb c "-" | EmptyString => false end in
  let body :=
    match s with
    | String c r => if Ascii.eqb c "-" then r else s
    | EmptyString => s
    end in
  match parse_unsigned body with
  | Some (c, e) =>
      Some {| Decimal.sign := negative; Decimal.coefficient := c;
              Decimal.exponent := e |}
  | None => None
  end.

End DecimalText.

(** A formatter a caller may supply instead of the default one: the ISO
    form [YYYY-MM-DD]. *)
Definition iso_date_formatter : DateFormatter :=
  {| DateFormatter_format := fun value =>
       PyStr.zfill 4 (PyStr.of_N (Date.year value)) ++ "-"
       ++ PyStr.zfill 2 (PyStr.of_N (Date.month value)) ++ "-"
       ++ PyStr.zfill 2 (PyStr.of_N (Date.day value)) |}.

(* ================================================================== *)
(** * Properties of the data model *)

Section DecimalFacts.

Lemma signed_coefficient_zero (d : Decimal.t) :
  Decimal.signed_coefficient d = 0%Z <-> Decimal.coefficient d = 0%N.
Proof.
  unfold Decimal.signed_coefficient.
  destruct (Decimal.sign d); lia.
Qed.

Lemma ten_power_nonzero (e : Z) : ~ (Qpower (10 # 1) e == 0)%Q.
Proof.
  apply Qpower_not_0. discriminate.
Qed.

(** A decimal denotes zero exactly when its coefficient is zero. *)
Lemma value_zero_iff (d : Decimal.t) :
  (Decimal.value d == 0)%Q <-> Decimal.is_zero d = true.
Proof.
  unfold Decimal.value, Decimal.is_zero.
  rewrite N.eqb_eq, <- signed_coefficient_zero.
  split.
  - intros H.
    destruct (Qmult_integral _ _ H) as [H0 | H0].
    + unfold Qeq in H0. simpl in H0. lia.
    + destruct (ten_power_nonzero _ H0).
  - intros ->. apply Qmult_0_l.
Qed.

(** Comparing with [Decimal("0")] tests the coefficient. *)
Lemma eqb_zero (d : Decimal.t) :
  Decimal.eqb d Decimal.zero = Decimal.is_zero d.
Proof.
  unfold Decimal.eqb.
  destruct (Decimal.is_zero d); reflexivity.
Qed.

End DecimalFacts.

Section TransactionFacts.

Variables (transaction_type : TransactionType.t) (date_posted : Date.t).
Variables (amount : Decimal.t) (fit_id : string).
Variables (check_num ref_num memo : option string).

(** The constructor looks at the amount and at nothing else. *)
Lemma Transaction_new_cases :
  Transaction.new transaction_type date_posted amount fit_id check_num
    ref_num memo
  = if Decimal.is_zero amount
    then Raise (ValidationError "Transaction amount cannot be zero")
    else Ok {| Transaction.transaction_type := transaction_type;
            Transaction.date_posted := date_posted;
            Transaction.amount := amount;
            Transaction.fit_id := fit_id;
            Transaction.check_num := check_num;
            Transaction.ref_num := ref_num;
            Transaction.memo := memo |}.
Proof.
  unfold Transaction.new, Transaction.__init__.
  rewrite eqb_zero.
  destruct (Decimal.is_zero amount); reflexivity.
Qed.

(** C8.  A transaction whose amount is exactly zero is refused with a
    validation error, and the zero-amount check lets every other amount
    through: the transaction is built with the fields as given. *)
Theorem Transaction_zero_amount :
  ((Decimal.value amount == 0)%Q ->
   Transaction.new transaction_type date_posted amount fit_id check_num
     ref_num memo
   = Raise (ValidationError "Transaction amount cannot be zero"))
  /\ (~ (Decimal.value amount == 0)%Q ->
      Transaction.new transaction_type date_posted amount fit_id check_num
        ref_num memo
      = Ok {| Transaction.transaction_type := transaction_type;
            Transaction.date_posted := date_posted;
            Transaction.amount := amount;
            Transaction.fit_id := fit_id;
            Transaction.check_num := check_num;
            Transaction.ref_num := ref_num;
            Transaction.memo := memo |}).
Proof.
  rewrite Transaction_new_cases, value_zero_iff.
  destruct (Decimal.is_zero amount); split; intros H;
    congruence || (exfalso; apply H; reflexivity) || reflexivity.
Qed.

End TransactionFacts.

Lemma Transaction_zero_amount_witness :
  Transaction.new TransactionType.CREDIT (Example.ymd 2025 1 22) Decimal.zero
    "202501220000" None None None
  = Raise (ValidationError "Transaction amount cannot be zero")
  /\ Transaction.new TransactionType.CREDIT (Example.ymd 2025 1 22)
       Example.plus_500_00 "202501220000" None None None
     = Ok {| Transaction.transaction_type := TransactionType.CREDIT;
             Transaction.date_posted := Example.ymd 2025 1 22;
             Transaction.amount := Example.plus_500_00;
             Transaction.fit_id := "202501220000";
             Transaction.check_num := None;
             Transaction.ref_num := None;
             Transaction.memo := None |}.
Proof.
  split.
  - apply (proj1 (Transaction_zero_amount TransactionType.CREDIT
                    (Example.ymd 2025 1 22) Decimal.zero "202501220000"
                    None None None)).
    reflexivity.
  - apply (proj2 (Transaction_zero_amount TransactionType.CREDIT
                    (Example.ymd 2025 1 22) Example.plus_500_00
                    "202501220000" None None None)).
    intros H. vm_compute in H. discriminate H.
Defined.

(** C1.  The FIT id is not validated when a transaction is built: an empty
    FIT id, and one of 256 characters, both fail [validate_fit_id] and both
    yield a transaction, although [__post_init__] would refuse them. *)
Theorem Transaction_fit_id_not_validated :
  validate_fit_id EmptyString = false
  /\ Transaction.new TransactionType.CREDIT (Example.ymd 2025 1 22)
       Example.plus_500_00 EmptyString None None None
     = Ok {| Transaction.transaction_type := TransactionType.CREDIT;
             Transaction.date_posted := Example.ymd 2025 1 22;
             Transaction.amount := Example.plus_500_00;
             Transaction.fit_id := EmptyString;
             Transaction.check_num := None;
             Transaction.ref_num := None;
             Transaction.memo := None |}
  /\ Transaction.__post_init__
       (Transaction.raw_of
          {| Transaction.transaction_type := TransactionType.CREDIT;
             Transaction.date_posted := Example.ymd 2025 1 22;
             Transaction.amount := Example.plus_500_00;
             Transaction.fit_id := EmptyString;
             Transaction.check_num := None;
             Transaction.ref_num := None;
             Transaction.memo := None |})
     = Raise (ValidationError "Invalid FIT ID format")
  /\ validate_fit_id (PyStr.times "7" 256) = false
  /\ is_ok (Transaction.new TransactionType.CREDIT (Example.ymd 2025 1 22)
              Example.plus_500_00 (PyStr.times "7" 256) None None None)
     = true.
Proof.
  repeat split; vm_compute; reflexivity.
Qed.

Section BankIdFacts.

Lemma truthy_iff (s : string) : PyStr.truthy s = true <-> s <> EmptyString.
Proof.
  destruct s; simpl; split; congruence.
Qed.

(** Every ASCII letter or digit is alphanumeric for [str.isalnum]. *)
Lemma ascii_alnum_isalnum (c : ascii) :
  Spec.is_ascii_alnum c = true -> PyStr.isalnum_char c = true.
Proof.
  unfold Spec.is_ascii_alnum, PyStr.isalnum_char, PyStr.isalpha_char,
    PyStr.isdecimal_char.
  destruct (PyStr.is_ascii_letter c); simpl; [reflexivity |].
  intros ->. rewrite orb_true_r. reflexivity.
Qed.

Lemma all_ascii_alnum_isalnum (s : string) :
  PyStr.all Spec.is_ascii_alnum s = true ->
  PyStr.all PyStr.isalnum_char s = true.
Proof.
  induction s as [| c s IH]; simpl; [reflexivity |].
  rewrite !andb_true_iff. intros [Hc Hs].
  split; [apply ascii_alnum_isalnum, Hc | apply IH, Hs].
Qed.

Lemma validate_bank_id_iff (s : string) :
  validate_bank_id s = true
  <-> s <> EmptyString /\ PyStr.all PyStr.isalnum_char s = true
      /\ (PyStr.len s <= 9)%nat.
Proof.
  unfold validate_bank_id, PyStr.isalnum.
  rewrite !andb_true_iff, Nat.leb_le, truthy_iff.
  tauto.
Qed.

(** C4, as the code has it.  [validate_bank_id] holds exactly of the
    non-empty strings of at most nine characters that are all alphanumeric
    for [str.isalnum], which every ASCII letter and digit is; a bank id
    that fails it makes the construction of a bank account fail, and one
    that passes it yields the account when the other fields are valid. *)
Theorem validate_bank_id_isalnum (s : string) :
  (validate_bank_id s = true
   <-> s <> EmptyString /\ PyStr.all PyStr.isalnum_char s = true
       /\ (PyStr.len s <= 9)%nat)
  /\ (Spec.validate_bank_id s = true -> validate_bank_id s = true)
  /\ (forall account_id account_type branch_id,
        validate_bank_id s = false ->
        BankAccount.new s account_id account_type branch_id
        = Raise (ValidationError "Invalid bank ID format"))
  /\ (forall account_id account_type branch_id ty,
        validate_bank_id s = true ->
        validate_account_id account_id = true ->
        BankAccount.branch_id_rejected branch_id = false ->
        coerce AccountType.of_value account_type = Ok ty ->
        BankAccount.new s account_id account_type branch_id
        = Ok {| BankAccount.bank_id := s;
                BankAccount.account_id := account_id;
                BankAccount.account_type := ty;
                BankAccount.branch_id := branch_id |}).
Proof.
  split; [apply validate_bank_id_iff |].
  split.
  - unfold Spec.validate_bank_id.
    rewrite !andb_true_iff, Nat.leb_le, truthy_iff.
    intros [[Hne Hall] Hlen].
    apply validate_bank_id_iff.
    auto using all_ascii_alnum_isalnum.
  - split.
    + intros account_id account_type branch_id H.
      unfold BankAccount.new. rewrite H. reflexivity.
    + intros account_id account_type branch_id ty H Hacct Hbr Hty.
      unfold BankAccount.new.
      rewrite H, Hacct, Hbr. simpl.
      rewrite Hty. reflexivity.
Qed.

End BankIdFacts.

Lemma validate_bank_id_isalnum_witness :
  validate_bank_id "000" = true
  /\ BankAccount.new "000" "000000000" (inr "CHECKING") (Some "0000-0")
     = Ok {| BankAccount.bank_id := "000";
             BankAccount.account_id := "000000000";
             BankAccount.account_type := AccountType.CHECKING;
             BankAccount.branch_id := Some "0000-0" |}
  /\ BankAccount.new "00-0" "000000000" (inr "CHECKING") (Some "0000-0")
     = Raise (ValidationError "Invalid bank ID format").
Proof.
  destruct (validate_bank_id_isalnum "000") as [_ [Hspec [_ Hok]]].
  destruct (validate_bank_id_isalnum "00-0") as [_ [_ [Hfail _]]].
  split; [apply Hspec; reflexivity |].
  split.
  - apply Hok; reflexivity.
  - apply Hfail; reflexivity.
Defined.

(** C4, as the specification words it, fails on a non-ASCII letter: the
    one-character bank id U+00E9 (e with acute accent) is accepted by
    [validate_bank_id] and by the constructor, and is no string of ASCII
    letters and digits. *)
Lemma validate_bank_id_not_ascii_only :
  validate_bank_id (String "233" EmptyString) = true
  /\ Spec.validate_bank_id (String "233" EmptyString) = false
  /\ ~ (validate_bank_id (String "233" EmptyString) = true
        <-> Spec.validate_bank_id (String "233" EmptyString) = true)
  /\ BankAccount.new (String "233" EmptyString) "000000000"
       (inl AccountType.CHECKING) None
     = Ok {| BankAccount.bank_id := String "233" EmptyString;
             BankAccount.account_id := "000000000";
             BankAccount.account_type := AccountType.CHECKING;
             BankAccount.branch_id := None |}.
Proof.
  split; [reflexivity |].
  split; [reflexivity |].
  split; [| reflexivity].
  intros [H _].
  specialize (H eq_refl). vm_compute in H. discriminate H.
Qed.

(* ================================================================== *)
(** * Strings: lengths, slices and digits *)

Section StringFacts.

Lemma len_app (a b : string) :
  PyStr.len (a ++ b) = (PyStr.len a + PyStr.len b)%nat.
Proof.
  unfold PyStr.len.
  induction a as [| c a IH]; simpl; [reflexivity | now rewrite IH].
Qed.

Lemma app_empty_r (a : string) : a ++ EmptyString = a.
Proof.
  induction a as [| c a IH]; simpl; [reflexivity | now rewrite IH].
Qed.

Lemma app_assoc (a b c : string) : (a ++ b) ++ c = a ++ (b ++ c).
Proof.
  induction a as [| x a IH]; simpl; [reflexivity | now rewrite IH].
Qed.

Lemma substring_all (s : string) : substring 0 (PyStr.len s) s = s.
Proof.
  induction s as [| c s IH]; simpl; [reflexivity | now rewrite IH].
Qed.

(** The slice of the first [len a] characters of [a ++ b] is [a]. *)
Lemma substring_head (a b : string) :
  substring 0 (PyStr.len a) (a ++ b) = a.
Proof.
  induction a as [| c a IH]; simpl.
  - destruct b; reflexivity.
  - now rewrite IH.
Qed.

(** A slice that starts at or after the end of [a] is a slice of [b]. *)
Lemma substring_skip (a b : string) (n m : nat) :
  substring (PyStr.len a + n) m (a ++ b) = substring n m b.
Proof.
  induction a as [| c a IH]; simpl; [reflexivity | exact IH].
Qed.

Lemma all_app (p : ascii -> bool) (a b : string) :
  PyStr.all p (a ++ b) = PyStr.all p a && PyStr.all p b.
Proof.
  induction a as [| c a IH]; simpl; [reflexivity |].
  now rewrite IH, andb_assoc.
Qed.

Lemma len_times (c : ascii) (n : nat) : PyStr.len (PyStr.times c n) = n.
Proof.
  induction n as [| n IH]; simpl; [reflexivity |].
  unfold PyStr.len in *. simpl. now rewrite IH.
Qed.

Lemma len_zfill (w : nat) (s : string) :
  PyStr.len (PyStr.zfill w s) = Nat.max w (PyStr.len s).
Proof.
  unfold PyStr.zfill. rewrite len_app, len_times. lia.
Qed.

(** Padding does nothing to a string that is wide enough. *)
Lemma zfill_wide (w : nat) (s : string) :
  (w <= PyStr.len s)%nat -> PyStr.zfill w s = s.
Proof.
  intros H. unfold PyStr.zfill.
  replace (w - PyStr.len s)%nat with 0%nat by lia. reflexivity.
Qed.

Lemma zeros_digits (n : nat) :
  PyStr.all PyStr.is_ascii_digit (PyStr.times "0" n) = true.
Proof.
  induction n as [| n IH]; simpl; [reflexivity | exact IH].
Qed.

Lemma uint_digits (d : uint) :
  PyStr.all PyStr.is_ascii_digit (NilEmpty.string_of_uint d) = true.
Proof.
  induction d; simpl; auto.
Qed.

Lemma zfill_digits (w : nat) (d : uint) :
  PyStr.all PyStr.is_ascii_digit (PyStr.zfill w (NilEmpty.string_of_uint d))
  = true.
Proof.
  unfold PyStr.zfill. now rewrite all_app, zeros_digits, uint_digits.
Qed.

(** Leading zeros do not change the number a digit string denotes. *)
Lemma uint_of_zeros (k : nat) (s : string) :
  NilEmpty.uint_of_string (PyStr.times "0" k ++ s)
  = option_map (Nat.iter k D0) (NilEmpty.uint_of_string s).
Proof.
  induction k as [| k IH]; simpl.
  - destruct (NilEmpty.uint_of_string s); reflexivity.
  - rewrite IH. destruct (NilEmpty.uint_of_string s); reflexivity.
Qed.

Lemma N_of_zeros (k : nat) (d : uint) :
  N.of_uint (Nat.iter k D0 d) = N.of_uint d.
Proof.
  induction k as [| k IH]; simpl; [reflexivity |].
  rewrite <- IH. unfold N.of_uint. simpl.
  destruct (Pos.of_uint (Nat.iter k D0 d)); reflexivity.
Qed.

Lemma nonempty_of_len (s : string) :
  (0 < PyStr.len s)%nat -> exists c s', s = String c s'.
Proof.
  destruct s as [| c s']; simpl; [lia | eauto].
Qed.

(** A zero-padded decimal rendering reads back as the number. *)
Lemma to_N_zfill (w : nat) (n : N) :
  (0 < w)%nat -> Spec.to_N (PyStr.zfill w (PyStr.of_N n)) = Some n.
Proof.
  intros Hw.
  assert (H : option_map N.of_uint
                (NilEmpty.uint_of_string (PyStr.zfill w (PyStr.of_N n)))
              = Some n).
  { unfold PyStr.zfill, PyStr.of_N.
    rewrite uint_of_zeros, NilEmpty.usu. simpl.
    now rewrite N_of_zeros, DecimalN.Unsigned.of_to. }
  unfold Spec.to_N.
  destruct (PyStr.zfill w (PyStr.of_N n)) as [| c s] eqn:E; [| exact H].
  exfalso.
  assert (L : PyStr.len (PyStr.zfill w (PyStr.of_N n)) = 0%nat)
    by now rewrite E.
  rewrite len_zfill in L. lia.
Qed.

End StringFacts.

(* ================================================================== *)
(** * The date format *)

Section DateFacts.

Context {P : Platform}.

(** A property of the numbers below [k], checked on each of them. *)
Lemma checked_below (f : N -> bool) (k : N) :
  forallb f (map N.of_nat (seq 0 (N.to_nat k))) = true ->
  forall n : N, (n < k)%N -> f n = true.
Proof.
  intros H n Hn.
  rewrite forallb_forall in H. apply H.
  apply in_map_iff. exists (N.to_nat n).
  split; [apply N2Nat.id |].
  apply in_seq. lia.
Qed.

Lemma len_of_N_below_10000 (n : N) :
  (n < 10000)%N -> (PyStr.len (PyStr.of_N n) <= 4)%nat.
Proof.
  intros H. apply Nat.leb_le.
  apply (checked_below (fun n => (PyStr.len (PyStr.of_N n) <=? 4)%nat) 10000);
    [vm_compute; reflexivity | exact H].
Qed.

Lemma len_of_N_four_digits (n : N) :
  (1000 <= n < 10000)%N -> PyStr.len (PyStr.of_N n) = 4%nat.
Proof.
  intros [Hlo Hhi].
  assert (H : (n <? 1000)%N || (PyStr.len (PyStr.of_N n) =? 4)%nat = true).
  { apply (checked_below
             (fun n => (n <? 1000)%N || (PyStr.len (PyStr.of_N n) =? 4)%nat)
             10000); [vm_compute; reflexivity | exact Hhi]. }
  apply orb_true_iff in H. destruct H as [H | H].
  - apply N.ltb_lt in H. lia.
  - now apply Nat.eqb_eq.
Qed.

Lemma len_of_N_below_100 (n : N) :
  (n < 100)%N -> (PyStr.len (PyStr.of_N n) <= 2)%nat.
Proof.
  intros H. apply Nat.leb_le.
  apply (checked_below (fun n => (PyStr.len (PyStr.of_N n) <=? 2)%nat) 100);
    [vm_compute; reflexivity | exact H].
Qed.

Lemma substring_head_len (a b : string) (n : nat) :
  PyStr.len a = n -> substring 0 n (a ++ b) = a.
Proof.
  intros <-. apply substring_head.
Qed.

Lemma substring_skip_len (a b : string) (k n m : nat) :
  PyStr.len a = k -> substring (k + n) m (a ++ b) = substring n m b.
Proof.
  intros <-. apply substring_skip.
Qed.

Lemma substring_all_len (s : string) (n : nat) :
  PyStr.len s = n -> substring 0 n s = s.
Proof.
  intros <-. apply substring_all.
Qed.

Lemma days_in_month_le (y m : N) : (Date.days_in_month y m <= 31)%N.
Proof.
  unfold Date.days_in_month.
  destruct m as [| p]; [lia |].
  destruct (Date.is_leap y);
    repeat (destruct p as [p | p |]; try lia).
Qed.

Lemma valid_bounds (d : Date.t) :
  Date.valid d = true ->
  (1 <= Date.year d <= 9999 /\ 1 <= Date.month d <= 12
   /\ 1 <= Date.day d <= 31)%N.
Proof.
  unfold Date.valid. rewrite !andb_true_iff, !N.leb_le.
  pose proof (days_in_month_le (Date.year d) (Date.month d)).
  lia.
Qed.

(** The three fields the format ["%Y%m%d"] writes. *)
Lemma strftime_Ymd (d : Date.t) :
  Date.strftime d "%Y%m%d"
  = PyStr.zfill (if pads_year then 4 else 1) (PyStr.of_N (Date.year d))
    ++ PyStr.zfill 2 (PyStr.of_N (Date.month d))
    ++ PyStr.zfill 2 (PyStr.of_N (Date.day d)) ++ EmptyString.
Proof.
  reflexivity.
Qed.

(** Eight digits that read back as the date, for a year of four digits
    or on a platform that pads the year. *)
Lemma strftime_Ymd_roundtrip (d : Date.t) :
  Date.valid d = true ->
  pads_year = true \/ (1000 <= Date.year d)%N ->
  PyStr.len (Date.strftime d "%Y%m%d") = 8%nat
  /\ PyStr.all PyStr.is_ascii_digit (Date.strftime d "%Y%m%d") = true
  /\ Spec.parse_ymd (Date.strftime d "%Y%m%d") = Some d.
Proof.
  intros Hv Hy.
  destruct (valid_bounds d Hv) as [By [Bm Bd]].
  rewrite strftime_Ymd, app_empty_r.
  set (w := if pads_year then 4%nat else 1%nat).
  assert (Hw : (0 < w)%nat) by (subst w; destruct pads_year; lia).
  assert (LY : PyStr.len (PyStr.zfill w (PyStr.of_N (Date.year d))) = 4%nat).
  { rewrite len_zfill. subst w.
    destruct Hy as [-> | Hy].
    - pose proof (len_of_N_below_10000 (Date.year d)). lia.
    - rewrite (len_of_N_four_digits (Date.year d)) by lia.
      destruct pads_year; reflexivity. }
  assert (LM : PyStr.len (PyStr.zfill 2 (PyStr.of_N (Date.month d))) = 2%nat).
  { rewrite len_zfill. pose proof (len_of_N_below_100 (Date.month d)). lia. }
  assert (LD : PyStr.len (PyStr.zfill 2 (PyStr.of_N (Date.day d))) = 2%nat).
  { rewrite len_zfill. pose proof (len_of_N_below_100 (Date.day d)). lia. }
  split; [rewrite !len_app, LY, LM, LD; reflexivity |].
  split.
  { rewrite !all_app. unfold PyStr.of_N. now rewrite !zfill_digits. }
  unfold Spec.parse_ymd.
  rewrite !len_app, LY, LM, LD. simpl Nat.eqb. cbv iota.
  rewrite (substring_head_len _ _ 4 LY).
  rewrite (substring_skip_len _ _ 4 0 2 LY).
  rewrite (substring_skip_len _ _ 4 2 2 LY).
  rewrite (substring_head_len _ _ 2 LM).
  rewrite (substring_skip_len _ _ 2 0 2 LM).
  rewrite (substring_all_len _ 2 LD).
  rewrite !to_N_zfill by lia.
  destruct d; reflexivity.
Qed.

End DateFacts.

(** C3.  The default date formatter writes the date 2025-01-31 as
    [20250131] on every platform, and writes every calendar date as eight
    zero-padded digits that read back as the date when the year has four
    digits or the platform pads the year.  Where the C library does not
    pad the year the formatter writes the date 0999-01-02 as the seven
    characters [9990102], which do not read back. *)
Theorem DefaultDateFormatter_format_digits :
  DateFormatter_format (DefaultDateFormatter (P := glibc_platform))
    (Example.ymd 999 1 2) = "9990102"
  /\ Spec.parse_ymd "9990102" = None
  /\ (forall P : Platform,
        DateFormatter_format DefaultDateFormatter (Example.ymd 2025 1 31)
        = "20250131")
  /\ (forall (P : Platform) (d : Date.t),
        Date.valid d = true ->
        pads_year = true \/ (1000 <= Date.year d)%N ->
        PyStr.len (DateFormatter_format DefaultDateFormatter d) = 8%nat
        /\ PyStr.all PyStr.is_ascii_digit
             (DateFormatter_format DefaultDateFormatter d) = true
        /\ Spec.parse_ymd (DateFormatter_format DefaultDateFormatter d)
           = Some d).
Proof.
  split; [reflexivity |].
  split; [reflexivity |].
  split.
  - intros P. cbv [DefaultDateFormatter DateFormatter_format].
    rewrite strftime_Ymd.
    destruct pads_year; reflexivity.
  - intros P d Hv Hy. cbv [DefaultDateFormatter DateFormatter_format].
    now apply strftime_Ymd_roundtrip.
Qed.

Lemma DefaultDateFormatter_format_digits_witness :
  Spec.parse_ymd
    (DateFormatter_format (DefaultDateFormatter (P := padding_platform))
       (Example.ymd 999 1 2))
  = Some (Example.ymd 999 1 2)
  /\ Spec.parse_ymd
       (DateFormatter_format (DefaultDateFormatter (P := glibc_platform))
          (Example.ymd 2025 1 30))
     = Some (Example.ymd 2025 1 30).
Proof.
  destruct DefaultDateFormatter_format_digits as [_ [_ [_ H]]].
  split.
  - apply (H padding_platform (Example.ymd 999 1 2)).
    + reflexivity.
    + left. reflexivity.
  - apply (H glibc_platform (Example.ymd 2025 1 30)).
    + reflexivity.
    + right. simpl. lia.
Defined.

(* ================================================================== *)
(** * The generator and its formatters *)

Section FormatterFacts.

Context {P : Platform}.

(** No method of the generator reads the formatters it holds. *)
Lemma generate_tree_any_generator (g g' : OFXGenerator.t)
    (st : BankStatement.t) (uid : string) :
  OFXGenerator.generate_tree g st uid = OFXGenerator.generate_tree g' st uid.
Proof.
  reflexivity.
Qed.

Lemma generate_any_generator (g g' : OFXGenerator.t)
    (st : BankStatement.t) (uid : string) :
  OFXGenerator.generate g st uid = OFXGenerator.generate g' st uid.
Proof.
  unfold OFXGenerator.generate, OFXGenerator._generate_output.
  now rewrite (generate_tree_any_generator g g').
Qed.

End FormatterFacts.

(* ================================================================== *)
(** * The generator on element objects *)

Section StoreFacts.

(** Places in an element tree: reading and changing the element at the end
    of a path. *)
















End StoreFacts.

Section RunFacts.

(** The operations on element objects, run in a store whose last tree is
    [T] with the element [E] in focus at the place [p]. *)

Variable s0 : Stateful.store.














End RunFacts.





Section MethodFacts.

(** Each method of the generator, run on the element object it is handed,
    leaves that object as the function of [OFXGenerator] with the same name
    says, and touches nothing else. *)

Context {P : Platform}.
Variable self : OFXGenerator.t.
Variable s0 : Stateful.store.










End MethodFacts.

Section Determinism.

Context {P : Platform}.


End Determinism.

(** C2.  The generator does not use the date formatter it is given: the
    document of a generator built with any formatters is the document of
    the default generator, and with the ISO formatter, which writes the
    end date of the example statement as [2025-01-31], every date element
    of the document still has the form [20250131]. *)
Theorem generate_ignores_date_formatter :
  (forall (P : Platform) (df : option DateFormatter)
          (af : option AmountFormatter) (st : BankStatement.t) (uid : string),
      OFXGenerator.generate (OFXGenerator.__init__ df af) st uid
      = OFXGenerator.generate (OFXGenerator.__init__ None None) st uid)
  /\ match Example.statement (P := glibc_platform) None with
     | Ok st =>
         let g :=
           OFXGenerator.__init__ (P := glibc_platform)
             (Some iso_date_formatter) None in
         let doc := OFXGenerator.generate_tree g st "1001" in
         (DateFormatter_format (OFXGenerator.date_formatter g)
            (BankStatement.end_date st),
          map (fun name => map ET.text (ET.iter name doc))
            ["DTSERVER"; "DTSTART"; "DTEND"; "DTPOSTED"; "DTASOF"])
     | Raise _ => (EmptyString, [])
     end
     = ("2025-01-31",
        [[Some "20250131"]; [Some "20250101"]; [Some "20250131"];
         [Some "20250130"; Some "20250122"]; [Some "20250131"]]).
Proof.
  split.
  - intros P df af st uid. apply generate_any_generator.
  - vm_compute. reflexivity.
Qed.

(* ================================================================== *)
(** * The shape of the generated tree *)

Section TreeFacts.

Lemma iter_unfold (name t : string) (a : list (string * string))
    (x : option string) (cs : list ET.Element) :
  ET.iter name (ET.Elem t a x cs)
  = ((if String.eqb t name then [ET.Elem t a x cs] else [])
     ++ flat_map (ET.iter name) cs)%list.
Proof.
  cbn [ET.iter]. apply f_equal.
  induction cs as [| c cs IH]; [reflexivity |].
  cbn [flat_map]. now rewrite <- IH.
Qed.

(** A loop of [SubElement] calls appends the new elements in order. *)
Lemma fold_left_append {A : Type} (f : A -> ET.Element) (l : list A)
    (t : string) (a : list (string * string)) (x : option string)
    (cs : list ET.Element) :
  fold_left (fun acc y => ET.append acc (f y)) l (ET.Elem t a x cs)
  = ET.Elem t a x (cs ++ map f l).
Proof.
  revert cs.
  induction l as [| y l IH]; intros cs; simpl.
  - now rewrite app_nil_r.
  - rewrite IH, <- List.app_assoc. reflexivity.
Qed.

End TreeFacts.

Section GeneratedTree.

Context {P : Platform}.

Variable g : OFXGenerator.t.

Lemma flat_map_iter_none {A : Type} (name : string) (f : A -> ET.Element)
    (l : list A) :
  (forall y, ET.iter name (f y) = []) ->
  flat_map (ET.iter name) (map f l) = [].
Proof.
  intros H. induction l as [| y l IH]; simpl; [reflexivity |].
  now rewrite H, IH.
Qed.

Lemma flat_map_iter_self {A : Type} (name : string) (f : A -> ET.Element)
    (l : list A) :
  (forall y, ET.iter name (f y) = [f y]) ->
  flat_map (ET.iter name) (map f l) = map f l.
Proof.
  intros H. induction l as [| y l IH]; simpl; [reflexivity |].
  now rewrite H, IH.
Qed.

(** Which of the three optional elements a transaction gets. *)
Ltac optional_cases t :=
  unfold OFXGenerator.stmttrn, OFXGenerator.sub_text_if;
  destruct (PyStr.truthy_opt (Transaction.check_num t)),
           (PyStr.truthy_opt (Transaction.ref_num t)),
           (PyStr.truthy_opt (Transaction.memo t)).

Lemma iter_STMTTRN_stmttrn (t : Transaction.t) :
  ET.iter "STMTTRN" (OFXGenerator.stmttrn g t) = [OFXGenerator.stmttrn g t].
Proof.
  optional_cases t; reflexivity.
Qed.


Lemma iter_BANKACCTFROM_stmttrn (t : Transaction.t) :
  ET.iter "BANKACCTFROM" (OFXGenerator.stmttrn g t) = [].
Proof.
  optional_cases t; reflexivity.
Qed.

Lemma iter_BRANCHID_stmttrn (t : Transaction.t) :
  ET.iter "BRANCHID" (OFXGenerator.stmttrn g t) = [].
Proof.
  optional_cases t; reflexivity.
Qed.

(** The children of the statement response, in order: the currency, the
    account, the transaction list and the ledger balance. *)
Lemma stmt_rs_children (st : BankStatement.t) :
  OFXGenerator._add_balance g
    (OFXGenerator._add_transactions g
       (OFXGenerator._add_account_info g
          (ET.sub_text (ET.new "STMTRS" []) "CURDEF"
             (Some (Currency.value
                      (OFXSettings.currency (BankStatement.settings st)))))
          (BankStatement.bank_account st)) st)
    (BankStatement.balance st)
  = ET.Elem "STMTRS" [] None
      [ ET.Elem "CURDEF" [] 
          (Some (Currency.value
                   (OFXSettings.currency (BankStatement.settings st)))) [];
        ET.Elem "BANKACCTFROM" [] None
          [ ET.Elem "BANKID" []
              (Some (BankAccount.bank_id (BankStatement.bank_account st))) [];
            ET.Elem "BRANCHID" []
              (BankAccount.branch_id (BankStatement.bank_account st)) [];
            ET.Elem "ACCTID" []
              (Some (BankAccount.account_id (BankStatement.bank_account st)))
              [];
            ET.Elem "ACCTTYPE" []
              (Some (AccountType.value
                       (BankAccount.account_type
                          (BankStatement.bank_account st)))) [] ];
        ET.Elem "BANKTRANLIST" [] None
          ([ ET.Elem "DTSTART" []
               (Some (format_datetime (BankStatement.start_date st))) [];
             ET.Elem "DTEND" []
               (Some (format_datetime (BankStatement.end_date st))) [] ]
           ++ map (OFXGenerator.stmttrn g) (BankStatement.transactions st));
        ET.Elem "LEDGERBAL" [] None
          [ ET.Elem "BALAMT" []
              (Some (Decimal.str (Balance.amount (BankStatement.balance st))))
              [];
            ET.Elem "DTASOF" []
              (Some (format_datetime
                       (Balance.date_as_of (BankStatement.balance st)))) [] ]
      ].
Proof.
  unfold OFXGenerator._add_balance, OFXGenerator._add_transactions,
    OFXGenerator._add_account_info, ET.sub_text, ET.new.
  cbn [ET.append app].
  rewrite fold_left_append.
  reflexivity.
Qed.

End GeneratedTree.

(** The example records are what the constructors return. *)
Lemma Example_statement_built {P : Platform}
    (cc : option CreditCardAccount.t) :
  Example.statement cc
  = Ok (Example.statement_of (Some "0000-0") (Some "Salary Payment") cc)
  /\ Example.statement_with None None cc
     = Ok (Example.statement_of None None cc).
Proof.
  split; reflexivity.
Qed.

(** Unfolds [generate_tree] into the tree it builds, once for a statement
    with a credit-card account and once for a statement without. *)
Ltac open_generate_tree st :=
  unfold OFXGenerator.generate_tree, OFXGenerator._add_bank_statement,
    OFXGenerator._add_signon_response, OFXGenerator._add_credit_card_info,
    OFXGenerator._create_ofx_element, OFXGenerator.status_element;
  cbv zeta;
  rewrite stmt_rs_children;
  unfold ET.sub_text, ET.new;
  cbn [ET.append app];
  destruct (BankStatement.credit_card_account st); cbn [ET.append app].

(** Walks [iter] down a tree whose tags are known. *)
Ltac walk :=
  repeat first
    [ rewrite iter_unfold
    | rewrite flat_map_app
    | progress cbn [flat_map app String.eqb Ascii.eqb Bool.eqb andb] ];
  rewrite ?app_nil_r.

Section Documents.

Context {P : Platform}.

Variables (g : OFXGenerator.t) (st : BankStatement.t) (uid : string).

Lemma iter_STMTTRN_document :
  ET.iter "STMTTRN" (OFXGenerator.generate_tree g st uid)
  = map (OFXGenerator.stmttrn g) (BankStatement.transactions st).
Proof.
  open_generate_tree st; walk;
    apply flat_map_iter_self, iter_STMTTRN_stmttrn.
Qed.


Lemma iter_BANKACCTFROM_document :
  ET.iter "BANKACCTFROM" (OFXGenerator.generate_tree g st uid)
  = [ ET.Elem "BANKACCTFROM" [] None
        [ ET.Elem "BANKID" []
            (Some (BankAccount.bank_id (BankStatement.bank_account st))) [];
          ET.Elem "BRANCHID" []
            (BankAccount.branch_id (BankStatement.bank_account st)) [];
          ET.Elem "ACCTID" []
            (Some (BankAccount.account_id (BankStatement.bank_account st))) [];
          ET.Elem "ACCTTYPE" []
            (Some (AccountType.value
                     (BankAccount.account_type
                        (BankStatement.bank_account st)))) [] ] ].
Proof.
  open_generate_tree st; walk;
    rewrite (flat_map_iter_none _ _ _ (iter_BANKACCTFROM_stmttrn g));
    reflexivity.
Qed.

Lemma iter_BRANCHID_document :
  ET.iter "BRANCHID" (OFXGenerator.generate_tree g st uid)
  = [ ET.Elem "BRANCHID" []
        (BankAccount.branch_id (BankStatement.bank_account st)) [] ].
Proof.
  open_generate_tree st; walk;
    rewrite (flat_map_iter_none _ _ _ (iter_BRANCHID_stmttrn g));
    reflexivity.
Qed.



End Documents.

(* ================================================================== *)
(** * Optional elements *)

Section OptionalElements.

Context {P : Platform}.

Variable g : OFXGenerator.t.

(** An absent field adds no element to the aggregate of its transaction. *)
Lemma stmttrn_without_check_num (t : Transaction.t) :
  Transaction.check_num t = None ->
  ET.iter "CHECKNUM" (OFXGenerator.stmttrn g t) = [].
Proof.
  intros H. unfold OFXGenerator.stmttrn, OFXGenerator.sub_text_if.
  rewrite H. cbn [PyStr.truthy_opt].
  destruct (PyStr.truthy_opt (Transaction.ref_num t)),
           (PyStr.truthy_opt (Transaction.memo t)); reflexivity.
Qed.

Lemma stmttrn_without_ref_num (t : Transaction.t) :
  Transaction.ref_num t = None ->
  ET.iter "REFNUM" (OFXGenerator.stmttrn g t) = [].
Proof.
  intros H. unfold OFXGenerator.stmttrn, OFXGenerator.sub_text_if.
  rewrite H. cbn [PyStr.truthy_opt].
  destruct (PyStr.truthy_opt (Transaction.check_num t)),
           (PyStr.truthy_opt (Transaction.memo t)); reflexivity.
Qed.

Lemma stmttrn_without_memo (t : Transaction.t) :
  Transaction.memo t = None ->
  ET.iter "MEMO" (OFXGenerator.stmttrn g t) = [].
Proof.
  intros H. unfold OFXGenerator.stmttrn, OFXGenerator.sub_text_if.
  rewrite H. cbn [PyStr.truthy_opt].
  destruct (PyStr.truthy_opt (Transaction.check_num t)),
           (PyStr.truthy_opt (Transaction.ref_num t)); reflexivity.
Qed.

Lemma flat_map_iter_absent (name : string) (l : list Transaction.t) :
  (forall t, In t l -> ET.iter name (OFXGenerator.stmttrn g t) = []) ->
  flat_map (ET.iter name) (map (OFXGenerator.stmttrn g) l) = [].
Proof.
  induction l as [| t l IH]; intros H; simpl; [reflexivity |].
  rewrite (H t) by (left; reflexivity).
  apply IH. intros t' Ht'. apply H. right. exact Ht'.
Qed.

Variables (st : BankStatement.t) (uid : string).

(** Outside the transaction list no element carries one of the three
    optional tags. *)
Lemma iter_CHECKNUM_document :
  ET.iter "CHECKNUM" (OFXGenerator.generate_tree g st uid)
  = flat_map (ET.iter "CHECKNUM")
      (map (OFXGenerator.stmttrn g) (BankStatement.transactions st)).
Proof.
  open_generate_tree st; walk; reflexivity.
Qed.

Lemma iter_REFNUM_document :
  ET.iter "REFNUM" (OFXGenerator.generate_tree g st uid)
  = flat_map (ET.iter "REFNUM")
      (map (OFXGenerator.stmttrn g) (BankStatement.transactions st)).
Proof.
  open_generate_tree st; walk; reflexivity.
Qed.

Lemma iter_MEMO_document :
  ET.iter "MEMO" (OFXGenerator.generate_tree g st uid)
  = flat_map (ET.iter "MEMO")
      (map (OFXGenerator.stmttrn g) (BankStatement.transactions st)).
Proof.
  open_generate_tree st; walk; reflexivity.
Qed.

(** C7.  The [STMTTRN] aggregate of a transaction built without a check
    number has no [CHECKNUM] element, and likewise for the reference
    number and [REFNUM] and for the memo and [MEMO]; when no transaction
    of the statement has the field, the document has no such element. *)
Theorem absent_optional_fields_omitted :
  (forall (n : nat) (t : Transaction.t),
      nth_error (BankStatement.transactions st) n = Some t ->
      exists e : ET.Element,
        nth_error (ET.iter "STMTTRN" (OFXGenerator.generate_tree g st uid)) n
        = Some e
        /\ (Transaction.check_num t = None -> ET.iter "CHECKNUM" e = [])
        /\ (Transaction.ref_num t = None -> ET.iter "REFNUM" e = [])
        /\ (Transaction.memo t = None -> ET.iter "MEMO" e = []))
  /\ ((forall t, In t (BankStatement.transactions st) ->
                 Transaction.check_num t = None) ->
      ET.iter "CHECKNUM" (OFXGenerator.generate_tree g st uid) = [])
  /\ ((forall t, In t (BankStatement.transactions st) ->
                 Transaction.ref_num t = None) ->
      ET.iter "REFNUM" (OFXGenerator.generate_tree g st uid) = [])
  /\ ((forall t, In t (BankStatement.transactions st) ->
                 Transaction.memo t = None) ->
      ET.iter "MEMO" (OFXGenerator.generate_tree g st uid) = []).
Proof.
  split.
  - intros n t Hn.
    exists (OFXGenerator.stmttrn g t).
    split.
    + rewrite iter_STMTTRN_document.
      now apply map_nth_error.
    + auto using stmttrn_without_check_num, stmttrn_without_ref_num,
        stmttrn_without_memo.
  - repeat split; intros H.
    + rewrite iter_CHECKNUM_document. apply flat_map_iter_absent.
      auto using stmttrn_without_check_num.
    + rewrite iter_REFNUM_document. apply flat_map_iter_absent.
      auto using stmttrn_without_ref_num.
    + rewrite iter_MEMO_document. apply flat_map_iter_absent.
      auto using stmttrn_without_memo.
Qed.

End OptionalElements.

Lemma absent_optional_fields_omitted_witness :
  exists e : ET.Element,
    nth_error
      (ET.iter "STMTTRN"
         (OFXGenerator.generate_tree (P := glibc_platform)
            (OFXGenerator.__init__ (P := glibc_platform) None None)
            (Example.statement_of (Some "0000-0") None None) "1001")) 1
    = Some e
    /\ ET.iter "MEMO" e = [].
Proof.
  destruct (proj1 (absent_optional_fields_omitted (P := glibc_platform)
                     (OFXGenerator.__init__ (P := glibc_platform) None None)
                     (Example.statement_of (Some "0000-0") None None) "1001")
              1%nat (Example.credit_of None) eq_refl)
    as [e [He [_ [_ Hm]]]].
  exists e. split; [exact He | apply Hm; reflexivity].
Defined.

(* ================================================================== *)
(** * The serialised document *)

Section Serialisation.

Lemma occurs_here (n post : string) : Spec.occurs n (n ++ post).
Proof.
  exists EmptyString, post. reflexivity.
Qed.

Lemma occurs_app_r (n a b : string) :
  Spec.occurs n b -> Spec.occurs n (a ++ b).
Proof.
  intros [pre [post ->]].
  exists (a ++ pre), post. now rewrite app_assoc.
Qed.

Lemma occurs_app_l (n a b : string) :
  Spec.occurs n a -> Spec.occurs n (a ++ b).
Proof.
  intros [pre [post ->]].
  exists pre, (post ++ b). now rewrite !app_assoc.
Qed.

(** The text of an element with children: the start tag, the text, the
    children one after the other and the end tag. *)
Lemma serialize_unfold (t : string) (a : list (string * string))
    (x : option string) (cs : list ET.Element) :
  ET._serialize_xml (ET.Elem t a x cs)
  = "<" ++ t ++ String.concat EmptyString (map ET.serialize_attrib a)
    ++ (if PyStr.truthy_opt x || negb (Nat.eqb (List.length cs) 0)
        then
          ">"
          ++ match x with
             | Some s => ET._escape_cdata s
             | None => EmptyString
             end
          ++ fold_right (fun e acc => ET._serialize_xml e ++ acc)
               EmptyString cs
          ++ "</" ++ t ++ ">"
        else " />").
Proof.
  cbn [ET._serialize_xml].
  do 3 apply f_equal.
  destruct (PyStr.truthy_opt x || negb (Nat.eqb (List.length cs) 0));
    [| reflexivity].
  do 2 apply f_equal.
  apply (f_equal (fun s => s ++ "</" ++ t ++ ">")).
  induction cs as [| c cs IH]; [reflexivity |].
  cbn [fold_right]. now rewrite <- IH.
Qed.

Lemma occurs_children (n : string) (c : ET.Element) (cs : list ET.Element) :
  In c cs -> Spec.occurs n (ET._serialize_xml c) ->
  Spec.occurs n
    (fold_right (fun e acc => ET._serialize_xml e ++ acc) EmptyString cs).
Proof.
  intros Hin Hc.
  induction cs as [| c' cs IH]; [destruct Hin |].
  cbn [fold_right].
  destruct Hin as [-> | Hin].
  - now apply occurs_app_l.
  - apply occurs_app_r. now apply IH.
Qed.

(** What is written for a child is written for its parent. *)
Lemma occurs_child (n t : string) (a : list (string * string))
    (x : option string) (cs : list ET.Element) (c : ET.Element) :
  In c cs -> Spec.occurs n (ET._serialize_xml c) ->
  Spec.occurs n (ET._serialize_xml (ET.Elem t a x cs)).
Proof.
  intros Hin Hc.
  rewrite serialize_unfold.
  assert (E : negb (Nat.eqb (List.length cs) 0) = true)
    by (destruct cs; [destruct Hin | reflexivity]).
  rewrite E, orb_true_r.
  do 5 apply occurs_app_r.
  apply occurs_app_l.
  now apply (occurs_children n c).
Qed.

End Serialisation.

Section BranchId.

Context {P : Platform}.

Variables (g : OFXGenerator.t) (st : BankStatement.t) (uid : string).

(** The text written for the [BRANCHID] element is part of the document. *)
Lemma BRANCHID_in_document :
  Spec.occurs
    (ET.tostring
       (ET.Elem "BRANCHID" []
          (BankAccount.branch_id (BankStatement.bank_account st)) []))
    (OFXGenerator.generate g st uid).
Proof.
  unfold OFXGenerator.generate, OFXGenerator._generate_output, ET.tostring.
  do 9 apply occurs_app_r.
  open_generate_tree st;
    (eapply occurs_child; [right; left; reflexivity |]);
    (eapply occurs_child; [left; reflexivity |]);
    (eapply occurs_child; [right; right; left; reflexivity |]);
    (eapply occurs_child; [right; left; reflexivity |]);
    (eapply occurs_child; [right; left; reflexivity |]);
    rewrite <- (app_empty_r (ET._serialize_xml _)) at 2;
    apply occurs_here.
Qed.

End BranchId.

Section BranchIdAbsent.

Context {P : Platform}.

Variables (g : OFXGenerator.t) (st : BankStatement.t) (uid : string).

(** C10.  For a statement whose account has no branch id, the one
    [BANKACCTFROM] aggregate of the document still has a [BRANCHID] child,
    between [BANKID] and [ACCTID]; it is the only [BRANCHID] element of the
    document, it has neither text nor children, and it is written as the
    empty element [<BRANCHID />] in the generated string. *)
Theorem BRANCHID_emitted_without_branch_id :
  BankAccount.branch_id (BankStatement.bank_account st) = None ->
  ET.iter "BANKACCTFROM" (OFXGenerator.generate_tree g st uid)
  = [ ET.Elem "BANKACCTFROM" [] None
        [ ET.Elem "BANKID" []
            (Some (BankAccount.bank_id (BankStatement.bank_account st))) [];
          ET.Elem "BRANCHID" [] None [];
          ET.Elem "ACCTID" []
            (Some (BankAccount.account_id (BankStatement.bank_account st))) [];
          ET.Elem "ACCTTYPE" []
            (Some (AccountType.value
                     (BankAccount.account_type
                        (BankStatement.bank_account st)))) [] ] ]
  /\ ET.iter "BRANCHID" (OFXGenerator.generate_tree g st uid)
     = [ ET.Elem "BRANCHID" [] None [] ]
  /\ ET.tostring (ET.Elem "BRANCHID" [] None []) = "<BRANCHID />"
  /\ Spec.occurs "<BRANCHID />" (OFXGenerator.generate g st uid).
Proof.
  intros H.
  split; [rewrite iter_BANKACCTFROM_document, H; reflexivity |].
  split; [rewrite iter_BRANCHID_document, H; reflexivity |].
  split; [reflexivity |].
  pose proof (BRANCHID_in_document g st uid) as Hdoc.
  rewrite H in Hdoc. exact Hdoc.
Qed.

End BranchIdAbsent.

Lemma BRANCHID_emitted_without_branch_id_witness :
  ET.iter "BRANCHID"
    (OFXGenerator.generate_tree (P := glibc_platform)
       (OFXGenerator.__init__ (P := glibc_platform) None None)
       (Example.statement_of None None None) "1001")
  = [ ET.Elem "BRANCHID" [] None [] ]
  /\ Spec.occurs "<BRANCHID />"
       (OFXGenerator.generate (P := glibc_platform)
          (OFXGenerator.__init__ (P := glibc_platform) None None)
          (Example.statement_of None None None) "1001").
Proof.
  destruct (BRANCHID_emitted_without_branch_id (P := glibc_platform)
              (OFXGenerator.__init__ (P := glibc_platform) None None)
              (Example.statement_of None None None) "1001" eq_refl)
    as [_ [H1 [_ H2]]].
  split; [exact H1 | exact H2].
Defined.

(* ================================================================== *)
(** * The amount format *)

Section AmountStrings.

Lemma of_N_nonempty (n : N) : exists c s, PyStr.of_N n = String c s.
Proof.
  unfold PyStr.of_N.
  assert (H : N.to_uint n <> Nil).
  { destruct n as [| p]; [discriminate |].
    apply DecimalPos.Unsigned.to_uint_nonnil. }
  destruct (N.to_uint n); [congruence | | | | | | | | | |]; simpl; eauto.
Qed.

Lemma of_N_digits (n : N) :
  PyStr.all PyStr.is_ascii_digit (PyStr.of_N n) = true.
Proof.
  apply uint_digits.
Qed.

Lemma to_N_of_N (n : N) : Spec.to_N (PyStr.of_N n) = Some n.
Proof.
  rewrite <- (zfill_wide 1 (PyStr.of_N n)).
  - apply to_N_zfill. lia.
  - destruct (of_N_nonempty n) as [c [s ->]]. simpl. lia.
Qed.

Lemma digit_not_point (c : ascii) :
  PyStr.is_ascii_digit c = true -> Ascii.eqb c "." = false.
Proof.
  destruct c as [[] [] [] [] [] [] [] []]; intros H;
    reflexivity || discriminate H.
Qed.

Lemma digit_not_minus (c : ascii) :
  PyStr.is_ascii_digit c = true -> Ascii.eqb c "-" = false.
Proof.
  destruct c as [[] [] [] [] [] [] [] []]; intros H;
    reflexivity || discriminate H.
Qed.

Lemma split_at_point_digits (ip fp : string) :
  PyStr.all PyStr.is_ascii_digit ip = true ->
  Spec.split_at_point (ip ++ "." ++ fp) = Some (ip, fp).
Proof.
  induction ip as [| c ip IH]; intros H.
  - reflexivity.
  - simpl in H. apply andb_true_iff in H. destruct H as [Hc Hip].
    cbn [append Spec.split_at_point].
    rewrite (digit_not_point c Hc).
    change (ip ++ String "." fp) with (ip ++ "." ++ fp).
    now rewrite (IH Hip).
Qed.

(** The count of hundredths read from the text of a formatted amount. *)
Lemma hundredths_format_2f (negative : bool) (c : N) :
  Spec.hundredths
    ((if negative then "-" else EmptyString)
     ++ PyStr.of_N (c / 100) ++ "." ++ PyStr.zfill 2 (PyStr.of_N (c mod 100)))
  = Some (if negative then (- Z.of_N c)%Z else Z.of_N c).
Proof.
  assert (Hbody :
    Spec.hundredths
      ((if negative then "-" else EmptyString)
       ++ PyStr.of_N (c / 100) ++ "."
       ++ PyStr.zfill 2 (PyStr.of_N (c mod 100)))
    = match Spec.split_at_point
              (PyStr.of_N (c / 100) ++ "."
               ++ PyStr.zfill 2 (PyStr.of_N (c mod 100))) with
      | Some (ip, fp) =>
          if (PyStr.len fp =? 2)%nat then
            match Spec.to_N ip, Spec.to_N fp with
            | Some i, Some f =>
                Some (if negative then (- Z.of_N (i * 100 + f))%Z
                      else Z.of_N (i * 100 + f))
            | _, _ => None
            end
          else None
      | None => None
      end).
  { destruct negative.
    - reflexivity.
    - destruct (of_N_nonempty (c / 100)) as [ch [s E]].
      pose proof (of_N_digits (c / 100)) as D.
      rewrite E in *. simpl in D. apply andb_true_iff in D.
      destruct D as [D _].
      unfold Spec.hundredths. cbn [append].
      rewrite (digit_not_minus ch D). reflexivity. }
  rewrite Hbody.
  rewrite split_at_point_digits by apply of_N_digits.
  rewrite len_zfill.
  assert (L : (PyStr.len (PyStr.of_N (c mod 100)) <= 2)%nat).
  { apply len_of_N_below_100. apply N.mod_lt. discriminate. }
  replace (Nat.max 2 (PyStr.len (PyStr.of_N (c mod 100)))) with 2%nat by lia.
  cbn [Nat.eqb].
  rewrite to_N_of_N, to_N_zfill by lia.
  replace (c / 100 * 100 + c mod 100)%N with c; [reflexivity |].
  rewrite N.mul_comm. apply N.div_mod. discriminate.
Qed.

End AmountStrings.

Section AmountValues.

Open Scope Z_scope.

(** Powers of ten with a non-negative exponent are integers. *)
Lemma ten_power_nonneg (n : Z) :
  0 <= n -> (Qpower (10 # 1) n == inject_Z (10 ^ n))%Q.
Proof.
  intros H. symmetry. apply (Zpower_Qpower 10 n H).
Qed.

Lemma ten_power_neg (n : Z) :
  0 <= n -> (Qpower (10 # 1) (- n) == / inject_Z (10 ^ n))%Q.
Proof.
  intros H. rewrite Qpower_opp, ten_power_nonneg by exact H. reflexivity.
Qed.

(** The value of a decimal whose exponent is at least [-2], in
    hundredths. *)
Lemma value_coarse (d : Decimal.t) :
  -2 <= Decimal.exponent d ->
  (Decimal.value d
   == Qmake (Decimal.signed_coefficient d * 10 ^ (Decimal.exponent d + 2)) 100)%Q.
Proof.
  intros H. unfold Decimal.value.
  replace (Decimal.exponent d) with ((Decimal.exponent d + 2) + - (2)) at 1
    by lia.
  rewrite Qpower_plus by discriminate.
  rewrite ten_power_nonneg by lia.
  rewrite (ten_power_neg 2) by lia.
  generalize (10 ^ (Decimal.exponent d + 2)).
  generalize (Decimal.signed_coefficient d).
  intros a b. unfold Qeq, Qmult, Qinv, inject_Z. simpl. ring.
Qed.

(** The value of a decimal with more than two fractional digits. *)
Lemma value_fine (d : Decimal.t) :
  Decimal.exponent d < -2 ->
  (Decimal.value d
   == Qmake (Decimal.signed_coefficient d)
        (100 * Z.to_pos (10 ^ (- 2 - Decimal.exponent d))))%Q.
Proof.
  intros H. unfold Decimal.value.
  replace (Decimal.exponent d) with (- (- Decimal.exponent d)) at 1 by lia.
  rewrite ten_power_neg by lia.
  replace (- Decimal.exponent d) with (2 + (- 2 - Decimal.exponent d)) by lia.
  rewrite Z.pow_add_r by lia.
  assert (Hp : 0 < 10 ^ (- 2 - Decimal.exponent d))
    by (apply Z.pow_pos_nonneg; lia).
  generalize dependent (10 ^ (- 2 - Decimal.exponent d)).
  intros p Hp.
  rewrite Qmake_Qdiv. unfold Qdiv.
  replace (Z.pos (100 * Z.to_pos p)) with (10 ^ 2 * p); [reflexivity |].
  rewrite Pos2Z.inj_mul, Z2Pos.id by exact Hp. reflexivity.
Qed.

End AmountValues.

Section Rounding.

Open Scope Z_scope.

Lemma rescale_coarse (d : Decimal.t) :
  -2 <= Decimal.exponent d ->
  Z.of_N (Decimal.rescale_hundredths d)
  = Z.of_N (Decimal.coefficient d) * 10 ^ (Decimal.exponent d + 2).
Proof.
  intros H. unfold Decimal.rescale_hundredths.
  destruct (Z.leb_spec (-2) (Decimal.exponent d)) as [_ | H']; [| lia].
  rewrite N2Z.inj_mul, N2Z.inj_pow, Z2N.id by lia. reflexivity.
Qed.

(** Rounding half to even: the rescaled coefficient is a nearest integer
    to [coefficient / 10^k], and the even one of the two on a tie. *)
Lemma rescale_fine (d : Decimal.t) :
  Decimal.exponent d < -2 ->
  2 * Z.abs (Z.of_N (Decimal.rescale_hundredths d)
             * 10 ^ (- 2 - Decimal.exponent d)
             - Z.of_N (Decimal.coefficient d))
  <= 10 ^ (- 2 - Decimal.exponent d)
  /\ (2 * Z.abs (Z.of_N (Decimal.rescale_hundredths d)
                 * 10 ^ (- 2 - Decimal.exponent d)
                 - Z.of_N (Decimal.coefficient d))
      = 10 ^ (- 2 - Decimal.exponent d) ->
      Z.even (Z.of_N (Decimal.rescale_hundredths d)) = true).
Proof.
  intros H. unfold Decimal.rescale_hundredths.
  destruct (Z.leb_spec (-2) (Decimal.exponent d)) as [H' | _]; [lia |].
  set (k := - 2 - Decimal.exponent d).
  assert (Hp : Z.of_N (10 ^ Z.to_N k) = 10 ^ k)
    by (rewrite N2Z.inj_pow, Z2N.id by lia; reflexivity).
  assert (Hpos : 0 < 10 ^ k) by (apply Z.pow_pos_nonneg; lia).
  set (p := (10 ^ Z.to_N k)%N) in *.
  assert (Hp0 : p <> 0%N) by lia.
  pose proof (N.div_mod (Decimal.coefficient d) p Hp0) as Hdm.
  pose proof (N.mod_lt (Decimal.coefficient d) p Hp0) as Hlt.
  set (q := (Decimal.coefficient d / p)%N) in *.
  set (r := (Decimal.coefficient d mod p)%N) in *.
  rewrite <- Hp.
  assert (Ha : Z.of_N (Decimal.coefficient d) = Z.of_N p * Z.of_N q + Z.of_N r)
    by lia.
  rewrite Ha.
  destruct (N.ltb_spec p (2 * r)) as [C1 | C1].
  - rewrite N2Z.inj_add. split; [nia | nia].
  - destruct (N.eqb_spec (2 * r) p) as [C2 | C2].
    + destruct (N.even q) eqn:Ev.
      * split; [nia |]. intros _.
        rewrite <- Ev. destruct q; reflexivity.
      * rewrite N2Z.inj_add. split; [nia |]. intros _.
        change (Z.of_N 1) with 1.
        rewrite Z.even_add. 
        replace (Z.even (Z.of_N q)) with (N.even q)
          by (destruct q; reflexivity).
        rewrite Ev. reflexivity.
    + split; [nia | nia].
Qed.

End Rounding.

Section Nearest.

Open Scope Z_scope.

Variables (s : bool) (q a : Z) (p : positive).

Lemma hundredths_distance :
  (Qabs (Qmake (if s then - q else q) 100
         - Qmake (if s then - a else a) (100 * p))
   == Qmake (Z.abs (q * Z.pos p - a)) (100 * p))%Q.
Proof.
  unfold Qeq, Qabs, Qminus, Qplus, Qopp.
  cbn [Qnum Qden].
  rewrite !Pos2Z.inj_mul.
  destruct s; nia.
Qed.

Lemma hundredths_nearest :
  2 * Z.abs (q * Z.pos p - a) <= Z.pos p ->
  (Qabs (Qmake (if s then - q else q) 100
         - Qmake (if s then - a else a) (100 * p)) <= 1 # 200)%Q.
Proof.
  intros H. rewrite hundredths_distance.
  unfold Qle. cbn [Qnum Qden]. rewrite !Pos2Z.inj_mul. lia.
Qed.

Lemma hundredths_tie :
  (Qabs (Qmake (if s then - q else q) 100
         - Qmake (if s then - a else a) (100 * p)) == 1 # 200)%Q ->
  2 * Z.abs (q * Z.pos p - a) = Z.pos p.
Proof.
  rewrite hundredths_distance.
  unfold Qeq. cbn [Qnum Qden]. rewrite !Pos2Z.inj_mul. lia.
Qed.

Lemma hundredths_exact (k : Z) :
  2 * Z.abs (q * Z.pos p - a) <= Z.pos p ->
  (Qmake (if s then - a else a) (100 * p) == Qmake k 100)%Q ->
  (Qmake (if s then - q else q) 100
   == Qmake (if s then - a else a) (100 * p))%Q.
Proof.
  unfold Qeq. cbn [Qnum Qden]. rewrite !Pos2Z.inj_mul.
  intros H E.
  assert (Hq : q * Z.pos p = a); [| destruct s; nia].
  destruct s.
  - assert (Ea : a = (- k) * Z.pos p) by lia.
    rewrite Ea in *.
    assert (q = - k \/ q <> - k) as [-> | Hne] by lia; [reflexivity | nia].
  - assert (Ea : a = k * Z.pos p) by lia.
    rewrite Ea in *.
    assert (q = k \/ q <> k) as [-> | Hne] by lia; [reflexivity | nia].
Qed.

End Nearest.

Section AmountFormat.

Open Scope Z_scope.

Lemma signed_coefficient_cases (d : Decimal.t) (m : Z) :
  Decimal.signed_coefficient d * m
  = if Decimal.sign d then - (Z.of_N (Decimal.coefficient d) * m)
    else Z.of_N (Decimal.coefficient d) * m.
Proof.
  unfold Decimal.signed_coefficient. destruct (Decimal.sign d); ring.
Qed.

(** The value of a decimal as a fraction of hundredths, and the rescaled
    coefficient as a nearest integer to it. *)
Lemma rescale_nearest (d : Decimal.t) :
  exists (a : Z) (p : positive),
    0 <= a
    /\ (Decimal.value d == Qmake (if Decimal.sign d then - a else a) (100 * p))%Q
    /\ 2 * Z.abs (Z.of_N (Decimal.rescale_hundredths d) * Z.pos p - a)
       <= Z.pos p
    /\ (2 * Z.abs (Z.of_N (Decimal.rescale_hundredths d) * Z.pos p - a)
        = Z.pos p ->
        Z.even (Z.of_N (Decimal.rescale_hundredths d)) = true).
Proof.
  destruct (Z_le_gt_dec (-2) (Decimal.exponent d)) as [H | H].
  - exists (Z.of_N (Decimal.coefficient d) * 10 ^ (Decimal.exponent d + 2)),
      1%positive.
    assert (Hpow : 0 < 10 ^ (Decimal.exponent d + 2))
      by (apply Z.pow_pos_nonneg; lia).
    split; [nia |].
    split.
    + rewrite (value_coarse d H), signed_coefficient_cases. reflexivity.
    + rewrite (rescale_coarse d H). split; [lia | lia].
  - assert (Hpow : 0 < 10 ^ (- 2 - Decimal.exponent d))
      by (apply Z.pow_pos_nonneg; lia).
    exists (Z.of_N (Decimal.coefficient d)),
      (Z.to_pos (10 ^ (- 2 - Decimal.exponent d))).
    split; [lia |].
    split.
    + rewrite (value_fine d) by lia.
      unfold Decimal.signed_coefficient. reflexivity.
    + rewrite Z2Pos.id by exact Hpow.
      apply rescale_fine. lia.
Qed.

Lemma format_2f_hundredths (d : Decimal.t) :
  Spec.hundredths (Decimal.format_2f d)
  = Some (if Decimal.sign d
          then - Z.of_N (Decimal.rescale_hundredths d)
          else Z.of_N (Decimal.rescale_hundredths d)).
Proof.
  unfold Decimal.format_2f. apply hundredths_format_2f.
Qed.

End AmountFormat.

(** C9.  For every finite decimal the default amount formatter returns an
    optional minus sign, at least one digit, a point and exactly two
    digits.  The amount written is a multiple of one hundredth nearest to
    the decimal: at most half a hundredth away, and with an even count of
    hundredths when exactly half a hundredth away (rounding half to even);
    it is the decimal itself when that is a whole number of hundredths.
    The string of a negative decimal starts with a minus sign and that of
    a positive decimal with a digit, never a plus sign. *)
Theorem DefaultAmountFormatter_two_fraction_digits (d : Decimal.t) :
  exists c : Z,
    Spec.hundredths (AmountFormatter_format DefaultAmountFormatter d) = Some c
    /\ Spec.parse_amount (AmountFormatter_format DefaultAmountFormatter d)
       = Some (Qmake c 100)
    /\ (exists sgn ip fp : string,
          AmountFormatter_format DefaultAmountFormatter d
          = sgn ++ ip ++ "." ++ fp
          /\ (sgn = EmptyString \/ sgn = "-")
          /\ ip <> EmptyString
          /\ PyStr.all PyStr.is_ascii_digit ip = true
          /\ PyStr.all PyStr.is_ascii_digit fp = true
          /\ PyStr.len fp = 2%nat)
    /\ (Qabs (Qmake c 100 - Decimal.value d) <= 1 # 200)%Q
    /\ ((Qabs (Qmake c 100 - Decimal.value d) == 1 # 200)%Q ->
        Z.even c = true)
    /\ ((exists k : Z, (Decimal.value d == Qmake k 100)%Q) ->
        (Qmake c 100 == Decimal.value d)%Q)
    /\ ((Decimal.value d < 0)%Q ->
        exists rest : string,
          AmountFormatter_format DefaultAmountFormatter d = String "-" rest)
    /\ ((0 < Decimal.value d)%Q ->
        exists (ch : ascii) (rest : string),
          AmountFormatter_format DefaultAmountFormatter d = String ch rest
          /\ PyStr.is_ascii_digit ch = true).
Proof.
  cbn [DefaultAmountFormatter AmountFormatter_format].
  destruct (rescale_nearest d) as [a [p [Ha [Hv [Hn Ht]]]]].
  set (q := Z.of_N (Decimal.rescale_hundredths d)) in *.
  exists (if Decimal.sign d then (- q)%Z else q).
  split; [apply format_2f_hundredths |].
  split; [unfold Spec.parse_amount; now rewrite format_2f_hundredths |].
  split.
  { exists (if Decimal.sign d then "-" else EmptyString),
      (PyStr.of_N (Decimal.rescale_hundredths d / 100)),
      (PyStr.zfill 2 (PyStr.of_N (Decimal.rescale_hundredths d mod 100))).
    split; [reflexivity |].
    split; [destruct (Decimal.sign d); auto |].
    split.
    { destruct (of_N_nonempty (Decimal.rescale_hundredths d / 100))
        as [ch [s ->]]. discriminate. }
    split; [apply of_N_digits |].
    split; [apply zfill_digits |].
    rewrite len_zfill.
    pose proof (len_of_N_below_100 (Decimal.rescale_hundredths d mod 100))
      as L.
    assert ((Decimal.rescale_hundredths d mod 100 < 100)%N)
      by (apply N.mod_lt; discriminate).
    lia. }
  split; [rewrite Hv; now apply hundredths_nearest |].
  split.
  { rewrite Hv. intros E. apply hundredths_tie in E.
    specialize (Ht E).
    destruct (Decimal.sign d); [now rewrite Z.even_opp | exact Ht]. }
  split.
  { intros [k Hk]. rewrite Hv in *.
    now apply (hundredths_exact _ _ _ _ k). }
  split.
  - intros Hneg. rewrite Hv in Hneg.
    unfold Decimal.format_2f.
    destruct (Decimal.sign d).
    + eexists. reflexivity.
    + exfalso. unfold Qlt in Hneg. cbn [Qnum Qden] in Hneg. lia.
  - intros Hpos. rewrite Hv in Hpos.
    unfold Decimal.format_2f.
    destruct (Decimal.sign d).
    + exfalso. unfold Qlt in Hpos. cbn [Qnum Qden] in Hpos. lia.
    + destruct (of_N_nonempty (Decimal.rescale_hundredths d / 100))
        as [ch [s E]].
      pose proof (of_N_digits (Decimal.rescale_hundredths d / 100)) as D.
      rewrite E in *. simpl in D. apply andb_true_iff in D.
      exists ch. eexists. split; [reflexivity | apply D].
Qed.

Lemma DefaultAmountFormatter_two_fraction_digits_witness :
  exists rest : string,
    AmountFormatter_format DefaultAmountFormatter Example.minus_100_00
    = String "-" rest.
Proof.
  destruct (DefaultAmountFormatter_two_fraction_digits Example.minus_100_00)
    as [c [_ [_ [_ [_ [_ [_ [Hneg _]]]]]]]].
  apply Hneg. reflexivity.
Defined.

(* ================================================================== *)
(** * The formats and the example document, evaluated *)

Example Decimal_str_plain :
  Decimal.str Example.minus_100_00 = "-100.00".
Proof. reflexivity. Qed.

Example Decimal_str_scientific :
  Decimal.str {| Decimal.sign := false; Decimal.coefficient := 1;
                 Decimal.exponent := 3 |} = "1E+3"
  /\ Decimal.str {| Decimal.sign := false; Decimal.coefficient := 123;
                    Decimal.exponent := -9 |} = "1.23E-7"
  /\ Decimal.str {| Decimal.sign := false; Decimal.coefficient := 123;
                    Decimal.exponent := -5 |} = "0.00123".
Proof. repeat split; reflexivity. Qed.

Example Decimal_format_2f_rounds_half_even :
  Decimal.format_2f {| Decimal.sign := false; Decimal.coefficient := 125;
                       Decimal.exponent := -3 |} = "0.12"
  /\ Decimal.format_2f {| Decimal.sign := false; Decimal.coefficient := 135;
                          Decimal.exponent := -3 |} = "0.14"
  /\ Decimal.format_2f {| Decimal.sign := true; Decimal.coefficient := 2675;
                          Decimal.exponent := -3 |} = "-2.68"
  /\ Decimal.format_2f {| Decimal.sign := true; Decimal.coefficient := 1;
                          Decimal.exponent := -3 |} = "-0.00"
  /\ Decimal.format_2f {| Decimal.sign := false; Decimal.coefficient := 1;
                          Decimal.exponent := 3 |} = "1000.00".
Proof. repeat split; reflexivity. Qed.

Example escape_cdata_example :
  ET._escape_cdata "x<y&z>" = "x&lt;y&amp;z&gt;".
Proof. reflexivity. Qed.

(** The scenario of the example script: two [STMTTRN] aggregates, payment
    first, the currency, the language, two status blocks and the two
    cash-advance elements under the root. *)
Example example_document :
  let doc :=
    OFXGenerator.generate_tree (P := glibc_platform)
      (OFXGenerator.__init__ (P := glibc_platform) None None)
      (Example.statement_of (Some "0000-0") (Some "Salary Payment")
         (Some {| CreditCardAccount.cash_advance_available_amount :=
                    Example.whole 1000 eq_refl : @float glibc_platform;
                  CreditCardAccount.cash_advance_credit_limit :=
                    Example.whole 5000 eq_refl : @float glibc_platform |}))
      "1001" in
  map ET.text (ET.iter "TRNTYPE" doc) = [Some "PAYMENT"; Some "CREDIT"]
  /\ map ET.text (ET.iter "CURDEF" doc) = [Some "BRL"]
  /\ map ET.text (ET.iter "LANGUAGE" doc) = [Some "POR"]
  /\ map ET.text (ET.iter "CODE" doc) = [Some "0"; Some "0"]
  /\ map ET.text (ET.iter "SEVERITY" doc) = [Some "INFO"; Some "INFO"]
  /\ map ET.text (ET.iter "TRNAMT" doc) = [Some "-100.00"; Some "500.00"]
  /\ map (fun e => (ET.tag e, ET.text e)) (ET.children doc)
     = [ ("SIGNONMSGSRSV1", None); ("BANKMSGSRSV1", None);
         ("CASHADVAVAILAMT", Some "1000.0");
         ("CASHADVCREDITLIMIT", Some "5000.0") ].
Proof. vm_compute. repeat split; reflexivity. Qed.

(* ================================================================== *)
(** * Further properties of the data model *)

Section ModelFacts.

Lemma truthy_len (s : string) :
  PyStr.truthy s = true <-> (1 <= PyStr.len s)%nat.
Proof.
  destruct s; simpl; split; intros H; try lia; congruence.
Qed.

(** The test [not s or len(s) > n] fails exactly for 1 to [n] characters. *)
Lemma length_test (n : nat) (s : string) :
  negb (PyStr.truthy s) || (n <? PyStr.len s)%nat = false
  <-> (1 <= PyStr.len s <= n)%nat.
Proof.
  rewrite orb_false_iff, negb_false_iff, truthy_len, Nat.ltb_ge. tauto.
Qed.

(** X1.  A financial institution is built exactly when the organisation
    name has 1 to 60 characters and the id 1 to 32; a bad name is reported
    before a bad id. *)
Theorem FinancialInstitution_length_limits (org fid : string) :
  (FinancialInstitution.new org fid
   = Ok {| FinancialInstitution.org := org; FinancialInstitution.fid := fid |}
   <-> (1 <= PyStr.len org <= 60)%nat /\ (1 <= PyStr.len fid <= 32)%nat)
  /\ (~ (1 <= PyStr.len org <= 60)%nat ->
      FinancialInstitution.new org fid
      = Raise (ValidationError
                 "Organization name must be between 1 and 60 characters"))
  /\ ((1 <= PyStr.len org <= 60)%nat -> ~ (1 <= PyStr.len fid <= 32)%nat ->
      FinancialInstitution.new org fid
      = Raise (ValidationError "FID must be between 1 and 32 characters")).
Proof.
  unfold FinancialInstitution.new, FinancialInstitution.__post_init__.
  cbn [FinancialInstitution.org FinancialInstitution.fid].
  pose proof (length_test 60 org) as Ho.
  pose proof (length_test 32 fid) as Hf.
  destruct (negb (PyStr.truthy org) || (60 <? PyStr.len org)%nat);
    destruct (negb (PyStr.truthy fid) || (32 <? PyStr.len fid)%nat);
    cbn [raise_if bind];
    repeat split; intros; try discriminate; try reflexivity;
    try tauto; exfalso;
    try (assert (true = false) by tauto; discriminate).
Qed.

End ModelFacts.

Lemma FinancialInstitution_length_limits_witness :
  FinancialInstitution.new (PyStr.times "a" 60) "000"
  = Ok {| FinancialInstitution.org := PyStr.times "a" 60;
          FinancialInstitution.fid := "000" |}
  /\ FinancialInstitution.new (PyStr.times "a" 61) "000"
     = Raise (ValidationError
                "Organization name must be between 1 and 60 characters")
  /\ FinancialInstitution.new "Example Bank" EmptyString
     = Raise (ValidationError "FID must be between 1 and 32 characters").
Proof.
  split; [| split].
  - apply (proj1 (FinancialInstitution_length_limits
                    (PyStr.times "a" 60) "000")).
    vm_compute. repeat split; lia.
  - apply (proj1 (proj2 (FinancialInstitution_length_limits
                           (PyStr.times "a" 61) "000"))).
    vm_compute. lia.
  - apply (proj2 (proj2 (FinancialInstitution_length_limits
                           "Example Bank" EmptyString))).
    + vm_compute. lia.
    + vm_compute. lia.
Defined.

Section AccountFacts.

(** The branch id test of the constructor refuses a branch id exactly when
    it is longer than 22 characters: no branch id and the empty branch id
    both pass. *)
Lemma branch_id_rejected_iff (branch_id : option string) :
  BankAccount.branch_id_rejected branch_id = true
  <-> exists s, branch_id = Some s /\ (22 < PyStr.len s)%nat.
Proof.
  unfold BankAccount.branch_id_rejected, validate_branch_id.
  destruct branch_id as [s |].
  - rewrite andb_true_iff, negb_true_iff, andb_false_iff, Nat.leb_gt.
    split.
    + intros [Ht [H | H]]; [congruence | eauto].
    + intros [s' [E H]]. injection E as <-.
      split; [apply truthy_len; lia | right; exact H].
  - split; [discriminate | intros [s [E _]]; discriminate E].
Qed.

Lemma validate_account_id_iff (s : string) :
  validate_account_id s = true <-> (1 <= PyStr.len s <= 22)%nat.
Proof.
  unfold validate_account_id.
  rewrite andb_true_iff, truthy_len, Nat.leb_le. tauto.
Qed.

(** X2.  A bank account is built exactly when the bank id is valid, the
    account id has 1 to 22 characters, the branch id, if any, has at most
    22 characters (the empty one included) and the account type is a
    member or the code of one; the account then holds the arguments, with
    the member in place of the code. *)
Theorem BankAccount_new_accepts (bank_id account_id : string)
    (account_type : AccountType.t + string) (branch_id : option string)
    (account : BankAccount.t) :
  BankAccount.new bank_id account_id account_type branch_id = Ok account
  <-> validate_bank_id bank_id = true
      /\ (1 <= PyStr.len account_id <= 22)%nat
      /\ (forall s, branch_id = Some s -> (PyStr.len s <= 22)%nat)
      /\ coerce AccountType.of_value account_type
         = Ok (BankAccount.account_type account)
      /\ BankAccount.bank_id account = bank_id
      /\ BankAccount.account_id account = account_id
      /\ BankAccount.branch_id account = branch_id.
Proof.
  unfold BankAccount.new.
  rewrite <- validate_account_id_iff.
  pose proof (branch_id_rejected_iff branch_id) as Hbr.
  destruct (validate_bank_id bank_id); cbn [negb raise_if bind];
    [| split; [discriminate | intros [H _]; discriminate H]].
  destruct (validate_account_id account_id); cbn [negb raise_if bind];
    [| split; [discriminate | intros [_ [H _]]; discriminate H]].
  destruct (BankAccount.branch_id_rejected branch_id); cbn [raise_if bind].
  - split; [discriminate |].
    intros [_ [_ [H _]]].
    destruct (proj1 Hbr eq_refl) as [s [E Hs]].
    specialize (H s E). lia.
  - assert (Hok : forall s, branch_id = Some s -> (PyStr.len s <= 22)%nat).
    { intros s E.
      destruct (Nat.le_gt_cases (PyStr.len s) 22) as [L | L]; [exact L |].
      assert (false = true) by (apply Hbr; eauto). discriminate. }
    destruct (coerce AccountType.of_value account_type) as [ty | e];
      cbn [bind].
    + split.
      * intros E. injection E as <-. auto 10.
      * intros [_ [_ [_ [E [<- [<- <-]]]]]]. injection E as ->.
        destruct account; reflexivity.
    + split; [discriminate | intros [_ [_ [_ [E _]]]]; discriminate E].
Qed.

(** Looking a member up by its value finds a member with that value. *)
Lemma enum_lookup_sound {E : Type} (members : list E) (value : E -> string)
    (name v : string) (m : E) :
  enum_lookup members value name v = Ok m -> value m = v.
Proof.
  unfold enum_lookup.
  destruct (find (fun m => String.eqb (value m) v) members) as [m' |] eqn:F;
    [| discriminate].
  intros E'. injection E' as <-.
  apply find_some in F. now apply String.eqb_eq.
Qed.

(** X3.  In every enumeration, looking a value up returns a member exactly
    when that member has the value: each member is found by its own value
    and no two members share one. *)
Theorem enum_of_value_iff :
  (forall v m, TransactionType.of_value v = Ok m <-> TransactionType.value m = v)
  /\ (forall v m, AccountType.of_value v = Ok m <-> AccountType.value m = v)
  /\ (forall v m, Language.of_value v = Ok m <-> Language.value m = v)
  /\ (forall v m, Currency.of_value v = Ok m <-> Currency.value m = v)
  /\ (forall v m, Security.of_value v = Ok m <-> Security.value m = v)
  /\ (forall v m, Encoding.of_value v = Ok m <-> Encoding.value m = v)
  /\ (forall v m, Compression.of_value v = Ok m <-> Compression.value m = v).
Proof.
  repeat split;
    try (intros H; apply enum_lookup_sound in H; exact H);
    intros <-; destruct m; reflexivity.
Qed.

(** X4.  A bank account built from the code of an account type is the
    account built from the member, and a code that is no member's value
    makes the construction raise [ValueError] once the three ids have
    passed. *)
Theorem BankAccount_account_type_code (bank_id account_id : string)
    (branch_id : option string) :
  (forall m : AccountType.t,
      BankAccount.new bank_id account_id (inr (AccountType.value m)) branch_id
      = BankAccount.new bank_id account_id (inl m) branch_id)
  /\ (forall code : string,
        (forall m, AccountType.value m <> code) ->
        validate_bank_id bank_id = true ->
        validate_account_id account_id = true ->
        BankAccount.branch_id_rejected branch_id = false ->
        BankAccount.new bank_id account_id (inr code) branch_id
        = Raise (ValueError code "AccountType")).
Proof.
  split.
  - intros m. unfold BankAccount.new.
    replace (coerce AccountType.of_value (inr (AccountType.value m)))
      with (coerce AccountType.of_value (inl m : AccountType.t + string));
      [reflexivity |].
    destruct m; reflexivity.
  - intros code Hno Hb Ha Hbr. unfold BankAccount.new.
    rewrite Hb, Ha, Hbr. cbn [negb raise_if bind coerce].
    unfold AccountType.of_value, enum_lookup.
    destruct (find (fun m => String.eqb (AccountType.value m) code)
                AccountType.members) as [m |] eqn:F; [| reflexivity].
    apply find_some in F. destruct F as [_ F].
    apply String.eqb_eq in F. destruct (Hno m F).
Qed.

End AccountFacts.

Lemma BankAccount_account_type_code_witness :
  BankAccount.new "000" "000000000" (inr "checking") (Some "0000-0")
  = Raise (ValueError "checking" "AccountType").
Proof.
  apply (proj2 (BankAccount_account_type_code "000" "000000000"
                  (Some "0000-0")) "checking");
    try reflexivity.
  intros m. destruct m; discriminate.
Defined.

Section SettingsFacts.

Open Scope Z_scope.

Lemma OFXVersion_validate_iff (version : Z) :
  OFXVersion.validate version = true <-> version = 211.
Proof.
  unfold OFXVersion.validate. cbn [existsb OFXVersion.SUPPORTED_VERSIONS].
  rewrite orb_false_r. apply Z.eqb_eq.
Qed.

Lemma CharSet_validate_iff (charset : Z) :
  CharSet.validate charset = true <-> charset = 1252.
Proof.
  unfold CharSet.validate. cbn [existsb CharSet.VALID_CHARSETS].
  rewrite orb_false_r. apply Z.eqb_eq.
Qed.

Variables (language : Language.t) (currency : Currency.t).
Variables (encoding : Encoding.t) (security : Security.t).
Variables (compression : Compression.t) (version charset : Z).

(** X5.  Settings given by members are accepted exactly for version 211
    and charset 1252; any other version is reported, by its number, before
    the charset is looked at, and any other charset is reported for
    version 211. *)
Theorem OFXSettings_version_and_charset :
  (OFXSettings.new (inl language) (inl currency) version (inl encoding)
     charset (inl security) (inl compression)
   = Ok {| OFXSettings.language := language;
           OFXSettings.currency := currency;
           OFXSettings.version := version;
           OFXSettings.encoding := encoding;
           OFXSettings.charset := charset;
           OFXSettings.security := security;
           OFXSettings.compression := compression |}
   <-> version = 211 /\ charset = 1252)
  /\ (version <> 211 ->
      OFXSettings.new (inl language) (inl currency) version (inl encoding)
        charset (inl security) (inl compression)
      = Raise (ValidationError
                 ("Invalid OFX version: " ++ PyStr.of_Z version)))
  /\ (version = 211 -> charset <> 1252 ->
      OFXSettings.new (inl language) (inl currency) version (inl encoding)
        charset (inl security) (inl compression)
      = Raise (ValidationError ("Invalid charset: " ++ PyStr.of_Z charset))).
Proof.
  unfold OFXSettings.new. cbn [coerce bind].
  destruct (OFXVersion.validate version) eqn:Hv; cbn [negb raise_if bind].
  - apply OFXVersion_validate_iff in Hv.
    destruct (CharSet.validate charset) eqn:Hc; cbn [negb raise_if bind].
    + apply CharSet_validate_iff in Hc.
      split; [tauto |]. split; intros; congruence.
    + assert (charset <> 1252)
        by (intros E; apply CharSet_validate_iff in E; congruence).
      split; [split; [discriminate | tauto] |].
      split; intros; [congruence | reflexivity].
  - assert (version <> 211)
      by (intros E; apply OFXVersion_validate_iff in E; congruence).
    split; [split; [discriminate | tauto] |].
    split; intros; [reflexivity | congruence].
Qed.

End SettingsFacts.

Lemma OFXSettings_version_and_charset_witness :
  OFXSettings.new (inl Language.PORTUGUESE) (inl Currency.BRAZILIAN_REAL)
    230 (inl Encoding.UTF8) 1 (inl Security.NONE) (inl Compression.NONE)
  = Raise (ValidationError "Invalid OFX version: 230")
  /\ OFXSettings.new (inl Language.PORTUGUESE) (inl Currency.BRAZILIAN_REAL)
       211 (inl Encoding.UTF8) 1 (inl Security.NONE) (inl Compression.NONE)
     = Raise (ValidationError "Invalid charset: 1").
Proof.
  split.
  - apply (proj1 (proj2 (OFXSettings_version_and_charset
                           Language.PORTUGUESE Currency.BRAZILIAN_REAL
                           Encoding.UTF8 Security.NONE Compression.NONE
                           230 1))).
    discriminate.
  - apply (proj2 (proj2 (OFXSettings_version_and_charset
                           Language.PORTUGUESE Currency.BRAZILIAN_REAL
                           Encoding.UTF8 Security.NONE Compression.NONE
                           211 1))).
    + reflexivity.
    + discriminate.
Defined.

Section StatementFacts.

Context {P : Platform}.

Lemma leb_refl (d : Date.t) : Date.leb d d = true.
Proof.
  unfold Date.leb.
  rewrite !N.eqb_refl, N.leb_refl, !orb_true_r. reflexivity.
Qed.

Lemma leb_total (a b : Date.t) : Date.leb a b = false -> Date.leb b a = true.
Proof.
  unfold Date.leb.
  rewrite !orb_false_iff, !andb_false_iff, !orb_false_iff, !andb_false_iff,
    !orb_true_iff, !andb_true_iff, !orb_true_iff, !andb_true_iff,
    !N.ltb_lt, !N.ltb_ge, !N.eqb_eq, !N.eqb_neq, !N.leb_le, !N.leb_gt.
  lia.
Qed.

Variables (fi : FinancialInstitution.t) (account : BankAccount.t).
Variables (balance : Balance.t) (start_date end_date : Date.t).
Variables (transactions : list Transaction.t).
Variables (settings : option OFXSettings.t).
Variables (cc : option CreditCardAccount.t).

(** X6.  A statement is built exactly when the end date is not before the
    start date, a period of one day included; it holds the arguments, and
    the settings English, US dollar, version 211, UTF-8, charset 1252, no
    security and no compression when none are given.  A period that is
    refused is accepted with its two dates exchanged. *)
Theorem BankStatement_date_range :
  (Date.leb start_date end_date = true ->
   BankStatement.new fi account balance start_date end_date transactions
     settings cc
   = Ok {| BankStatement.financial_institution := fi;
           BankStatement.bank_account := account;
           BankStatement.balance := balance;
           BankStatement.start_date := start_date;
           BankStatement.end_date := end_date;
           BankStatement.transactions := transactions;
           BankStatement.settings :=
             match settings with
             | Some s => s
             | None =>
                 {| OFXSettings.language := Language.ENGLISH;
                    OFXSettings.currency := Currency.US_DOLLAR;
                    OFXSettings.version := 211;
                    OFXSettings.encoding := Encoding.UTF8;
                    OFXSettings.charset := 1252;
                    OFXSettings.security := Security.NONE;
                    OFXSettings.compression := Compression.NONE |}
             end;
           BankStatement.credit_card_account := cc |})
  /\ (Date.leb start_date end_date = false ->
      BankStatement.new fi account balance start_date end_date transactions
        settings cc
      = Raise (ValidationError "End date must not be before start date")
      /\ is_ok (BankStatement.new fi account balance end_date start_date
                  transactions settings cc) = true)
  /\ is_ok (BankStatement.new fi account balance start_date start_date
              transactions settings cc) = true.
Proof.
  assert (Hnew : forall s e,
    BankStatement.new fi account balance s e transactions settings cc
    = if Date.leb s e
      then Ok {| BankStatement.financial_institution := fi;
                 BankStatement.bank_account := account;
                 BankStatement.balance := balance;
                 BankStatement.start_date := s;
                 BankStatement.end_date := e;
                 BankStatement.transactions := transactions;
                 BankStatement.settings :=
                   match settings with
                   | Some s => s
                   | None =>
                       {| OFXSettings.language := Language.ENGLISH;
                          OFXSettings.currency := Currency.US_DOLLAR;
                          OFXSettings.version := 211;
                          OFXSettings.encoding := Encoding.UTF8;
                          OFXSettings.charset := 1252;
                          OFXSettings.security := Security.NONE;
                          OFXSettings.compression := Compression.NONE |}
                   end;
                 BankStatement.credit_card_account := cc |}
      else Raise (ValidationError "End date must not be before start date")).
  { intros s e. unfold BankStatement.new, validate_date_range.
    destruct settings; cbn [bind OFXSettings.default];
      destruct (Date.leb s e); reflexivity. }
  rewrite !Hnew.
  split; [intros ->; reflexivity |].
  split.
  - intros H. rewrite H, (leb_total _ _ H). split; reflexivity.
  - rewrite leb_refl. reflexivity.
Qed.

End StatementFacts.

Lemma BankStatement_date_range_witness :
  BankStatement.new (P := glibc_platform)
    {| FinancialInstitution.org := "Example Bank";
       FinancialInstitution.fid := "000" |}
    (Example.account_of None)
    {| Balance.amount := Example.plus_1000_00;
       Balance.date_as_of := Example.ymd 2025 1 31 |}
    (Example.ymd 2025 1 31) (Example.ymd 2025 1 1) [] None None
  = Raise (ValidationError "End date must not be before start date").
Proof.
  apply (proj1 (proj2 (BankStatement_date_range (P := glibc_platform)
                  {| FinancialInstitution.org := "Example Bank";
                     FinancialInstitution.fid := "000" |}
                  (Example.account_of None)
                  {| Balance.amount := Example.plus_1000_00;
                     Balance.date_as_of := Example.ymd 2025 1 31 |}
                  (Example.ymd 2025 1 31) (Example.ymd 2025 1 1) [] None None))
           eq_refl).
Defined.

(* ================================================================== *)
(** * Escaping of character data *)

Section Escaping.

(** Escaping works character by character: the three markup characters
    become entities and every other character stays. *)
Lemma escape_cdata_cons (c : ascii) (s : string) :
  ET._escape_cdata (String c s)
  = (if Ascii.eqb c "&" then "&amp;"
     else if Ascii.eqb c "<" then "&lt;"
     else if Ascii.eqb c ">" then "&gt;"
     else String c EmptyString)
    ++ ET._escape_cdata s.
Proof.
  unfold ET._escape_cdata. cbn [PyStr.replace].
  destruct (Ascii.eqb c "&") eqn:E1; [reflexivity |].
  cbn [PyStr.replace].
  destruct (Ascii.eqb c "<") eqn:E2; [reflexivity |].
  cbn [PyStr.replace].
  destruct (Ascii.eqb c ">") eqn:E3; reflexivity.
Qed.

Lemma escape_cdata_empty : ET._escape_cdata EmptyString = EmptyString.
Proof. reflexivity. Qed.

(** X7.  Escaped text holds no [<] and no [>], whatever the text, and text
    without [&], [<] and [>] is left as it is. *)
Theorem escape_cdata_no_markup (text : string) :
  PyStr.all (fun c => negb (Ascii.eqb c "<") && negb (Ascii.eqb c ">"))
    (ET._escape_cdata text) = true
  /\ (PyStr.all (fun c => negb (Ascii.eqb c "&") && negb (Ascii.eqb c "<")
                          && negb (Ascii.eqb c ">")) text = true ->
      ET._escape_cdata text = text).
Proof.
  induction text as [| c s [IH1 IH2]]; [split; reflexivity |].
  rewrite escape_cdata_cons. split.
  - rewrite all_app, IH1, andb_true_r.
    destruct (Ascii.eqb c "&"); [reflexivity |].
    destruct (Ascii.eqb c "<") eqn:E2; [reflexivity |].
    destruct (Ascii.eqb c ">") eqn:E3; [reflexivity |].
    cbn [PyStr.all]. now rewrite E2, E3.
  - cbn [PyStr.all]. rewrite !andb_true_iff, !negb_true_iff.
    intros [[[E1 E2] E3] Hs].
    rewrite E1, E2, E3, (IH2 Hs). reflexivity.
Qed.

(** X8.  Escaping loses nothing: two texts with the same escaped form are
    the same text. *)
Theorem escape_cdata_injective (a b : string) :
  ET._escape_cdata a = ET._escape_cdata b -> a = b.
Proof.
  revert b.
  induction a as [| c a IH]; intros [| c' b] H.
  - reflexivity.
  - rewrite escape_cdata_cons, escape_cdata_empty in H.
    destruct (Ascii.eqb c' "&"); [discriminate H |].
    destruct (Ascii.eqb c' "<"); [discriminate H |].
    destruct (Ascii.eqb c' ">"); discriminate H.
  - rewrite escape_cdata_cons, escape_cdata_empty in H.
    destruct (Ascii.eqb c "&"); [discriminate H |].
    destruct (Ascii.eqb c "<"); [discriminate H |].
    destruct (Ascii.eqb c ">"); discriminate H.
  - rewrite !escape_cdata_cons in H.
    destruct (Ascii.eqb_spec c "&") as [-> | N1];
      [| destruct (Ascii.eqb_spec c "<") as [-> | N2];
         [| destruct (Ascii.eqb_spec c ">") as [-> | N3]]];
    (destruct (Ascii.eqb_spec c' "&") as [-> | N1'];
      [| destruct (Ascii.eqb_spec c' "<") as [-> | N2'];
         [| destruct (Ascii.eqb_spec c' ">") as [-> | N3']]]);
    cbn [append] in H; try discriminate H;
    injection H as H; subst; try congruence;
    f_equal; apply IH; congruence.
Qed.

End Escaping.

Lemma escape_cdata_no_markup_witness :
  ET._escape_cdata "Payment to Vendor" = "Payment to Vendor".
Proof.
  apply (proj2 (escape_cdata_no_markup "Payment to Vendor")).
  reflexivity.
Defined.

Lemma escape_cdata_injective_witness : "a<b" = "a<b".
Proof.
  apply (escape_cdata_injective "a<b" "a<b"). reflexivity.
Defined.

(* ================================================================== *)
(** * The layout of the document *)

Section Layout.

Context {P : Platform}.

Variable g : OFXGenerator.t.

Lemma flat_map_iter_one {A : Type} (name : string) (f h : A -> ET.Element)
    (l : list A) :
  (forall y, ET.iter name (f y) = [h y]) ->
  flat_map (ET.iter name) (map f l) = map h l.
Proof.
  intros H. induction l as [| y l IH]; simpl; [reflexivity |].
  now rewrite H, IH.
Qed.

(** A tag that is none of the eight tags of a transaction aggregate
    occurs in none. *)
Lemma iter_stmttrn_other (name : string) (t : Transaction.t) :
  forallb (fun tag => negb (String.eqb tag name))
    ["STMTTRN"; "TRNTYPE"; "DTPOSTED"; "TRNAMT"; "FITID"; "CHECKNUM";
     "REFNUM"; "MEMO"] = true ->
  ET.iter name (OFXGenerator.stmttrn g t) = [].
Proof.
  cbn [forallb]. rewrite !andb_true_iff, !negb_true_iff.
  intros [H1 [H2 [H3 [H4 [H5 [H6 [H7 [H8 _]]]]]]]].
  unfold OFXGenerator.stmttrn, OFXGenerator.sub_text_if, ET.sub_text, ET.new.
  destruct (PyStr.truthy_opt (Transaction.check_num t)),
           (PyStr.truthy_opt (Transaction.ref_num t)),
           (PyStr.truthy_opt (Transaction.memo t));
    cbn [ET.append List.app];
    repeat (rewrite iter_unfold; cbn [flat_map List.app]);
    rewrite ?H1, ?H2, ?H3, ?H4, ?H5, ?H6, ?H7, ?H8; reflexivity.
Qed.

Lemma flat_map_stmttrn_other (name : string) (l : list Transaction.t) :
  forallb (fun tag => negb (String.eqb tag name))
    ["STMTTRN"; "TRNTYPE"; "DTPOSTED"; "TRNAMT"; "FITID"; "CHECKNUM";
     "REFNUM"; "MEMO"] = true ->
  flat_map (ET.iter name) (map (OFXGenerator.stmttrn g) l) = [].
Proof.
  intros H. apply flat_map_iter_none. intros t.
  now apply iter_stmttrn_other.
Qed.

Variables (st : BankStatement.t) (uid : string).

(** Walks [iter] down the document for a tag outside the transactions. *)
Ltac outside_transactions :=
  open_generate_tree st; walk;
  rewrite ?flat_map_stmttrn_other by reflexivity;
  reflexivity.

(** X9.  The root has the sign-on and bank-message aggregates as its
    first two children; a credit-card account adds the available amount
    and the credit limit, printed by [str], as the last two children of the
    root, and without one nothing of the document carries these tags. *)
Theorem credit_card_elements :
  map ET.tag (ET.children (OFXGenerator.generate_tree g st uid))
  = (["SIGNONMSGSRSV1"; "BANKMSGSRSV1"]
     ++ match BankStatement.credit_card_account st with
        | Some _ => ["CASHADVAVAILAMT"; "CASHADVCREDITLIMIT"]
        | None => []
        end)%list
  /\ ET.iter "CASHADVAVAILAMT" (OFXGenerator.generate_tree g st uid)
     = match BankStatement.credit_card_account st with
       | Some cc =>
           [ET.Elem "CASHADVAVAILAMT" []
              (Some (float_str
                       (CreditCardAccount.cash_advance_available_amount cc)))
              []]
       | None => []
       end
  /\ ET.iter "CASHADVCREDITLIMIT" (OFXGenerator.generate_tree g st uid)
     = match BankStatement.credit_card_account st with
       | Some cc =>
           [ET.Elem "CASHADVCREDITLIMIT" []
              (Some (float_str
                       (CreditCardAccount.cash_advance_credit_limit cc))) []]
       | None => []
       end.
Proof.
  split; [open_generate_tree st; reflexivity |].
  split; outside_transactions.
Qed.

(** X10.  The statement response has the currency, the account, the
    transaction list and the ledger balance as its children, in this
    order; the currency is the code of the settings' currency, and the
    ledger balance holds the amount printed by [str] and the formatted
    date of the balance. *)
Theorem statement_response_layout :
  map (fun e => map ET.tag (ET.children e))
    (ET.iter "STMTRS" (OFXGenerator.generate_tree g st uid))
  = [["CURDEF"; "BANKACCTFROM"; "BANKTRANLIST"; "LEDGERBAL"]]
  /\ ET.iter "CURDEF" (OFXGenerator.generate_tree g st uid)
     = [ET.Elem "CURDEF" []
          (Some (Currency.value
                   (OFXSettings.currency (BankStatement.settings st)))) []]
  /\ ET.iter "LEDGERBAL" (OFXGenerator.generate_tree g st uid)
     = [ET.Elem "LEDGERBAL" [] None
          [ET.Elem "BALAMT" []
             (Some (Decimal.str (Balance.amount (BankStatement.balance st))))
             [];
           ET.Elem "DTASOF" []
             (Some (format_datetime
                      (Balance.date_as_of (BankStatement.balance st)))) []]].
Proof.
  split; [| split]; outside_transactions.
Qed.

(** X11.  The sign-on response holds a status, the server date, the
    language code and the institution, in this order; the server date is
    the formatted end date of the statement, the text of [DTEND]; and the
    document has exactly two status blocks, both with code 0 and severity
    INFO, whatever the statement. *)
Theorem signon_response_layout :
  ET.iter "SONRS" (OFXGenerator.generate_tree g st uid)
  = [ET.Elem "SONRS" [] None
       [OFXGenerator.status_element;
        ET.Elem "DTSERVER" []
          (Some (format_datetime (BankStatement.end_date st))) [];
        ET.Elem "LANGUAGE" []
          (Some (Language.value
                   (OFXSettings.language (BankStatement.settings st)))) [];
        ET.Elem "FI" [] None
          [ET.Elem "ORG" []
             (Some (FinancialInstitution.org
                      (BankStatement.financial_institution st))) [];
           ET.Elem "FID" []
             (Some (FinancialInstitution.fid
                      (BankStatement.financial_institution st))) []]]]
  /\ map ET.text (ET.iter "DTSERVER" (OFXGenerator.generate_tree g st uid))
     = map ET.text (ET.iter "DTEND" (OFXGenerator.generate_tree g st uid))
  /\ ET.iter "STATUS" (OFXGenerator.generate_tree g st uid)
     = [ET.Elem "STATUS" [] None
          [ET.Elem "CODE" [] (Some "0") [];
           ET.Elem "SEVERITY" [] (Some "INFO") []];
        ET.Elem "STATUS" [] None
          [ET.Elem "CODE" [] (Some "0") [];
           ET.Elem "SEVERITY" [] (Some "INFO") []]].
Proof.
  split; [outside_transactions |].
  split; [| outside_transactions].
  assert (H1 : ET.iter "DTSERVER" (OFXGenerator.generate_tree g st uid)
               = [ET.Elem "DTSERVER" []
                    (Some (format_datetime (BankStatement.end_date st))) []])
    by outside_transactions.
  assert (H2 : ET.iter "DTEND" (OFXGenerator.generate_tree g st uid)
               = [ET.Elem "DTEND" []
                    (Some (format_datetime (BankStatement.end_date st))) []])
    by outside_transactions.
  rewrite H1, H2. reflexivity.
Qed.

End Layout.

Section Transactions.

Context {P : Platform}.

Variable g : OFXGenerator.t.

(** The aggregate of a transaction, child by child. *)
Lemma stmttrn_unfold (t : Transaction.t) :
  OFXGenerator.stmttrn g t
  = ET.Elem "STMTTRN" [] None
      ([ ET.Elem "TRNTYPE" []
           (Some (TransactionType.value (Transaction.transaction_type t))) [];
         ET.Elem "DTPOSTED" []
           (Some (format_datetime (Transaction.date_posted t))) [];
         ET.Elem "TRNAMT" [] (Some (Decimal.str (Transaction.amount t))) [];
         ET.Elem "FITID" [] (Some (Transaction.fit_id t)) [] ]
       ++ match Transaction.check_num t with
          | Some (String c s) => [ET.Elem "CHECKNUM" [] (Some (String c s)) []]
          | _ => []
          end
       ++ match Transaction.ref_num t with
          | Some (String c s) => [ET.Elem "REFNUM" [] (Some (String c s)) []]
          | _ => []
          end
       ++ match Transaction.memo t with
          | Some (String c s) => [ET.Elem "MEMO" [] (Some (String c s)) []]
          | _ => []
          end)%list.
Proof.
  unfold OFXGenerator.stmttrn, OFXGenerator.sub_text_if.
  destruct (Transaction.check_num t) as [[| c1 s1] |],
           (Transaction.ref_num t) as [[| c2 s2] |],
           (Transaction.memo t) as [[| c3 s3] |]; reflexivity.
Qed.

(** X12.  The aggregate of a transaction holds the type, the posting
    date, the amount and the FIT id, then the check number, the reference
    number and the memo, in this order, each of the three only when it is
    a non-empty string: an empty string is left out like an absent one. *)
Theorem stmttrn_children (t : Transaction.t) :
  OFXGenerator.stmttrn g t
  = ET.Elem "STMTTRN" [] None
      ([ ET.Elem "TRNTYPE" []
           (Some (TransactionType.value (Transaction.transaction_type t))) [];
         ET.Elem "DTPOSTED" []
           (Some (format_datetime (Transaction.date_posted t))) [];
         ET.Elem "TRNAMT" [] (Some (Decimal.str (Transaction.amount t))) [];
         ET.Elem "FITID" [] (Some (Transaction.fit_id t)) [] ]
       ++ match Transaction.check_num t with
          | Some (String c s) => [ET.Elem "CHECKNUM" [] (Some (String c s)) []]
          | _ => []
          end
       ++ match Transaction.ref_num t with
          | Some (String c s) => [ET.Elem "REFNUM" [] (Some (String c s)) []]
          | _ => []
          end
       ++ match Transaction.memo t with
          | Some (String c s) => [ET.Elem "MEMO" [] (Some (String c s)) []]
          | _ => []
          end)%list.
Proof.
  apply stmttrn_unfold.
Qed.

Variables (st : BankStatement.t) (uid : string).

Lemma iter_DTPOSTED_stmttrn (t : Transaction.t) :
  ET.iter "DTPOSTED" (OFXGenerator.stmttrn g t)
  = [ET.Elem "DTPOSTED" []
       (Some (format_datetime (Transaction.date_posted t))) []].
Proof.
  rewrite stmttrn_unfold.
  destruct (Transaction.check_num t) as [[| c1 s1] |],
           (Transaction.ref_num t) as [[| c2 s2] |],
           (Transaction.memo t) as [[| c3 s3] |]; reflexivity.
Qed.

Lemma iter_DTPOSTED_document :
  ET.iter "DTPOSTED" (OFXGenerator.generate_tree g st uid)
  = map (fun t => ET.Elem "DTPOSTED" []
                    (Some (format_datetime (Transaction.date_posted t))) [])
      (BankStatement.transactions st).
Proof.
  open_generate_tree st; walk;
    apply (flat_map_iter_one "DTPOSTED"), iter_DTPOSTED_stmttrn.
Qed.

(** X13.  When the posting dates are calendar dates with a year of four
    digits, or the platform pads the year, the [DTPOSTED] elements of the
    document read back as the posting dates of the transactions, in the
    order of the statement. *)
Theorem DTPOSTED_read_back :
  (forall t, In t (BankStatement.transactions st) ->
             Date.valid (Transaction.date_posted t) = true
             /\ (pads_year = true
                 \/ (1000 <= Date.year (Transaction.date_posted t))%N)) ->
  map (fun e => match ET.text e with
                | Some s => Spec.parse_ymd s
                | None => None
                end)
    (ET.iter "DTPOSTED" (OFXGenerator.generate_tree g st uid))
  = map (fun t => Some (Transaction.date_posted t))
      (BankStatement.transactions st).
Proof.
  rewrite iter_DTPOSTED_document, map_map. cbn [ET.text].
  intros H. apply map_ext_in. intros t Ht.
  destruct (H t Ht) as [Hv Hy].
  apply (strftime_Ymd_roundtrip _ Hv Hy).
Qed.

End Transactions.

Lemma DTPOSTED_read_back_witness :
  map (fun e => match ET.text e with
                | Some s => Spec.parse_ymd s
                | None => None
                end)
    (ET.iter "DTPOSTED"
       (OFXGenerator.generate_tree (P := glibc_platform)
          (OFXGenerator.__init__ (P := glibc_platform) None None)
          (Example.statement_of None None None) "1001"))
  = [Some (Example.ymd 2025 1 30); Some (Example.ymd 2025 1 22)].
Proof.
  apply (DTPOSTED_read_back (P := glibc_platform)
           (OFXGenerator.__init__ (P := glibc_platform) None None)
           (Example.statement_of None None None) "1001").
  intros t [<- | [<- | []]]; (split; [reflexivity | right; cbn; lia]).
Defined.

Section Envelope.

Context {P : Platform}.

Variables (g : OFXGenerator.t) (st : BankStatement.t) (uid : string).

(** X14.  Every document is the XML declaration line, the OFX header line
    (header 200, version 230, whatever the settings), the start tag of the
    root with its two namespace declarations, the children of the root and
    the end tag of the root. *)
Theorem document_envelope :
  exists body : string,
    OFXGenerator.generate g st uid
    = "<?xml " ++ quoted_attr "version" "1.0" ++ " "
      ++ quoted_attr "encoding" "UTF-8" ++ " "
      ++ quoted_attr "standalone" "no" ++ "?>" ++ newline
      ++ "<?OFX " ++ quoted_attr "OFXHEADER" "200" ++ " "
      ++ quoted_attr "VERSION" "230" ++ " "
      ++ quoted_attr "SECURITY" "NONE" ++ " "
      ++ quoted_attr "OLDFILEUID" "NONE" ++ " "
      ++ quoted_attr "NEWFILEUID" "NONE" ++ "?>" ++ newline
      ++ "<OFX " ++ quoted_attr "xmlns" "http://ofx.net/ifx/2.0/ofx" ++ " "
      ++ quoted_attr "xmlns:xsi" "http://www.w3.org/2001/XMLSchema-instance"
      ++ ">" ++ body ++ "</OFX>".
Proof.
  unfold OFXGenerator.generate, OFXGenerator._generate_output, ET.tostring.
  open_generate_tree st; rewrite serialize_unfold;
    eexists; reflexivity.
Qed.

Lemma serialize_text_leaf (tag : string) (text : option string) :
  ET._serialize_xml (ET.Elem tag [] text [])
  = match text with
    | Some (String c s) =>
        "<" ++ tag ++ ">" ++ ET._escape_cdata (String c s)
        ++ "</" ++ tag ++ ">"
    | _ => "<" ++ tag ++ " />"
    end.
Proof.
  destruct text as [[| c s] |]; reflexivity.
Qed.

(** X15.  The transaction response holds the uid, a status and the
    statement response, in this order; the uid is the caller's string as
    given, written escaped between its tags in the document, and written
    as the empty element [<TRNUID />] when it is the empty string. *)
Theorem TRNUID_element :
  map (fun e => map ET.tag (ET.children e))
    (ET.iter "STMTTRNRS" (OFXGenerator.generate_tree g st uid))
  = [["TRNUID"; "STATUS"; "STMTRS"]]
  /\ ET.iter "TRNUID" (OFXGenerator.generate_tree g st uid)
     = [ET.Elem "TRNUID" [] (Some uid) []]
  /\ Spec.occurs
       (match uid with
        | EmptyString => "<TRNUID />"
        | String _ _ => "<TRNUID>" ++ ET._escape_cdata uid ++ "</TRNUID>"
        end)
       (OFXGenerator.generate g st uid).
Proof.
  split; [open_generate_tree st; walk;
          rewrite ?flat_map_stmttrn_other by reflexivity; reflexivity |].
  split; [open_generate_tree st; walk;
          rewrite ?flat_map_stmttrn_other by reflexivity; reflexivity |].
  replace (match uid with
           | EmptyString => "<TRNUID />"
           | String _ _ => "<TRNUID>" ++ ET._escape_cdata uid ++ "</TRNUID>"
           end)
    with (ET._serialize_xml (ET.Elem "TRNUID" [] (Some uid) []))
    by (rewrite serialize_text_leaf; destruct uid; reflexivity).
  unfold OFXGenerator.generate, OFXGenerator._generate_output, ET.tostring.
  do 9 apply occurs_app_r.
  open_generate_tree st;
    (eapply occurs_child; [right; left; reflexivity |]);
    (eapply occurs_child; [left; reflexivity |]);
    (eapply occurs_child; [left; reflexivity |]);
    rewrite <- (app_empty_r (ET._serialize_xml _)) at 2;
    apply occurs_here.
Qed.

End Envelope.

Section SettingsUnread.

Context {P : Platform}.

Variables (g : OFXGenerator.t) (uid : string).
Variables (fi : FinancialInstitution.t) (account : BankAccount.t).
Variables (balance : Balance.t) (start_date end_date : Date.t).
Variables (transactions : list Transaction.t).
Variables (cc : option CreditCardAccount.t).
Variables (language : Language.t) (currency : Currency.t).
Variables (version version' charset charset' : Z).
Variables (encoding encoding' : Encoding.t) (security security' : Security.t).
Variables (compression compression' : Compression.t).

(** X16.  Of the settings only the language and the currency reach the
    document: two statements that differ in the version, the encoding, the
    charset, the security level or the compression of their settings give
    the same document. *)
Theorem settings_beyond_language_and_currency_unread :
  OFXGenerator.generate g
    {| BankStatement.financial_institution := fi;
       BankStatement.bank_account := account;
       BankStatement.balance := balance;
       BankStatement.start_date := start_date;
       BankStatement.end_date := end_date;
       BankStatement.transactions := transactions;
       BankStatement.settings :=
         {| OFXSettings.language := language;
            OFXSettings.currency := currency;
            OFXSettings.version := version;
            OFXSettings.encoding := encoding;
            OFXSettings.charset := charset;
            OFXSettings.security := security;
            OFXSettings.compression := compression |};
       BankStatement.credit_card_account := cc |} uid
  = OFXGenerator.generate g
      {| BankStatement.financial_institution := fi;
         BankStatement.bank_account := account;
         BankStatement.balance := balance;
         BankStatement.start_date := start_date;
         BankStatement.end_date := end_date;
         BankStatement.transactions := transactions;
         BankStatement.settings :=
           {| OFXSettings.language := language;
              OFXSettings.currency := currency;
              OFXSettings.version := version';
              OFXSettings.encoding := encoding';
              OFXSettings.charset := charset';
              OFXSettings.security := security';
              OFXSettings.compression := compression' |};
         BankStatement.credit_card_account := cc |} uid.
Proof.
  reflexivity.
Qed.

End SettingsUnread.

(* ================================================================== *)
(** * Decimal strings *)

Example parse_decimal_examples :
  DecimalText.parse_decimal "-100.00" = Some Example.minus_100_00
  /\ DecimalText.parse_decimal "1E+3"
     = Some {| Decimal.sign := false; Decimal.coefficient := 1;
               Decimal.exponent := 3 |}
  /\ DecimalText.parse_decimal "1.23E-7"
     = Some {| Decimal.sign := false; Decimal.coefficient := 123;
               Decimal.exponent := -9 |}
  /\ DecimalText.parse_decimal "0.00123"
     = Some {| Decimal.sign := false; Decimal.coefficient := 123;
               Decimal.exponent := -5 |}
  /\ DecimalText.parse_decimal "abc" = None.
Proof. repeat split; reflexivity. Qed.

Section DecimalStrings.

Lemma split_at_found (c : ascii) (a b : string) :
  PyStr.all (fun x => negb (Ascii.eqb x c)) a = true ->
  DecimalText.split_at c (a ++ String c b) = Some (a, b).
Proof.
  induction a as [| x a IH]; cbn [append DecimalText.split_at PyStr.all].
  - now rewrite Ascii.eqb_refl.
  - rewrite andb_true_iff, negb_true_iff. intros [Hx Ha].
    now rewrite Hx, (IH Ha).
Qed.

Lemma split_at_missing (c : ascii) (a : string) :
  PyStr.all (fun x => negb (Ascii.eqb x c)) a = true ->
  DecimalText.split_at c a = None.
Proof.
  induction a as [| x a IH]; cbn [DecimalText.split_at PyStr.all]; [reflexivity |].
  rewrite andb_true_iff, negb_true_iff. intros [Hx Ha].
  now rewrite Hx, (IH Ha).
Qed.

Lemma all_impl (p q : ascii -> bool) (s : string) :
  (forall x, p x = true -> q x = true) ->
  PyStr.all p s = true -> PyStr.all q s = true.
Proof.
  intros H. induction s as [| x s IH]; cbn [PyStr.all]; [reflexivity |].
  rewrite !andb_true_iff. intros [Hx Hs]. auto.
Qed.

Lemma digit_not_E (c : ascii) :
  PyStr.is_ascii_digit c = true -> negb (Ascii.eqb c "E") = true.
Proof.
  destruct c as [[] [] [] [] [] [] [] []]; intros H;
    reflexivity || discriminate H.
Qed.

Lemma digit_is_not_point (c : ascii) :
  PyStr.is_ascii_digit c = true -> negb (Ascii.eqb c ".") = true.
Proof.
  intros H. now rewrite (digit_not_point c H).
Qed.

Lemma len_substring (s : string) (k m : nat) :
  (k + m <= PyStr.len s)%nat -> PyStr.len (substring k m s) = m.
Proof.
  unfold PyStr.len. revert k m.
  induction s as [| c s IH]; intros k m H; simpl in H.
  - assert (k = 0 /\ m = 0)%nat as [-> ->] by lia. reflexivity.
  - destruct k as [| k]; simpl.
    + destruct m as [| m]; simpl; [reflexivity |].
      rewrite IH by lia. reflexivity.
    + apply IH. lia.
Qed.

Lemma all_substring (p : ascii -> bool) (s : string) (k m : nat) :
  PyStr.all p s = true -> PyStr.all p (substring k m s) = true.
Proof.
  revert k m.
  induction s as [| c s IH]; intros k m H.
  - destruct k, m; reflexivity.
  - cbn [PyStr.all] in H. apply andb_true_iff in H. destruct H as [Hc Hs].
    destruct k as [| k]; simpl.
    + destruct m as [| m]; simpl; [reflexivity |].
      now rewrite Hc, IH.
    + now apply IH.
Qed.

(** A string is its first [k] characters followed by the rest. *)
Lemma substring_split (s : string) (k : nat) :
  (k <= PyStr.len s)%nat ->
  substring 0 k s ++ substring k (PyStr.len s - k) s = s.
Proof.
  unfold PyStr.len. revert k.
  induction s as [| c s IH]; intros k H; simpl in H.
  - assert (k = 0)%nat as -> by lia. reflexivity.
  - destruct k as [| k].
    + cbn [substring append String.length Nat.sub].
      f_equal. apply (substring_all s).
    + cbn [substring append String.length Nat.sub].
      f_equal. apply IH. lia.
Qed.

(** Digits after any number of zeros read as the digits do. *)
Lemma to_N_zeros (k : nat) (c : N) :
  Spec.to_N (PyStr.times "0" k ++ PyStr.of_N c) = Some c.
Proof.
  assert (H : option_map N.of_uint
                (NilEmpty.uint_of_string (PyStr.times "0" k ++ PyStr.of_N c))
              = Some c).
  { unfold PyStr.of_N.
    rewrite uint_of_zeros, NilEmpty.usu. simpl.
    now rewrite N_of_zeros, DecimalN.Unsigned.of_to. }
  unfold Spec.to_N.
  destruct (PyStr.times "0" k ++ PyStr.of_N c) as [| x s] eqn:E; [| exact H].
  exfalso.
  assert (L : PyStr.len (PyStr.times "0" k ++ PyStr.of_N c) = 0%nat)
    by now rewrite E.
  destruct (of_N_nonempty c) as [y [r Ey]].
  rewrite len_app, Ey in L. simpl in L. lia.
Qed.

Lemma signed_integer_of_Z (z : Z) :
  DecimalText.signed_integer (PyStr.of_Z_signed z) = Some z.
Proof.
  unfold PyStr.of_Z_signed, DecimalText.signed_integer.
  destruct (Z.ltb_spec z 0) as [H | H]; cbn [append Ascii.eqb Bool.eqb];
    rewrite to_N_of_N; cbn [option_map]; f_equal; lia.
Qed.

End DecimalStrings.

Section DecimalRoundTrip.

Open Scope Z_scope.

(** The exponent part [str] writes, and the exponent it stands for. *)
Lemma split_exponent (m : string) (xe : option Z) :
  PyStr.all (fun x => negb (Ascii.eqb x "E")) m = true ->
  match DecimalText.split_at "E"
          (m ++ match xe with
                | Some z => "E" ++ PyStr.of_Z_signed z
                | None => EmptyString
                end) with
  | Some (m', x) => (m', DecimalText.signed_integer x)
  | None =>
      (m ++ match xe with
            | Some z => "E" ++ PyStr.of_Z_signed z
            | None => EmptyString
            end, Some 0)
  end
  = (m, Some match xe with Some z => z | None => 0 end).
Proof.
  intros H. destruct xe as [z |].
  - change ("E" ++ PyStr.of_Z_signed z) with (String "E" (PyStr.of_Z_signed z)).
    now rewrite (split_at_found "E" m _ H), signed_integer_of_Z.
  - now rewrite app_empty_r, (split_at_missing "E" m H).
Qed.

(** A mantissa with a point among its digits. *)
Lemma parse_unsigned_point (ip fp : string) (c : N) (xe : option Z) :
  PyStr.all PyStr.is_ascii_digit ip = true ->
  PyStr.truthy ip = true ->
  PyStr.all PyStr.is_ascii_digit fp = true ->
  Spec.to_N (ip ++ fp) = Some c ->
  DecimalText.parse_unsigned
    ((ip ++ "." ++ fp)
     ++ match xe with
        | Some z => "E" ++ PyStr.of_Z_signed z
        | None => EmptyString
        end)
  = Some (c, match xe with Some z => z | None => 0 end
             - Z.of_nat (PyStr.len fp)).
Proof.
  intros Hip Ht Hfp Hc. unfold DecimalText.parse_unsigned.
  rewrite split_exponent.
  - cbn [fst snd].
    change (ip ++ "." ++ fp) with (ip ++ String "." fp).
    rewrite (split_at_found "." ip fp)
      by (apply (all_impl _ _ _ digit_is_not_point Hip)).
    cbn [fst snd]. now rewrite Ht, Hc.
  - rewrite !all_app.
    rewrite (all_impl _ _ _ digit_not_E Hip), (all_impl _ _ _ digit_not_E Hfp).
    reflexivity.
Qed.

(** A mantissa of digits only. *)
Lemma parse_unsigned_whole (ip : string) (c : N) (xe : option Z) :
  PyStr.all PyStr.is_ascii_digit ip = true ->
  PyStr.truthy ip = true ->
  Spec.to_N ip = Some c ->
  DecimalText.parse_unsigned
    (ip ++ match xe with
           | Some z => "E" ++ PyStr.of_Z_signed z
           | None => EmptyString
           end)
  = Some (c, match xe with Some z => z | None => 0 end).
Proof.
  intros Hip Ht Hc. unfold DecimalText.parse_unsigned.
  rewrite split_exponent by (apply (all_impl _ _ _ digit_not_E Hip)).
  cbn [fst snd].
  rewrite (split_at_missing "." ip)
    by (apply (all_impl _ _ _ digit_is_not_point Hip)).
  cbn [fst snd]. rewrite Ht, app_empty_r, Hc. cbn [PyStr.len String.length].
  f_equal. f_equal. lia.
Qed.

(** A sign in front of a body that starts with a digit. *)
Lemma parse_decimal_signed (negative : bool) (body : string) (c : N) (e : Z) :
  (exists x r, body = String x r /\ PyStr.is_ascii_digit x = true) ->
  DecimalText.parse_unsigned body = Some (c, e) ->
  DecimalText.parse_decimal ((if negative then "-" else EmptyString) ++ body)
  = Some {| Decimal.sign := negative; Decimal.coefficient := c;
            Decimal.exponent := e |}.
Proof.
  intros [x [r [-> Hx]]] H. unfold DecimalText.parse_decimal.
  destruct negative; cbn [append Ascii.eqb Bool.eqb andb].
  - now rewrite H.
  - now rewrite (digit_not_minus x Hx), H.
Qed.

End DecimalRoundTrip.

Section DecimalStr.

Open Scope Z_scope.

Lemma of_N_first_digit (c : N) :
  exists x r, PyStr.of_N c = String x r /\ PyStr.is_ascii_digit x = true.
Proof.
  destruct (of_N_nonempty c) as [x [r E]].
  pose proof (of_N_digits c) as D. rewrite E in D.
  cbn [PyStr.all] in D. apply andb_true_iff in D.
  exists x, r. tauto.
Qed.

Lemma substring_first_digit (s : string) (k : nat) :
  (0 < k)%nat ->
  (exists x r, s = String x r /\ PyStr.is_ascii_digit x = true) ->
  exists x r, substring 0 k s = String x r /\ PyStr.is_ascii_digit x = true.
Proof.
  intros Hk [x [r [-> Hx]]].
  destruct k as [| k]; [lia |].
  exists x, (substring 0 k r). split; [reflexivity | exact Hx].
Qed.

Lemma truthy_first (s : string) :
  (exists x r, s = String x r /\ PyStr.is_ascii_digit x = true) ->
  PyStr.truthy s = true.
Proof.
  intros [x [r [-> _]]]. reflexivity.
Qed.

Lemma str_parse_decimal (d : Decimal.t) :
  DecimalText.parse_decimal (Decimal.str d) = Some d.
Proof.
  destruct d as [sg c e]. unfold Decimal.str.
  cbn [Decimal.sign Decimal.coefficient Decimal.exponent]. cbv zeta.
  pose proof (of_N_first_digit c) as Hfirst.
  pose proof (of_N_digits c) as Hdig.
  pose proof (to_N_of_N c) as HN.
  assert (Hlen : (1 <= PyStr.len (PyStr.of_N c))%nat).
  { destruct Hfirst as [x [r [E _]]]. rewrite E. simpl. lia. }
  set (digits := PyStr.of_N c) in *.
  set (n := Z.of_nat (PyStr.len digits)) in *.
  assert (Hn : 1 <= n) by lia.
  apply parse_decimal_signed.
  - (* the text after the sign starts with a digit *)
    destruct ((e <=? 0) && (-6 <? e + n)).
    + destruct (Z.leb_spec (e + n) 0); [eexists; eexists; split; reflexivity |].
      destruct (Z.leb_spec n (e + n)).
      * destruct Hfirst as [x [r [-> Hx]]]. cbn [append]. eauto.
      * destruct (substring_first_digit digits (Z.to_nat (e + n)))
          as [x [r [-> Hx]]]; [lia | exact Hfirst |].
        cbn [append]. eauto.
    + cbn [Z.leb Z.compare].
      destruct (Z.leb_spec n 1).
      * destruct Hfirst as [x [r [-> Hx]]]. cbn [append]. eauto.
      * destruct (substring_first_digit digits (Z.to_nat 1))
          as [x [r [-> Hx]]]; [lia | exact Hfirst |].
        cbn [append]. eauto.
  - destruct ((e <=? 0) && (-6 <? e + n)) eqn:Plain.
    + (* plain notation *)
      apply andb_true_iff in Plain. destruct Plain as [He Hl].
      apply Z.leb_le in He. apply Z.ltb_lt in Hl.
      rewrite Z.eqb_refl.
      destruct (Z.leb_spec (e + n) 0) as [C1 | C1].
      * (* 0.000ddd *)
        set (fp := PyStr.times "0" (Z.to_nat (- (e + n))) ++ digits).
        assert (E : DecimalText.parse_unsigned
                      (("0" ++ "." ++ fp) ++ EmptyString)
                    = Some (c, 0 - Z.of_nat (PyStr.len fp))).
        { apply (parse_unsigned_point "0" fp c None); try reflexivity.
          - subst fp. now rewrite all_app, zeros_digits, Hdig.
          - subst fp.
            change ("0" ++ PyStr.times "0" (Z.to_nat (- (e + n))) ++ digits)
              with (PyStr.times "0" (S (Z.to_nat (- (e + n)))) ++ digits).
            apply to_N_zeros. }
        change (DecimalText.parse_unsigned
                  (("0" ++ "." ++ fp) ++ EmptyString) = Some (c, e)).
        rewrite E. do 2 f_equal.
        subst fp. rewrite len_app, len_times. lia.
      * destruct (Z.leb_spec n (e + n)) as [C2 | C2].
        -- (* ddd *)
           assert (e = 0) by lia. subst e.
           replace (Z.to_nat (0 + n - n)) with 0%nat by lia.
           cbn [PyStr.times]. rewrite !app_empty_r.
           rewrite <- (app_empty_r digits).
           apply (parse_unsigned_whole digits c None);
             [exact Hdig | now apply truthy_first | exact HN].
        -- (* dd.ddd *)
           set (k := Z.to_nat (e + n)).
           set (ip := substring 0 k digits).
           set (fp := substring k (Z.to_nat (n - (e + n))) digits).
           assert (Hk : (0 < k <= PyStr.len digits)%nat) by lia.
           assert (Hm : Z.to_nat (n - (e + n)) = (PyStr.len digits - k)%nat)
             by lia.
           assert (E : DecimalText.parse_unsigned
                         ((ip ++ "." ++ fp) ++ EmptyString)
                       = Some (c, 0 - Z.of_nat (PyStr.len fp))).
           { apply (parse_unsigned_point ip fp c None).
             - now apply all_substring.
             - apply truthy_first, substring_first_digit; [lia | exact Hfirst].
             - now apply all_substring.
             - subst ip fp. rewrite Hm, substring_split by lia. exact HN. }
           replace (ip ++ ("." ++ fp) ++ EmptyString)
             with ((ip ++ "." ++ fp) ++ EmptyString)
             by (now rewrite !app_assoc).
           rewrite E. do 2 f_equal.
           subst fp. rewrite len_substring by lia. lia.
    + (* scientific notation *)
      apply andb_false_iff in Plain.
      assert (Hsci : 0 < e \/ e + n <= -6).
      { destruct Plain as [H | H];
          [apply Z.leb_gt in H | apply Z.ltb_ge in H]; lia. }
      cbn [Z.leb Z.compare].
      destruct (Z.eqb_spec (e + n) 1) as [C0 | C0]; [lia |].
      destruct (Z.leb_spec n 1) as [C2 | C2].
      * (* dE+x *)
        replace (Z.to_nat (1 - n)) with 0%nat by lia.
        cbn [PyStr.times]. rewrite !app_empty_r.
        change (EmptyString ++ "E" ++ PyStr.of_Z_signed (e + n - 1))
          with ("E" ++ PyStr.of_Z_signed (e + n - 1)).
        rewrite (parse_unsigned_whole digits c (Some (e + n - 1)));
          [do 2 f_equal; lia | exact Hdig | now apply truthy_first
          | exact HN].
      * (* d.dddE+x *)
        set (ip := substring 0 (Z.to_nat 1) digits).
        set (fp := substring (Z.to_nat 1) (Z.to_nat (n - 1)) digits).
        assert (Hm : Z.to_nat (n - 1) = (PyStr.len digits - Z.to_nat 1)%nat)
          by lia.
        assert (E : DecimalText.parse_unsigned
                      ((ip ++ "." ++ fp)
                       ++ "E" ++ PyStr.of_Z_signed (e + n - 1))
                    = Some (c, e + n - 1 - Z.of_nat (PyStr.len fp))).
        { apply (parse_unsigned_point ip fp c (Some (e + n - 1))).
          - now apply all_substring.
          - apply truthy_first, substring_first_digit; [lia | exact Hfirst].
          - now apply all_substring.
          - subst ip fp. rewrite Hm, substring_split by lia. exact HN. }
        replace (ip ++ ("." ++ fp) ++ "E" ++ PyStr.of_Z_signed (e + n - 1))
          with ((ip ++ "." ++ fp) ++ "E" ++ PyStr.of_Z_signed (e + n - 1))
          by (now rewrite !app_assoc).
        rewrite E. do 2 f_equal.
        subst fp. rewrite len_substring by lia. lia.
Qed.

(** X17.  The string [str] writes for a decimal reads back as that
    decimal: same sign, same coefficient and same exponent, in plain and
    in scientific notation. *)
Theorem Decimal_str_round_trip (d : Decimal.t) :
  DecimalText.parse_decimal (Decimal.str d) = Some d.
Proof.
  apply str_parse_decimal.
Qed.

End DecimalStr.

Section Amounts.

Context {P : Platform}.

Variables (g : OFXGenerator.t) (st : BankStatement.t) (uid : string).

Lemma iter_TRNAMT_stmttrn (t : Transaction.t) :
  ET.iter "TRNAMT" (OFXGenerator.stmttrn g t)
  = [ET.Elem "TRNAMT" [] (Some (Decimal.str (Transaction.amount t))) []].
Proof.
  rewrite stmttrn_unfold.
  destruct (Transaction.check_num t) as [[| c1 s1] |],
           (Transaction.ref_num t) as [[| c2 s2] |],
           (Transaction.memo t) as [[| c3 s3] |]; reflexivity.
Qed.

Lemma iter_TRNAMT_document :
  ET.iter "TRNAMT" (OFXGenerator.generate_tree g st uid)
  = map (fun t => ET.Elem "TRNAMT" []
                    (Some (Decimal.str (Transaction.amount t))) [])
      (BankStatement.transactions st).
Proof.
  open_generate_tree st; walk;
    apply (flat_map_iter_one "TRNAMT"), iter_TRNAMT_stmttrn.
Qed.

Lemma iter_BALAMT_document :
  ET.iter "BALAMT" (OFXGenerator.generate_tree g st uid)
  = [ET.Elem "BALAMT" []
       (Some (Decimal.str (Balance.amount (BankStatement.balance st)))) []].
Proof.
  open_generate_tree st; walk;
    rewrite ?flat_map_stmttrn_other by reflexivity; reflexivity.
Qed.

(** X18.  The amounts of the document are exact: the [TRNAMT] elements
    read back as the amounts of the transactions, in the order of the
    statement, and the [BALAMT] element as the amount of the balance, with
    the same sign, coefficient and exponent. *)
Theorem amounts_read_back :
  map (fun e => match ET.text e with
                | Some s => DecimalText.parse_decimal s
                | None => None
                end)
    (ET.iter "TRNAMT" (OFXGenerator.generate_tree g st uid))
  = map (fun t => Some (Transaction.amount t)) (BankStatement.transactions st)
  /\ map (fun e => match ET.text e with
                   | Some s => DecimalText.parse_decimal s
                   | None => None
                   end)
       (ET.iter "BALAMT" (OFXGenerator.generate_tree g st uid))
     = [Some (Balance.amount (BankStatement.balance st))].
Proof.
  split.
  - rewrite iter_TRNAMT_document, map_map. cbn [ET.text].
    apply map_ext. intros t. apply str_parse_decimal.
  - rewrite iter_BALAMT_document. cbn [map ET.text].
    now rewrite str_parse_decimal.
Qed.

End Amounts.

(* ================================================================== *)
(** * The account aggregate and the unused transaction check *)

Section AccountAggregate.

Context {P : Platform}.

Variables (g : OFXGenerator.t) (st : BankStatement.t) (uid : string).

(** X19.  The document has one account aggregate, holding the bank id,
    the branch id, the account id and the code of the account type, in this
    order; the branch element carries the branch id as given, and its
    serialised form, the empty element for no or an empty branch id, is
    part of the generated string. *)
Theorem account_aggregate_layout :
  ET.iter "BANKACCTFROM" (OFXGenerator.generate_tree g st uid)
  = [ ET.Elem "BANKACCTFROM" [] None
        [ ET.Elem "BANKID" []
            (Some (BankAccount.bank_id (BankStatement.bank_account st))) [];
          ET.Elem "BRANCHID" []
            (BankAccount.branch_id (BankStatement.bank_account st)) [];
          ET.Elem "ACCTID" []
            (Some (BankAccount.account_id (BankStatement.bank_account st))) [];
          ET.Elem "ACCTTYPE" []
            (Some (AccountType.value
                     (BankAccount.account_type
                        (BankStatement.bank_account st)))) [] ] ]
  /\ Spec.occurs
       (match BankAccount.branch_id (BankStatement.bank_account st) with
        | Some (String c s) =>
            "<BRANCHID>" ++ ET._escape_cdata (String c s) ++ "</BRANCHID>"
        | _ => "<BRANCHID />"
        end)
       (OFXGenerator.generate g st uid).
Proof.
  split; [apply iter_BANKACCTFROM_document |].
  pose proof (BRANCHID_in_document g st uid) as H.
  unfold ET.tostring in H. rewrite serialize_text_leaf in H.
  destruct (BankAccount.branch_id (BankStatement.bank_account st))
    as [[| c s] |]; exact H.
Qed.

End AccountAggregate.

Section PostInit.

Variable self : Transaction.raw.

Lemma too_long_iff (x : option string) (n : nat) :
  Transaction.too_long x n = false
  <-> forall s, x = Some s -> (PyStr.len s <= n)%nat.
Proof.
  unfold Transaction.too_long.
  destruct x as [s |].
  - rewrite andb_false_iff, Nat.ltb_ge. split.
    + intros [H | H] s' E; injection E as <-; [| exact H].
      destruct s; [simpl; lia | discriminate H].
    + intros H. right. now apply H.
  - split; [intros _ s E; discriminate E | reflexivity].
Qed.

Lemma validate_fit_id_iff (s : string) :
  validate_fit_id s = true <-> (1 <= PyStr.len s <= 255)%nat.
Proof.
  unfold validate_fit_id.
  rewrite andb_true_iff, truthy_len, Nat.leb_le. tauto.
Qed.

(** The transaction type of an object is made a member exactly when it is
    that member already or the value of that member. *)
Lemma coerce_TransactionType_iff (x : TransactionType.t + string)
    (m : TransactionType.t) :
  coerce TransactionType.of_value x = Ok m
  <-> x = inl m \/ x = inr (TransactionType.value m).
Proof.
  destruct x as [m' | v]; cbn [coerce].
  - split.
    + intros E. injection E as ->. now left.
    + intros [E | E]; [injection E as -> | discriminate E]. reflexivity.
  - split.
    + intros E. apply enum_lookup_sound in E. subst v. now right.
    + intros [E | E]; [discriminate E | injection E as ->].
      destruct m; reflexivity.
Qed.

(** A string that is the value of no member is refused with [ValueError]. *)
Lemma TransactionType_of_value_unknown (code : string) :
  (forall m, TransactionType.value m <> code) ->
  TransactionType.of_value code = Raise (ValueError code "TransactionType").
Proof.
  intros Hno. unfold TransactionType.of_value, enum_lookup.
  destruct (find (fun m => String.eqb (TransactionType.value m) code)
              TransactionType.members) as [m |] eqn:F; [| reflexivity].
  apply find_some in F. destruct F as [_ F].
  apply String.eqb_eq in F. destruct (Hno m F).
Qed.

(** X20.  The check [__post_init__] of a transaction, which no
    construction runs.  It passes exactly when the transaction type is a
    member or the value of a member, the FIT id has 1 to 255 characters,
    the memo at most 255 and the check and reference numbers at most 32
    each, where present; the object then carries that member as its type
    and its other attributes unchanged.  A transaction type that is a
    string and the value of no member makes it raise [ValueError],
    whatever the other attributes are. *)
Theorem Transaction_post_init_passes :
  (forall t : Transaction.t,
      Transaction.__post_init__ self = Ok t
      <-> (Transaction.raw_transaction_type self
           = inl (Transaction.transaction_type t)
           \/ Transaction.raw_transaction_type self
              = inr (TransactionType.value (Transaction.transaction_type t)))
          /\ t = {| Transaction.transaction_type :=
                      Transaction.transaction_type t;
                    Transaction.date_posted :=
                      Transaction.raw_date_posted self;
                    Transaction.amount := Transaction.raw_amount self;
                    Transaction.fit_id := Transaction.raw_fit_id self;
                    Transaction.check_num :=
                      Transaction.raw_check_num self;
                    Transaction.ref_num := Transaction.raw_ref_num self;
                    Transaction.memo := Transaction.raw_memo self |}
          /\ (1 <= PyStr.len (Transaction.raw_fit_id self) <= 255)%nat
          /\ (forall s, Transaction.raw_memo self = Some s ->
                        (PyStr.len s <= 255)%nat)
          /\ (forall s, Transaction.raw_check_num self = Some s ->
                        (PyStr.len s <= 32)%nat)
          /\ (forall s, Transaction.raw_ref_num self = Some s ->
                        (PyStr.len s <= 32)%nat))
  /\ (forall code : string,
        Transaction.raw_transaction_type self = inr code ->
        (forall m, TransactionType.value m <> code) ->
        Transaction.__post_init__ self
        = Raise (ValueError code "TransactionType")).
Proof.
  split.
  - intros t. unfold Transaction.__post_init__.
    rewrite <- coerce_TransactionType_iff, <- validate_fit_id_iff,
      <- !too_long_iff.
    destruct (coerce TransactionType.of_value
                (Transaction.raw_transaction_type self)) as [ty | e];
      cbn [bind];
      [| split; [discriminate | intros [H _]; discriminate H]].
    destruct (validate_fit_id (Transaction.raw_fit_id self));
      cbn [negb raise_if bind];
      [| split; [discriminate | intros [_ [_ [H _]]]; discriminate H]].
    destruct (Transaction.too_long (Transaction.raw_memo self) 255);
      cbn [raise_if bind];
      [split; [discriminate | intros [_ [_ [_ [H _]]]]; discriminate H] |].
    destruct (Transaction.too_long (Transaction.raw_check_num self) 32);
      cbn [raise_if bind];
      [split; [discriminate | intros [_ [_ [_ [_ [H _]]]]]; discriminate H]
      |].
    destruct (Transaction.too_long (Transaction.raw_ref_num self) 32);
      cbn [raise_if bind];
      [split; [discriminate | intros [_ [_ [_ [_ [_ H]]]]]; discriminate H]
      |].
    split.
    + intros E. injection E as <-. cbn. auto 10.
    + intros [E [-> _]]. injection E as ->. reflexivity.
  - intros code E Hno. unfold Transaction.__post_init__.
    rewrite E. cbn [coerce].
    rewrite (TransactionType_of_value_unknown code Hno). reflexivity.
Qed.

End PostInit.

Lemma Transaction_post_init_passes_witness :
  Transaction.__post_init__
    {| Transaction.raw_transaction_type := inr "CREDIT";
       Transaction.raw_date_posted := Example.ymd 2025 1 22;
       Transaction.raw_amount := Example.plus_500_00;
       Transaction.raw_fit_id := "202501220000";
       Transaction.raw_check_num := None;
       Transaction.raw_ref_num := None;
       Transaction.raw_memo := Some "Salary" |}
  = Ok {| Transaction.transaction_type := TransactionType.CREDIT;
          Transaction.date_posted := Example.ymd 2025 1 22;
          Transaction.amount := Example.plus_500_00;
          Transaction.fit_id := "202501220000";
          Transaction.check_num := None;
          Transaction.ref_num := None;
          Transaction.memo := Some "Salary" |}
  /\ Transaction.__post_init__
       {| Transaction.raw_transaction_type := inr "bogus";
          Transaction.raw_date_posted := Example.ymd 2025 1 22;
          Transaction.raw_amount := Example.plus_500_00;
          Transaction.raw_fit_id := EmptyString;
          Transaction.raw_check_num := None;
          Transaction.raw_ref_num := None;
          Transaction.raw_memo := None |}
     = Raise (ValueError "bogus" "TransactionType").
Proof.
  split.
  - apply (proj1 (Transaction_post_init_passes _)).
    split; [right; reflexivity |].
    split; [reflexivity |].
    split; [simpl; lia |].
    repeat split; intros s E; try discriminate E.
    injection E as <-. simpl. lia.
  - eapply (proj2 (Transaction_post_init_passes _));
      [reflexivity | intros m; destruct m; discriminate].
Defined.

